(** * KTX boarding dashboard ([app.py]): the pandas pipeline and the page it renders

    The script loads [ktx.csv], filters it by the stations and the date
    interval chosen in the sidebar, and renders nine sections from the
    filtered table.  The embedding follows the script line by line:

    - a [DataFrame] is a list of rows; a row carries the six columns the
      script reads and the columns that [frame[col] = series] adds later;
    - data frames are Python objects: they live in a heap and variables hold
      locations, so that [.copy()] and in-place column assignment can be told
      apart;
    - Streamlit calls append elements to the page, and [st.stop()] ends the
      run;
    - the count columns are [int64]: sums, sums of columns and differences
      wrap around at [2^63] as the machine integers do;
    - pandas means are [float64]: the values of a group are converted to
      binary64 and summed with compensation in the order of the rows, and the
      sum is divided by the count; the [NaN] of a missing cell is [None]. *)

From Stdlib Require Import ZArith QArith List String Ascii Sorted Permutation Lia.
From Stdlib Require Import OrderedTypeEx SpecFloat.
From stdpp Require Import base list strings sorting.

Local Open Scope string_scope.
Local Open Scope list_scope.
Local Open Scope Z_scope.

(** ** Dates and timestamps *)

Module Datetime.

(** [datetime.date]: compared field by field, year first. *)
Record date := mkDate { year : Z; month : Z; day : Z }.

Definition date_compare (a b : date) : comparison :=
  match year a ?= year b with
  | Eq => match month a ?= month b with
          | Eq => day a ?= day b
          | c => c
          end
  | c => c
  end.

(** [a <= b] and [a > b] on dates. *)
Definition date_leb (a b : date) : bool :=
  match date_compare a b with Gt => false | _ => true end.
Definition date_gtb (a b : date) : bool :=
  match date_compare a b with Gt => true | _ => false end.

(** [pandas.Timestamp]: a date and the nanoseconds elapsed in that day. *)
Record Timestamp := mkTimestamp { ts_date : date; ts_nanos : Z }.

Definition ts_compare (a b : Timestamp) : comparison :=
  match date_compare (ts_date a) (ts_date b) with
  | Eq => ts_nanos a ?= ts_nanos b
  | c => c
  end.

Definition digit (d : Z) : ascii := ascii_of_N (48 + Z.to_N (d mod 10)).

(** [strftime('%Y-%m')]: four digits of the year, a dash, two digits of the
    month.  A [Timestamp] lies between the years 1677 and 2262, where [%Y]
    always prints four digits. *)
Definition strftime_Ym (t : Timestamp) : string :=
  let y := year (ts_date t) in
  let m := month (ts_date t) in
  String (digit (y / 1000)) (String (digit (y / 100)) (String (digit (y / 10))
    (String (digit y) (String "-"%char (String (digit (m / 10))
      (String (digit m) EmptyString)))))).

End Datetime.
Export Datetime.

(** ** Machine arithmetic: [int64] columns and [float64] results *)

Module Int64.

(** The value a signed 64-bit integer holds for the integer [z]: [z] itself
    between [-2^63] and [2^63 - 1], and its wrap-around by multiples of
    [2^64] outside. *)
Definition wrap (z : Z) : Z :=
  (z + 9223372036854775808) mod 18446744073709551616 - 9223372036854775808.

(** [a + b] and [a - b] on [int64]. *)
Definition add (a b : Z) : Z := wrap (a + b).
Definition sub (a b : Z) : Z := wrap (a - b).

Definition min_int : Z := -9223372036854775808.

End Int64.

Module Float64.

(** IEEE 754 binary64, as the Standard Library specifies it: 53 bits of
    precision, every operation rounded to nearest, ties to even. *)
Definition prec : Z := 53.
Definition emax : Z := 1024.

Definition zero : spec_float := S754_zero false.
Definition add (x y : spec_float) : spec_float := SFadd prec emax x y.
Definition sub (x y : spec_float) : spec_float := SFsub prec emax x y.
Definition div (x y : spec_float) : spec_float := SFdiv prec emax x y.

(** The conversion of an [int64] to [float64]. *)
Definition of_int64 (z : Z) : spec_float := binary_normalize prec emax z 0 false.

Definition is_nan (x : spec_float) : bool :=
  match x with S754_nan => true | _ => false end.

(** The integer that [numpy.rint] gives for a finite [x]: the nearest one,
    the even one of two that are equally near. *)
Definition rint (x : spec_float) : option Z :=
  match x with
  | S754_zero _ => Some 0
  | S754_finite s m e =>
      let v :=
        match e with
        | Zneg p =>
            let q := Z.pos m / 2 ^ Z.pos p in
            let r := Z.pos m mod 2 ^ Z.pos p in
            match 2 * r ?= 2 ^ Z.pos p with
            | Lt => q
            | Gt => q + 1
            | Eq => if Z.even q then q else q + 1
            end
        | _ => Z.pos m * 2 ^ e
        end in
      Some (if s then - v else v)
  | _ => None
  end.

End Float64.

(** ** The part of pandas the script uses *)

Module Pandas.

(** A cell of a column added after loading. *)
Inductive value := VInt (z : Z) | VStr (s : string).

(** One row of [ktx.csv].  [period] is the column 운행년월, [station] is
    정차역, [down_board] 하행_승차인원수, [down_alight] 하행_하차인원수,
    [up_board] 상행_승차인원수 and [up_alight] 상행_하차인원수; the four
    counts are [int64], the type [read_csv] gives a column of integers.
    [derived] holds the columns assigned later, in the order of
    assignment. *)
Record Row := mkRow {
  period : Timestamp;
  station : string;
  down_board : Z;
  down_alight : Z;
  up_board : Z;
  up_alight : Z;
  derived : list (string * value)
}.

Abbreviation DataFrame := (list Row).

(** [df.empty] *)
Definition empty (df : DataFrame) : bool :=
  match df with [] => true | _ => false end.

(** [series.isin(values)] *)
Definition isin (s : list string) (values : list string) : list bool :=
  map (fun x => existsb (String.eqb x) values) s.

(** [a & b] on boolean series. *)
Definition mask_and (a b : list bool) : list bool :=
  map (fun p => andb (fst p) (snd p)) (combine a b).

(** [frame[mask]]: the rows whose mask entry is [True], in order. *)
Definition bool_index {A : Type} (df : list A) (mask : list bool) : list A :=
  map fst (List.filter snd (combine df mask)).

Fixpoint assoc_set (col : string) (v : value) (cols : list (string * value))
  : list (string * value) :=
  match cols with
  | [] => [(col, v)]
  | (c, w) :: rest =>
      if String.eqb c col then (c, v) :: rest
      else (c, w) :: assoc_set col v rest
  end.

Fixpoint assoc_get (col : string) (cols : list (string * value)) : option value :=
  match cols with
  | [] => None
  | (c, w) :: rest => if String.eqb c col then Some w else assoc_get col rest
  end.

Definition set_cell (r : Row) (col : string) (v : value) : Row :=
  mkRow (period r) (station r) (down_board r) (down_alight r)
        (up_board r) (up_alight r) (assoc_set col v (derived r)).

(** [frame[col] = series] as a value: every row receives its cell.  The
    series is always computed from the same frame, so the lengths agree. *)
Definition setitem (df : DataFrame) (col : string) (s : list value) : DataFrame :=
  map (fun p => set_cell (fst p) col (snd p)) (combine df s).

(** [frame[col]] for an added column of strings or of integers. *)
Definition col_str (df : DataFrame) (col : string) : list string :=
  map (fun r => match assoc_get col (derived r) with
                | Some (VStr s) => s
                | _ => ""
                end) df.
Definition col_int (df : DataFrame) (col : string) : list Z :=
  map (fun r => match assoc_get col (derived r) with
                | Some (VInt z) => z
                | _ => 0
                end) df.

(** [a + b] and [a - b] on [int64] series. *)
Definition series_add (a b : list Z) : list Z :=
  map (fun p => Int64.add (fst p) (snd p)) (combine a b).
Definition series_sub (a b : list Z) : list Z :=
  map (fun p => Int64.sub (fst p) (snd p)) (combine a b).

Section Keys.
Context {A : Type} `{EqDecision A}.
Variable cmp : A -> A -> comparison.

(** [unique()]: the distinct values in order of first appearance. *)
Fixpoint unique_from (seen l : list A) : list A :=
  match l with
  | [] => []
  | x :: rest =>
      if decide (x ∈ seen) then unique_from seen rest
      else x :: unique_from (x :: seen) rest
  end.
Definition unique (l : list A) : list A := unique_from [] l.

(** Stable insertion: [x] stood before every element of [l]. *)
Fixpoint insert_sorted (x : A) (l : list A) : list A :=
  match l with
  | [] => [x]
  | y :: rest =>
      match cmp x y with
      | Gt => y :: insert_sorted x rest
      | _ => x :: y :: rest
      end
  end.

(** [sorted(l)], a stable ascending sort. *)
Fixpoint sorted (l : list A) : list A :=
  match l with
  | [] => []
  | x :: rest => insert_sorted x (sorted rest)
  end.

(** The keys of a [groupby]: distinct and ascending ([sort=True]). *)
Definition group_keys (l : list A) : list A := sorted (unique l).
End Keys.

(** The sum of a group of [int64] values: the accumulator is an [int64]
    and takes the values in the order of the rows. *)
Definition group_sum (values : list Z) : Z := fold_left Int64.add values 0.

(** The mean of a group of [int64] values.  The values are converted to
    [float64] and added up in the order of the rows with a running
    compensation for the rounding of each addition; the sum is divided by
    the number of values, and the mean of no value is [NaN]. *)
Definition kahan_step (acc : spec_float * spec_float) (val : spec_float)
  : spec_float * spec_float :=
  let sumx := fst acc in
  let compensation := snd acc in
  let y := Float64.sub val compensation in
  let t := Float64.add sumx y in
  let c := Float64.sub (Float64.sub t sumx) y in
  (t, if Float64.is_nan c then Float64.zero else c).

Definition group_mean (values : list Z) : spec_float :=
  let sumx := fst (fold_left kahan_step (map Float64.of_int64 values)
                             (Float64.zero, Float64.zero)) in
  Float64.div sumx (Float64.of_int64 (Z.of_nat (length values))).

(** Sum and mean of a column over the rows of a group. *)
Definition sum_of (f : Row -> Z) (rows : DataFrame) : Z :=
  group_sum (map f rows).
Definition mean_of (f : Row -> Z) (rows : DataFrame) : spec_float :=
  group_mean (map f rows).

(** The rows of the group of station [k]. *)
Definition group (df : DataFrame) (k : string) : DataFrame :=
  List.filter (fun r => String.eqb (station r) k) df.

(** [df.groupby('정차역')[...].agg()]: one entry per station, ascending. *)
Definition groupby_station {B : Type} (agg : DataFrame -> B) (df : DataFrame)
  : list (string * B) :=
  map (fun k => (k, agg (group df k)))
      (group_keys String.compare (map station df)).

(** Descending order on the values of a series, for [nlargest]. *)
Definition cmp_desc (a b : string * Z) : comparison := snd b ?= snd a.

(** [series.nlargest(n)] with [keep='first']: the [n] largest values in
    descending order, equal values in their order of appearance. *)
Definition nlargest (n : nat) (s : list (string * Z)) : list (string * Z) :=
  firstn n (sorted cmp_desc s).

Definition pair_compare (a b : string * string) : comparison :=
  match String.compare (fst a) (fst b) with
  | Eq => String.compare (snd a) (snd b)
  | c => c
  end.

(** [df.groupby([c1, c2])[v].mean()] where [c1] and [c2] are string columns
    and [v] is an [int64] column, given as series of the frame. *)
Definition groupby2_mean (k1 k2 : list string) (v : list Z)
  : list (string * string * spec_float) :=
  let keyed := combine (combine k1 k2) v in
  map (fun k =>
         let g := map snd (List.filter
                   (fun p => bool_decide (fst p = k)) keyed) in
         (k, group_mean g))
      (group_keys pair_compare (combine k1 k2)).

Fixpoint lookup2 (k : string * string) (s : list (string * string * spec_float))
  : option spec_float :=
  match s with
  | [] => None
  | (k', q) :: rest => if bool_decide (k' = k) then Some q else lookup2 k rest
  end.

(** The result of [unstack()]: the first key level becomes the row index,
    the second the columns; a pair without a group is [NaN] ([None]). *)
Record Pivot := mkPivot {
  index : list string;
  columns : list string;
  cells : list (list (option spec_float))
}.

Definition unstack (s : list (string * string * spec_float)) : Pivot :=
  let idx := group_keys String.compare (map (fun e => fst (fst e)) s) in
  let cols := group_keys String.compare (map (fun e => snd (fst e)) s) in
  mkPivot idx cols
    (map (fun i => map (fun c => lookup2 (i, c) s) cols) idx).

(** A row of [melt(id_vars=['정차역'], ...)]. *)
Record MeltRow := mkMeltRow {
  melt_station : string;
  melt_variable : string;
  melt_value : Z
}.

(** [df.melt(id_vars=['정차역'], value_vars=vars)]: for each value column in
    turn, one row per row of the frame. *)
Definition melt (df : DataFrame) (value_vars : list string) : list MeltRow :=
  concat (map (fun v =>
                 map (fun p => mkMeltRow (station (fst p)) v (snd p))
                     (combine df (col_int df v)))
              value_vars).

(** [round(0)] on a [float64] followed by [astype(int)].  The conversion
    of a rounded value outside [int64] gives the least [int64], as the
    conversion instruction of x86-64 does.  A mean is finite unless a group
    has more rows than a frame can hold. *)
Definition round_half_even (x : spec_float) : Z :=
  match Float64.rint x with
  | Some z => if decide (Int64.wrap z = z) then z else Int64.min_int
  | None => Int64.min_int
  end.

End Pandas.
Export Pandas.

(** ** Streamlit: the page, the object heap and the script monad *)

Module Streamlit.

(** A [go.Scatter] trace. *)
Record Scatter := mkScatter {
  sc_x : list Timestamp;
  sc_y : list Z;
  sc_mode : string;
  sc_name : string;
  sc_dash : string
}.

(** A row of [total_data] (section 3). *)
Record TotalRow := mkTotalRow {
  tot_station : string;
  tot_down : Z;
  tot_up : Z;
  tot_total : Z
}.

(** The figures handed to [st.plotly_chart], with the data they are built
    from; layout of marks and colours is the renderer's. *)
Inductive Figure :=
| go_Figure (traces : list Scatter) (title xaxis_title yaxis_title : string)
| px_bar (data : list (string * (spec_float * spec_float * spec_float
                                 * spec_float))) (title : string)
| px_pie (data : list TotalRow) (values names title : string)
| px_imshow (data : Pivot) (title : string)
| px_scatter (data : DataFrame) (title : string)
| px_box (data : list MeltRow) (title : string)
| px_line (data : DataFrame) (title : string).

Inductive Element :=
| Title (s : string)
| Header (s : string)
| Subheader (s : string)
| Error (s : string)
| Warning (s : string)
| WarningMissing (s : string) (missing : list string)
| PlotlyChart (fig : Figure)
| DataframeOf (df : DataFrame)
| DataframeStats (rows : list (string * (Z * Z * Z * Z))).

Definition loc := nat.

Record AppState := mkState {
  heap : list DataFrame;
  page : list Element
}.

(** A run ends normally, at [st.stop()], or with an uncaught exception. *)
Inductive Outcome (A : Type) :=
| Done (a : A)
| Stop
| Raised (exn : string).
Arguments Done {A} a.
Arguments Stop {A}.
Arguments Raised {A} exn.

Definition App (A : Type) : Type := AppState -> Outcome A * AppState.

Definition ret {A : Type} (a : A) : App A := fun s => (Done a, s).

Definition bind {A B : Type} (m : App A) (k : A -> App B) : App B :=
  fun s =>
    match m s with
    | (Done a, s') => k a s'
    | (Stop, s') => (Stop, s')
    | (Raised e, s') => (Raised e, s')
    end.

Definition emit (e : Element) : App unit :=
  fun s => (Done tt, mkState (heap s) (page s ++ [e])).

Definition st_stop {A : Type} : App A := fun s => (Stop, s).
Definition raise {A : Type} (e : string) : App A := fun s => (Raised e, s).

(** A new object. *)
Definition alloc (df : DataFrame) : App loc :=
  fun s => (Done (length (heap s)), mkState (heap s ++ [df]) (page s)).

(** The frame a variable refers to. *)
Definition deref (l : loc) : App DataFrame :=
  fun s => (Done (default [] (heap s !! l)), s).

(** [frame.copy()] *)
Definition copy (l : loc) : App loc := bind (deref l) alloc.

(** [frame[col] = series], in place. *)
Definition setitem_at (l : loc) (col : string) (series : DataFrame -> list value)
  : App unit :=
  fun s =>
    let df := default [] (heap s !! l) in
    (Done tt, mkState (<[l := setitem df col (series df)]> (heap s)) (page s)).

End Streamlit.
Export Streamlit.

Notation "'let*' x ':=' m 'in' k" := (bind m (fun x => k))
  (at level 10, x name, m at level 100, k at level 200, only parsing).
Notation "m >> k" := (bind m (fun _ => k))
  (at level 90, right associativity, only parsing).

(** ** The script *)

(** What [pd.read_csv] does with one encoding. *)
Inductive read_result :=
| ReadOk (raw : DataFrame)
| UnicodeDecodeError
| FileNotFoundError.

(** The file [ktx.csv] as the two decoders see it.  The rows of [ReadOk]
    carry the period as [pd.to_datetime] parses it. *)
Record FileSystem := mkFileSystem {
  read_euc_kr : read_result;
  read_cp949 : read_result
}.

(** The values the three sidebar widgets return in this run. *)
Record Widgets := mkWidgets {
  selected_stations : list string;
  start_date : date;
  end_date : date
}.

Definition msg_encoding : string :=
  "파일 인코딩을 확인할 수 없습니다. 파일이 'euc-kr' 또는 'cp949' 인코딩인지 확인해주세요.".
Definition msg_not_found : string :=
  "ktx.csv 파일을 찾을 수 없습니다. 파일이 올바른 위치에 있는지 확인해주세요.".
Definition msg_missing_stations : string :=
  "데이터에서 다음 역을 찾을 수 없습니다: ".
Definition msg_date_range : string :=
  "시작 날짜가 종료 날짜보다 늦습니다. 다시 선택해주세요.".
Definition msg_no_data : string :=
  "선택한 조건에 해당하는 데이터가 없습니다. 다른 조건을 선택해주세요.".

Definition load_data (fs : FileSystem) : App loc :=
  match read_euc_kr fs with
  | ReadOk raw => alloc raw
  | UnicodeDecodeError =>
      match read_cp949 fs with
      | ReadOk raw => alloc raw
      | UnicodeDecodeError => emit (Error msg_encoding) >> alloc []
      | FileNotFoundError => raise "FileNotFoundError"
      end
  | FileNotFoundError => emit (Error msg_not_found) >> alloc []
  end.

Definition preferred_stations : list string :=
  ["서울"; "부산"; "동대구"; "대전"; "광주송정"].

(** Lines 54-56: the mask and the rows it selects. *)
Definition filter_mask (df : DataFrame) (sel : list string) (d0 d1 : date)
  : list bool :=
  mask_and
    (mask_and (isin (map station df) sel)
              (map (fun r => date_leb d0 (ts_date (period r))) df))
    (map (fun r => date_leb (ts_date (period r)) d1) df).

Definition filter_rows (df : DataFrame) (sel : list string) (d0 d1 : date)
  : DataFrame :=
  bool_index df (filter_mask df sel d0 d1).

(** Section 1: four traces per selected station. *)
Definition station_traces (fdf : DataFrame) (st : string) : list Scatter :=
  let station_data := bool_index fdf (map (fun r => String.eqb (station r) st) fdf) in
  let x := map period station_data in
  [ mkScatter x (map down_board station_data) "lines" (st ++ " 하행 승차") "solid";
    mkScatter x (map down_alight station_data) "lines" (st ++ " 하행 하차") "solid";
    mkScatter x (map up_board station_data) "lines" (st ++ " 상행 승차") "dash";
    mkScatter x (map up_alight station_data) "lines" (st ++ " 상행 하차") "dash" ].

Definition fig_time (fdf : DataFrame) (sel : list string) : Figure :=
  go_Figure (flat_map (station_traces fdf) sel)
    "선택된 역의 시간에 따른 승하차 인원 변화" "날짜" "인원 수".

Definition section1 (sel : list string) (filtered_df : loc) : App unit :=
  emit (Header "1. 시간에 따른 승하차 인원 변화") >>
  let* fdf := deref filtered_df in
  emit (PlotlyChart (fig_time fdf sel)).

(** Section 2: the mean of the four counts per station. *)
Definition avg_data (fdf : DataFrame)
  : list (string * (spec_float * spec_float * spec_float * spec_float)) :=
  groupby_station
    (fun g => (mean_of down_board g, mean_of down_alight g,
               mean_of up_board g, mean_of up_alight g)) fdf.

Definition section2 (filtered_df : loc) : App unit :=
  emit (Header "2. 역별 평균 승하차 인원 비교") >>
  let* fdf := deref filtered_df in
  emit (PlotlyChart (px_bar (avg_data fdf) "역별 평균 승하차 인원")).

(** Section 3: boardings summed per station, and their total as a new
    column of [total_data]. *)
Definition total_data (fdf : DataFrame) : list TotalRow :=
  map (fun e => let d := fst (snd e) in
                let u := snd (snd e) in
                mkTotalRow (fst e) d u (Int64.add d u))
      (groupby_station (fun g => (sum_of down_board g, sum_of up_board g)) fdf).

Definition section3 (filtered_df : loc) : App unit :=
  emit (Header "3. 역별 총 승차 인원 비율") >>
  let* fdf := deref filtered_df in
  emit (PlotlyChart (px_pie (total_data fdf) "총_승차인원수" "정차역"
                            "역별 총 승차 인원 비율")).

(** Section 4: the month by station matrix of mean boardings. *)
Definition heatmap_pivot (hd : DataFrame) : Pivot :=
  unstack (groupby2_mean (col_str hd "월") (map station hd)
                         (col_int hd "총_승차인원수")).

Definition section4 (filtered_df : loc) : App unit :=
  emit (Header "4. 월별 승차 인원 히트맵") >>
  let* heatmap_data := copy filtered_df in
  setitem_at heatmap_data "월"
    (fun hd => map (fun r => VStr (strftime_Ym (period r))) hd) >>
  setitem_at heatmap_data "총_승차인원수"
    (fun hd => map VInt (series_add (map down_board hd) (map up_board hd))) >>
  let* hd := deref heatmap_data in
  emit (PlotlyChart (px_imshow (heatmap_pivot hd) "월별 평균 승차 인원 히트맵")).

Definition section5 (filtered_df : loc) : App unit :=
  emit (Header "5. 하행 vs 상행 승차 인원 산점도") >>
  let* fdf := deref filtered_df in
  emit (PlotlyChart (px_scatter fdf "하행 vs 상행 승차 인원")).

Definition section6 (filtered_df : loc) : App unit :=
  emit (Header "6. 데이터 테이블") >>
  let* fdf := deref filtered_df in
  emit (DataframeOf fdf).

(** Section 7: sums and rounded means per station. *)
Definition total_passengers (fdf : DataFrame) : list (string * (Z * Z * Z * Z)) :=
  groupby_station
    (fun g => (sum_of down_board g, sum_of down_alight g,
               sum_of up_board g, sum_of up_alight g)) fdf.

Definition monthly_avg (fdf : DataFrame) : list (string * (Z * Z * Z * Z)) :=
  groupby_station
    (fun g => (round_half_even (mean_of down_board g),
               round_half_even (mean_of down_alight g),
               round_half_even (mean_of up_board g),
               round_half_even (mean_of up_alight g))) fdf.

Definition section7 (filtered_df : loc) : App unit :=
  emit (Header "7. 추가 통계 정보") >>
  emit (Subheader "역별 총 승하차 인원") >>
  let* fdf := deref filtered_df in
  emit (DataframeStats (total_passengers fdf)) >>
  emit (Subheader "월평균 승하차 인원") >>
  emit (DataframeStats (monthly_avg fdf)).

(** Section 8: the two difference columns are assigned into [filtered_df]
    itself (lines 130-131), then melted. *)
Definition diff_columns : list string := ["하행_승하차차이"; "상행_승하차차이"].

Definition section8 (filtered_df : loc) : App unit :=
  emit (Header "8. 승하차 인원 차이 분석") >>
  setitem_at filtered_df "하행_승하차차이"
    (fun fdf => map VInt (series_sub (map down_board fdf) (map down_alight fdf))) >>
  setitem_at filtered_df "상행_승하차차이"
    (fun fdf => map VInt (series_sub (map up_board fdf) (map up_alight fdf))) >>
  let* fdf := deref filtered_df in
  emit (PlotlyChart (px_box (melt fdf diff_columns) "역별 승하차 인원 차이 분포")).

(** Section 9: the five stations with the largest down-direction boardings
    and their rows. *)
Definition top_5_stations (fdf : DataFrame) : list string :=
  map fst (nlargest 5 (groupby_station (sum_of down_board) fdf)).

Definition top_5_data (fdf : DataFrame) : DataFrame :=
  bool_index fdf (isin (map station fdf) (top_5_stations fdf)).

Definition section9 (filtered_df : loc) : App unit :=
  emit (Header "9. 상위 5개 역 분석") >>
  let* fdf := deref filtered_df in
  emit (PlotlyChart (px_line (top_5_data fdf) "상위 5개 역의 승차 인원 추이")).

Definition sections (sel : list string) (filtered_df : loc) : App unit :=
  section1 sel filtered_df >> section2 filtered_df >> section3 filtered_df >>
  section4 filtered_df >> section5 filtered_df >> section6 filtered_df >>
  section7 filtered_df >> section8 filtered_df >> section9 filtered_df.

(** Lines 50-60: the date check, the filter and the emptiness check.  The
    rows selected by the mask are copied into a new object. *)
Definition filter_stage (df : loc) (ui : Widgets) : App loc :=
  if date_gtb (start_date ui) (end_date ui)
  then emit (Error msg_date_range) >> st_stop
  else
    let* d := deref df in
    let* filtered_df :=
      alloc (filter_rows d (selected_stations ui) (start_date ui) (end_date ui)) in
    let* fdf := deref filtered_df in
    if empty fdf
    then emit (Warning msg_no_data) >> st_stop
    else ret filtered_df.

Definition main (fs : FileSystem) (ui : Widgets) : App unit :=
  emit (Title "KTX 승하차 인원 데이터 시각화") >>
  let* df := load_data fs in
  let* d := deref df in
  if empty d then st_stop
  else
    let all_stations := sorted String.compare (unique (map station d)) in
    let default_stations :=
      List.filter (fun s => existsb (String.eqb s) all_stations)
                  preferred_stations in
    (if (length default_stations <? 5)%nat
     then emit (WarningMissing msg_missing_stations
                  (List.filter
                     (fun s => negb (existsb (String.eqb s) default_stations))
                     preferred_stations))
     else ret tt) >>
    let* filtered_df := filter_stage df ui in
    sections (selected_stations ui) filtered_df.

Definition initial : AppState := mkState [] [].
Definition run (fs : FileSystem) (ui : Widgets) : Outcome unit * AppState :=
  main fs ui initial.

(** * Specification-side notions *)

(** The calendar order on dates, stated on the fields. *)
Definition date_lt (a b : date) : Prop :=
  year a < year b \/
  (year a = year b /\
   (month a < month b \/ (month a = month b /\ day a < day b))).

Definition date_le (a b : date) : Prop :=
  year a < year b \/
  (year a = year b /\
   (month a < month b \/ (month a = month b /\ day a <= day b))).

#[global] Instance date_le_dec (a b : date) : Decision (date_le a b).
Proof. unfold date_le. apply _. Defined.

(** A row passes the filter of the sidebar. *)
Definition qualifies (sel : list string) (d0 d1 : date) (r : Row) : Prop :=
  station r ∈ sel /\
  date_le d0 (ts_date (period r)) /\ date_le (ts_date (period r)) d1.

#[global] Instance qualifies_dec sel d0 d1 r : Decision (qualifies sel d0 d1 r).
Proof. unfold qualifies. apply _. Defined.

(** The table that [load_data] returns, when it returns one with rows to
    read from. *)
Definition loaded_table (fs : FileSystem) : option DataFrame :=
  match read_euc_kr fs with
  | ReadOk raw => Some raw
  | UnicodeDecodeError =>
      match read_cp949 fs with
      | ReadOk raw => Some raw
      | _ => None
      end
  | FileNotFoundError => None
  end.

(** Elements that show results, as opposed to titles and messages. *)
Definition is_result (e : Element) : bool :=
  match e with
  | PlotlyChart _ | DataframeOf _ | DataframeStats _ => true
  | _ => false
  end.

(** The mask of lines 54-56 selects with one boolean test per row. *)
Definition keeps (sel : list string) (d0 d1 : date) (r : Row) : bool :=
  existsb (String.eqb (station r)) sel
  && date_leb d0 (ts_date (period r)) && date_leb (ts_date (period r)) d1.

(** The page when the filter stage starts: the title and, when a preferred
    station is absent from the table, the warning that lists the absent ones. *)
Definition page_before_filter (df : DataFrame) : list Element :=
  let all_stations := sorted String.compare (unique (map station df)) in
  let default_stations :=
    List.filter (fun s => existsb (String.eqb s) all_stations)
                preferred_stations in
  Title "KTX 승하차 인원 데이터 시각화" ::
  (if (length default_stations <? 5)%nat
   then [WarningMissing msg_missing_stations
           (List.filter
              (fun s => negb (existsb (String.eqb s) default_stations))
              preferred_stations)]
   else []).

(** The copy that section 4 fills with its two columns (lines 99-101). *)
Definition heatmap_frame (fdf : DataFrame) : DataFrame :=
  let h1 := setitem fdf "월" (map (fun r => VStr (strftime_Ym (period r))) fdf) in
  setitem h1 "총_승차인원수"
    (map VInt (series_add (map down_board h1) (map up_board h1))).

(** The filtered table after the two assignments of lines 130-131. *)
Definition after_diffs (fdf : DataFrame) : DataFrame :=
  let f1 := setitem fdf "하행_승하차차이"
              (map VInt (series_sub (map down_board fdf) (map down_alight fdf))) in
  setitem f1 "상행_승하차차이"
    (map VInt (series_sub (map up_board f1) (map up_alight f1))).

(** What the nine sections append to the page, in terms of the filtered
    table [fdf] as the filter stage produced it. *)
Definition page1 (sel : list string) (fdf : DataFrame) : list Element :=
  [Header "1. 시간에 따른 승하차 인원 변화"; PlotlyChart (fig_time fdf sel)].
Definition page2 (fdf : DataFrame) : list Element :=
  [Header "2. 역별 평균 승하차 인원 비교";
   PlotlyChart (px_bar (avg_data fdf) "역별 평균 승하차 인원")].
Definition page3 (fdf : DataFrame) : list Element :=
  [Header "3. 역별 총 승차 인원 비율";
   PlotlyChart (px_pie (total_data fdf) "총_승차인원수" "정차역"
                       "역별 총 승차 인원 비율")].
Definition page4 (fdf : DataFrame) : list Element :=
  [Header "4. 월별 승차 인원 히트맵";
   PlotlyChart (px_imshow (heatmap_pivot (heatmap_frame fdf))
                          "월별 평균 승차 인원 히트맵")].
Definition page5 (fdf : DataFrame) : list Element :=
  [Header "5. 하행 vs 상행 승차 인원 산점도";
   PlotlyChart (px_scatter fdf "하행 vs 상행 승차 인원")].
Definition page6 (fdf : DataFrame) : list Element :=
  [Header "6. 데이터 테이블"; DataframeOf fdf].
Definition page7 (fdf : DataFrame) : list Element :=
  [Header "7. 추가 통계 정보"; Subheader "역별 총 승하차 인원";
   DataframeStats (total_passengers fdf); Subheader "월평균 승하차 인원";
   DataframeStats (monthly_avg fdf)].
Definition page8 (fdf : DataFrame) : list Element :=
  [Header "8. 승하차 인원 차이 분석";
   PlotlyChart (px_box (melt (after_diffs fdf) diff_columns)
                       "역별 승하차 인원 차이 분포")].
Definition page9 (fdf : DataFrame) : list Element :=
  [Header "9. 상위 5개 역 분석";
   PlotlyChart (px_line (top_5_data fdf) "상위 5개 역의 승차 인원 추이")].

Definition rendered (sel : list string) (fdf : DataFrame) : list Element :=
  page1 sel fdf ++ page2 fdf ++ page3 fdf ++ page4 fdf ++ page5 fdf ++
  page6 fdf ++ page7 fdf ++ page8 fdf ++ page9 (after_diffs fdf).

(** A small table used to exercise the statements: station B in February
    2023, station A in February and then January 2023, station C in
    December 2022. *)
Definition month_start (y m : Z) : Timestamp := mkTimestamp (mkDate y m 1) 0.

Definition sample_table : DataFrame :=
  [ mkRow (month_start 2023 2) "B" 10 5 7 3 [];
    mkRow (month_start 2023 2) "A" 20 5 1 1 [];
    mkRow (month_start 2023 1) "A" 30 5 2 2 [];
    mkRow (month_start 2022 12) "C" 1 1 1 1 [] ].

Definition sample_fs : FileSystem :=
  mkFileSystem (ReadOk sample_table) FileNotFoundError.

(** All three stations, the year 2023. *)
Definition sample_ui : Widgets :=
  mkWidgets ["A"; "B"; "C"] (mkDate 2023 1 1) (mkDate 2023 12 31).

(** A start date after the end date. *)
Definition reversed_ui : Widgets :=
  mkWidgets ["A"; "B"] (mkDate 2023 3 1) (mkDate 2023 1 31).

(** A valid interval in which no selected station has a row. *)
Definition no_match_ui : Widgets :=
  mkWidgets ["C"] (mkDate 2023 1 1) (mkDate 2023 12 31).

(** A row with the two difference cells added. *)
Definition add_diffs (r : Row) : Row :=
  set_cell
    (set_cell r "하행_승하차차이"
       (VInt (Int64.sub (down_board r) (down_alight r))))
    "상행_승하차차이" (VInt (Int64.sub (up_board r) (up_alight r))).

(** A computation leaves every object of the heap as it was. *)
Definition preserves {A : Type} (m : App A) (s : AppState) : Prop :=
  forall (l : loc) (t : DataFrame),
    heap s !! l = Some t -> heap (snd (m s)) !! l = Some t.

(** Timestamps in non-decreasing order. *)
Definition ts_le (a b : Timestamp) : Prop := ts_compare a b <> Gt.
Definition chronological (l : list Timestamp) : Prop := StronglySorted ts_le l.

(** The ranking of section 9: a larger sum first, and for equal sums the
    station whose name is smaller first. *)
Definition ranks_before (a b : string * Z) : Prop :=
  snd a > snd b \/
  (snd a = snd b /\ String.compare (fst a) (fst b) = Lt).

(** A row of the heat map table with its two added cells (lines 100-101). *)
Definition add_heat (r : Row) : Row :=
  set_cell
    (set_cell r "월" (VStr (strftime_Ym (period r))))
    "총_승차인원수" (VInt (Int64.add (down_board r) (up_board r))).

(** The label of the month of a row, and the key of its group in section 4. *)
Definition month_label (r : Row) : string := strftime_Ym (period r).
Definition heat_key (r : Row) : string * string := (month_label r, station r).

(** The two axes of the heat map of a filtered table. *)
Definition month_axis (fdf : DataFrame) : list string :=
  index (heatmap_pivot (heatmap_frame fdf)).
Definition station_axis (fdf : DataFrame) : list string :=
  columns (heatmap_pivot (heatmap_frame fdf)).

(** The cell of the heat map at a row and a column position. *)
Definition heat_cell (fdf : DataFrame) (i j : nat)
  : option (option spec_float) :=
  match cells (heatmap_pivot (heatmap_frame fdf)) !! i with
  | Some row => row !! j
  | None => None
  end.

(** A period that [strftime] prints with a four-digit year. *)
Definition valid_period (t : Timestamp) : Prop :=
  1000 <= year (ts_date t) <= 9999 /\ 1 <= month (ts_date t) <= 12.

(** Year and month of a row, their chronological order, and their label. *)
Definition year_month (r : Row) : Z * Z :=
  (year (ts_date (period r)), month (ts_date (period r))).
Definition ym_label (ym : Z * Z) : string :=
  strftime_Ym (month_start (fst ym) (snd ym)).


(** The boardings of a row in both directions, and the rows of the filtered
    table that belong to a month and a station. *)
Definition boardings (r : Row) : Z :=
  Int64.add (down_board r) (up_board r).
Definition heat_rows (fdf : DataFrame) (m st : string) : DataFrame :=
  filter (fun r => heat_key r = (m, st)) fdf.

(** The share of a station in the words of the specification: its total
    boardings over the sum of the totals of all stations of the chart. *)
Definition total_sum (rows : list TotalRow) : Z :=
  fold_right Z.add 0 (map tot_total rows).
Definition spec_share (rows : list TotalRow) (t : TotalRow) : Q :=
  Qdiv (inject_Z (tot_total t)) (inject_Z (total_sum rows)).

(** ** The sidebar (lines 32 to 42) *)

(** Lines 32-34: the options of the station widget and its default value,
    the preferred stations that the table has. *)
Definition all_stations (df : DataFrame) : list string :=
  sorted String.compare (unique (map station df)).
Definition default_stations (df : DataFrame) : list string :=
  List.filter (fun s => existsb (String.eqb s) (all_stations df))
              preferred_stations.

(** Line 37: the preferred stations that the warning names.  The script
    prints them as a set; they stand here in the order of the preferred
    list. *)
Definition missing_stations (df : DataFrame) : list string :=
  List.filter (fun s => negb (existsb (String.eqb s) (default_stations df)))
              preferred_stations.

(** [series.min()] and [series.max()] of a column of timestamps; [None] is
    the [NaT] of an empty column. *)
Definition ts_min (a b : Timestamp) : Timestamp :=
  match ts_compare b a with Lt => b | _ => a end.
Definition ts_max (a b : Timestamp) : Timestamp :=
  match ts_compare b a with Gt => b | _ => a end.
Definition series_min (s : list Timestamp) : option Timestamp :=
  match s with
  | [] => None
  | t :: rest => Some (fold_left ts_min rest t)
  end.
Definition series_max (s : list Timestamp) : option Timestamp :=
  match s with
  | [] => None
  | t :: rest => Some (fold_left ts_max rest t)
  end.

(** Lines 41-42: the earliest and the latest date of the table, the
    [min_date] and [max_date] of the script. *)
Definition min_date (df : DataFrame) : option date :=
  option_map ts_date (series_min (map period df)).
Definition max_date (df : DataFrame) : option date :=
  option_map ts_date (series_max (map period df)).

(** The warning of line 37, whatever it lists. *)
Definition is_station_warning (e : Element) : bool :=
  match e with WarningMissing _ _ => true | _ => false end.

(** [r] is the integer nearest to the quotient of [s] by [n], and the even
    one when the quotient lies halfway between two integers. *)
Definition nearest_even (s n r : Z) : Prop :=
  Z.abs (2 * s - 2 * r * n) <= n /\
  (Z.abs (2 * s - 2 * r * n) = n -> Z.even r = true).

(** The sum of a list of integers. *)
Definition Zsum (l : list Z) : Z := fold_right Z.add 0 l.

(** [v] is the integer nearest to the value of the finite float [x], and
    the even one when [x] lies halfway between two integers. *)
Definition nearest_integer (x : spec_float) (v : Z) : Prop :=
  match x with
  | S754_zero _ => v = 0
  | S754_finite s m e =>
      if e <? 0
      then nearest_even (cond_Zopp s (Z.pos m)) (2 ^ (- e)) v
      else v = cond_Zopp s (Z.pos m) * 2 ^ e
  | _ => False
  end.

(** The quotient of the sum of a column by the number of rows, rounded
    once to [float64]. *)
Definition rounded_quotient (f : Row -> Z) (rows : DataFrame) : spec_float :=
  Float64.div (Float64.of_int64 (Zsum (map f rows)))
              (Float64.of_int64 (Z.of_nat (length rows))).

(** A column without negative entries whose sum is below [2^53]. *)
Definition small_column (f : Row -> Z) (rows : DataFrame) : Prop :=
  Forall (fun r => 0 <= f r) rows /\
  Zsum (map f rows) < 9007199254740992.

(** A cell of the heat map without a value. *)
Definition is_missing (c : option spec_float) : bool :=
  match c with None => true | Some _ => false end.

(** Seven rows of one station with boardings 29, 0, ..., 0: the mean 29/7
    is no [float64]. *)
Definition sevenths_table : DataFrame :=
  mkRow (month_start 2023 1) "A" 29 0 0 0 []
  :: map (fun m => mkRow (month_start 2023 m) "A" 0 0 0 0 [])
         [2; 3; 4; 5; 6; 7].

(** Three rows of one station whose boardings have the mean
    2251799813685249 1/3, between two neighbouring [float64]. *)
Definition thirds_table : DataFrame :=
  [ mkRow (month_start 2023 1) "A" 2251799813685249 0 1 0 [];
    mkRow (month_start 2023 2) "A" 2251799813685249 0 2 0 [];
    mkRow (month_start 2023 3) "A" 2251799813685250 0 0 0 [] ].

(** The figure of section 1, the one element that follows the order of
    the selection. *)
Definition is_time_figure (e : Element) : bool :=
  match e with
  | PlotlyChart (go_Figure _ _ _ _) => true
  | _ => false
  end.

(** [v] is the signed 64-bit integer that stands for the integer [z]: it
    lies in the range of [int64] and differs from [z] by a multiple of
    [2^64]. *)
Definition int64_of (z v : Z) : Prop :=
  -9223372036854775808 <= v < 9223372036854775808 /\
  exists k, v = z + k * 18446744073709551616.

(** The four counts of a row as the specification has them: not negative,
    and within [int64], the type of their columns. *)
Definition record_counts (r : Row) : Prop :=
  0 <= down_board r < 9223372036854775808 /\
  0 <= down_alight r < 9223372036854775808 /\
  0 <= up_board r < 9223372036854775808 /\
  0 <= up_alight r < 9223372036854775808.

(** An integer that a [float64] holds exactly, with room for the sums of
    such integers: its magnitude is below [2^53]. *)
Definition small (z : Z) : Prop := Z.abs z < 9007199254740992.

(** Three rows of one station in one month, with totals 1, 1 and 2,
    whose mean 4/3 is no [float64], and one row of another month. *)
Definition repeated_table : DataFrame :=
  [ mkRow (month_start 2023 1) "A" 1 0 0 0 [];
    mkRow (month_start 2023 1) "A" 0 0 1 0 [];
    mkRow (month_start 2023 1) "A" 1 0 1 0 [];
    mkRow (month_start 2023 2) "A" 20 5 1 1 [] ].

(** A table whose ranking is not the order of the names: station D has
    the largest sum, B and C have equal sums, A has the smallest. *)
Definition ranked_table : DataFrame :=
  [ mkRow (month_start 2023 1) "A" 1 0 0 0 [];
    mkRow (month_start 2023 1) "B" 7 0 0 0 [];
    mkRow (month_start 2023 1) "C" 7 0 0 0 [];
    mkRow (month_start 2023 2) "A" 2 0 0 0 [];
    mkRow (month_start 2023 2) "D" 9 0 0 0 [] ].

(** Six stations, of which A has by far the most boardings: two months of
    [2^62] each, whose sum [2^63] is one more than an [int64] holds. *)
Definition overflow_table : DataFrame :=
  [ mkRow (month_start 2023 1) "A" 4611686018427387904 0 0 0 [];
    mkRow (month_start 2023 2) "A" 4611686018427387904 0 0 0 [];
    mkRow (month_start 2023 1) "B" 5 0 0 0 [];
    mkRow (month_start 2023 1) "C" 4 0 0 0 [];
    mkRow (month_start 2023 1) "D" 3 0 0 0 [];
    mkRow (month_start 2023 1) "E" 2 0 0 0 [];
    mkRow (month_start 2023 1) "F" 1 0 0 0 [] ].

(** * Facts about dates *)

Lemma date_compare_cases (a b : date) :
  match date_compare a b with
  | Lt => date_lt a b
  | Eq => year a = year b /\ month a = month b /\ day a = day b
  | Gt => date_lt b a
  end.
Proof.
  unfold date_compare, date_lt.
  destruct (Z.compare_spec (year a) (year b));
    destruct (Z.compare_spec (month a) (month b));
    destruct (Z.compare_spec (day a) (day b)); lia.
Qed.

Lemma date_leb_spec (a b : date) : date_leb a b = true <-> date_le a b.
Proof.
  unfold date_leb. pose proof (date_compare_cases a b) as H.
  unfold date_lt, date_le in *.
  destruct (date_compare a b); split; intros; try done; try lia.
Qed.

Lemma date_gtb_spec (a b : date) : date_gtb a b = true <-> date_lt b a.
Proof.
  unfold date_gtb. pose proof (date_compare_cases a b) as H.
  unfold date_lt in *.
  destruct (date_compare a b); split; intros; try done; try lia.
Qed.

Lemma date_le_not_lt (a b : date) : date_le a b <-> ~ date_lt b a.
Proof. unfold date_le, date_lt. lia. Qed.

Lemma date_gtb_false (a b : date) : date_le a b -> date_gtb a b = false.
Proof.
  intros H. destruct (date_gtb a b) eqn:E; [|done].
  apply date_gtb_spec in E. by apply date_le_not_lt in H.
Qed.

(** * Facts about [int64] arithmetic *)

Lemma wrap_spec (z : Z) : int64_of z (Int64.wrap z).
Proof.
  unfold int64_of, Int64.wrap.
  pose proof (Z.mod_pos_bound (z + 9223372036854775808) 18446744073709551616
                ltac:(lia)) as Hb.
  pose proof (Z.div_mod (z + 9223372036854775808) 18446744073709551616
                ltac:(lia)) as Hd.
  split; [lia|].
  exists (- ((z + 9223372036854775808) / 18446744073709551616)). lia.
Qed.

Lemma int64_of_unique (z v w : Z) : int64_of z v -> int64_of z w -> v = w.
Proof. intros [Hv [k ->]] [Hw [k' ->]]. assert (k = k') by lia. by subst. Qed.

Lemma wrap_fits (z : Z) :
  -9223372036854775808 <= z < 9223372036854775808 -> Int64.wrap z = z.
Proof.
  intros Hz. apply (int64_of_unique z); [apply wrap_spec|].
  split; [done|]. exists 0. lia.
Qed.

Lemma wrap_add_l (a b : Z) : Int64.wrap (Int64.wrap a + b) = Int64.wrap (a + b).
Proof.
  apply (int64_of_unique (a + b)); [|apply wrap_spec].
  destruct (wrap_spec (Int64.wrap a + b)) as [Hr [k Hk]].
  destruct (wrap_spec a) as [_ [k' Hk']].
  split; [done|]. exists (k + k'). lia.
Qed.


Lemma group_sum_from (values : list Z) (a : Z) :
  fold_left Int64.add values (Int64.wrap a)
  = Int64.wrap (a + fold_right Z.add 0 values).
Proof.
  revert a. induction values as [|v values IH]; intros a; simpl.
  - by rewrite Z.add_0_r.
  - unfold Int64.add at 2. rewrite wrap_add_l, IH. f_equal. lia.
Qed.

Lemma group_sum_wrap (values : list Z) :
  group_sum values = Int64.wrap (fold_right Z.add 0 values).
Proof. unfold group_sum. apply (group_sum_from values 0). Qed.

Lemma sum_of_wrap (f : Row -> Z) (rows : DataFrame) :
  sum_of f rows = Int64.wrap (Zsum (map f rows)).
Proof. apply group_sum_wrap. Qed.

Lemma sum_of_int64 (f : Row -> Z) (rows : DataFrame) (v : Z) :
  v = sum_of f rows <-> int64_of (Zsum (map f rows)) v.
Proof.
  rewrite sum_of_wrap. split.
  - intros ->. apply wrap_spec.
  - intros Hv. eapply int64_of_unique; [exact Hv|apply wrap_spec].
Qed.

Lemma add_int64 (a b x y : Z) :
  int64_of x a -> int64_of y b -> int64_of (x + y) (Int64.add a b).
Proof.
  intros [_ [k ->]] [_ [k' ->]]. unfold Int64.add.
  destruct (wrap_spec (x + k * 18446744073709551616
                       + (y + k' * 18446744073709551616))) as [Hr [j Hj]].
  split; [done|]. exists (j + k + k'). lia.
Qed.

(** * Facts about [float64] sums of small integers

    Below [2^53] every integer is a [float64], and sums and differences of
    such integers that stay below [2^53] are computed without rounding.
    The compensated sum of [group_mean] is then the sum of the integers,
    and the mean is one division, rounded once. *)

Lemma pos_iter_xO (p n : positive) :
  Z.pos (Pos.iter xO p n) = Z.pos p * 2 ^ Z.pos n.
Proof.
  revert p. induction n as [n IH|n IH|]; intros p; cbn [Pos.iter].
  - rewrite Pos2Z.inj_xO, !IH, (Pos2Z.inj_xI n).
    replace (2 * Z.pos n + 1) with (Z.pos n + Z.pos n + 1) by lia.
    rewrite 2!Z.pow_add_r by lia. lia.
  - rewrite !IH, (Pos2Z.inj_xO n).
    replace (2 * Z.pos n) with (Z.pos n + Z.pos n) by lia.
    rewrite Z.pow_add_r by lia. lia.
  - lia.
Qed.

Lemma digits2_pos_iter_xO (p n : positive) :
  Z.pos (digits2_pos (Pos.iter xO p n)) = Z.pos (digits2_pos p) + Z.pos n.
Proof.
  revert p. induction n as [n IH|n IH|]; intros p; cbn [Pos.iter digits2_pos].
  - rewrite Pos2Z.inj_succ, !IH. lia.
  - rewrite !IH. lia.
  - lia.
Qed.

Lemma iter_pos_shr_1 (n q : positive) :
  SpecFloat.iter_pos shr_1 n (Build_shr_record (Z.pos (Pos.iter xO q n)) false false)
  = Build_shr_record (Z.pos q) false false.
Proof.
  revert q. induction n as [n IH|n IH|]; intros q; cbn [Pos.iter SpecFloat.iter_pos].
  - cbn [shr_1 orb]. by rewrite !IH.
  - by rewrite !IH.
  - reflexivity.
Qed.

(* digits bound *)
Lemma digits2_pos_bound (p : positive) :
  2 ^ (Z.pos (digits2_pos p) - 1) <= Z.pos p < 2 ^ Z.pos (digits2_pos p).
Proof.
  induction p as [p IH|p IH|]; cbn [digits2_pos].
  - rewrite Pos2Z.inj_succ, (Pos2Z.inj_xI p).
    replace (Z.succ (Z.pos (digits2_pos p)) - 1) with (Z.succ (Z.pos (digits2_pos p) - 1)) by lia.
    rewrite !Z.pow_succ_r by lia. lia.
  - rewrite Pos2Z.inj_succ, (Pos2Z.inj_xO p).
    replace (Z.succ (Z.pos (digits2_pos p)) - 1) with (Z.succ (Z.pos (digits2_pos p) - 1)) by lia.
    rewrite !Z.pow_succ_r by lia. lia.
  - change (1 <= 1 < 2). lia.
Qed.


(** The canonical float of [p * 2^j * 2^e] for a mantissa [p] of at most 53
    bits. *)
Lemma binary_round_shifted (s : bool) (p : positive) (j e : Z) :
  let d := Z.pos (digits2_pos p) in
  d <= 53 -> 0 <= j ->
  -1074 <= e + j + d - 53 <= 971 ->
  binary_round 53 1024 s (Z.to_pos (Z.pos p * 2 ^ j)) e
  = S754_finite s (Z.to_pos (Z.pos p * 2 ^ (53 - d))) (e + j + d - 53).
Proof.
  intros d Hd Hj He.
  set (P := Z.to_pos (Z.pos p * 2 ^ j)).
  assert (Z.pos P = Z.pos p * 2 ^ j) as HP.
  { unfold P. rewrite Z2Pos.id; [done|]. 
    pose proof (Z.pow_pos_nonneg 2 j). lia. }
  assert (Z.pos (digits2_pos P) = d + j) as HD.
  { destruct j as [|n|n]; [| |lia].
    - unfold P. rewrite Z.pow_0_r, Z.mul_1_r. simpl. fold d. lia.
    - assert (P = Pos.iter xO p n) as ->.
      { apply Pos2Z.inj. by rewrite HP, pos_iter_xO. }
      by rewrite digits2_pos_iter_xO. }
  unfold binary_round.
  assert (fexp 53 1024 (Z.pos (digits2_pos P) + e) = d + j + e - 53) as Hfexp.
  { unfold fexp, emin. rewrite HD. lia. }
  rewrite Hfexp. unfold shl_align.
  destruct (d + j + e - 53 - e) as [|k|k] eqn:Hk.
  - (* exactly 53 digits: nothing to shift *)
    assert (d + j = 53) as H53 by lia.
    unfold binary_round_aux, shr_fexp. cbn [Zdigits2 shr_record_of_loc].
    assert (fexp 53 1024 (Z.pos (digits2_pos P) + e) - e = 0) as ->
      by (rewrite Hfexp; lia).
    cbn [shr shr_m loc_of_shr_record round_nearest_even Zdigits2
         shr_record_of_loc].
    assert (fexp 53 1024 (Z.pos (digits2_pos P) + e) - e = 0) as ->
      by (rewrite Hfexp; lia).
    cbn [shr shr_m].
    replace (e <=? 1024 - 53) with true by (symmetry; apply Z.leb_le; lia).
    f_equal; [|lia].
    apply Pos2Z.inj. rewrite HP, Z2Pos.id.
    + by replace (53 - d) with j by lia.
    + pose proof (Z.pow_pos_nonneg 2 (53 - d)). lia.
  - (* more than 53 digits: the low bits are zero *)
    assert (Z.pos k = d + j - 53) as Hk' by lia.
    unfold binary_round_aux, shr_fexp. cbn [Zdigits2 shr_record_of_loc].
    assert (fexp 53 1024 (Z.pos (digits2_pos P) + e) - e = Z.pos k) as ->
      by (rewrite Hfexp; lia).
    cbn [shr].
    set (q := Z.to_pos (Z.pos p * 2 ^ (53 - d))).
    assert (Z.pos q = Z.pos p * 2 ^ (53 - d)) as Hq.
    { unfold q. rewrite Z2Pos.id; [done|].
      pose proof (Z.pow_pos_nonneg 2 (53 - d)). lia. }
    assert (P = Pos.iter xO q k) as ->.
    { apply Pos2Z.inj. rewrite HP, pos_iter_xO, Hq, <- Z.mul_assoc.
      rewrite <- Z.pow_add_r by lia. f_equal. f_equal. lia. }
    rewrite iter_pos_shr_1.
    cbn [shr_m loc_of_shr_record round_nearest_even Zdigits2
         shr_record_of_loc].
    assert (Z.pos (digits2_pos q) = 53) as Hdq.
    { rewrite digits2_pos_iter_xO in HD. lia. }
    assert (fexp 53 1024 (Z.pos (digits2_pos q) + (e + Z.pos k))
            - (e + Z.pos k) = 0) as ->.
    { unfold fexp, emin. rewrite Hdq. lia. }
    cbn [shr shr_m].
    replace (e + Z.pos k <=? 1024 - 53) with true
      by (symmetry; apply Z.leb_le; lia).
    f_equal. lia.
  - (* fewer than 53 digits: the mantissa is shifted up *)
    assert (Z.pos k = 53 - d - j) as Hk' by lia.
    cbn [fst snd].
    set (q := Pos.iter xO P k).
    assert (Z.pos q = Z.pos p * 2 ^ (53 - d)) as Hq.
    { unfold q. rewrite pos_iter_xO, HP, <- Z.mul_assoc.
      rewrite <- Z.pow_add_r by lia. f_equal. f_equal. lia. }
    assert (Z.pos (digits2_pos q) = 53) as Hdq.
    { unfold q. rewrite digits2_pos_iter_xO, HD. lia. }
    unfold binary_round_aux, shr_fexp. cbn [Zdigits2 shr_record_of_loc].
    assert (fexp 53 1024 (Z.pos (digits2_pos q) + (d + j + e - 53))
            - (d + j + e - 53) = 0) as ->.
    { unfold fexp, emin. rewrite Hdq. lia. }
    cbn [shr shr_m loc_of_shr_record round_nearest_even Zdigits2
         shr_record_of_loc].
    assert (fexp 53 1024 (Z.pos (digits2_pos q) + (d + j + e - 53))
            - (d + j + e - 53) = 0) as ->.
    { unfold fexp, emin. rewrite Hdq. lia. }
    cbn [shr shr_m].
    replace (d + j + e - 53 <=? 1024 - 53) with true
      by (symmetry; apply Z.leb_le; lia).
    f_equal; [|lia]. apply Pos2Z.inj. rewrite Hq, Z2Pos.id; [done|].
    pose proof (Z.pow_pos_nonneg 2 (53 - d)). lia.
Qed.

Lemma Zdigits2_small (z : Z) :
  z <> 0 -> small z -> 1 <= Zdigits2 z <= 53.
Proof.
  unfold small. intros Hz Hs.
  destruct z as [|p|p]; [done| |]; cbn [Zdigits2];
    pose proof (digits2_pos_bound p) as [Hlo _];
    (split; [lia|]);
    destruct (Z_le_gt_dec (Z.pos (digits2_pos p)) 53) as [|Hgt]; try done;
    exfalso;
    assert (2 ^ 53 <= 2 ^ (Z.pos (digits2_pos p) - 1))
      by (apply Z.pow_le_mono_r; lia);
    change (2 ^ 53) with 9007199254740992 in *; lia.
Qed.

(** The float of a small integer, written out. *)
Lemma of_int64_small (z : Z) :
  z <> 0 -> small z ->
  Float64.of_int64 z
  = S754_finite (z <? 0) (Z.to_pos (Z.abs z * 2 ^ (53 - Zdigits2 z)))
                (Zdigits2 z - 53).
Proof.
  intros Hz Hs. pose proof (Zdigits2_small z Hz Hs) as Hd.
  unfold Float64.of_int64, Float64.prec, Float64.emax, binary_normalize.
  destruct z as [|p|p]; [done| |]; cbn [Zdigits2 Z.abs] in *.
  - pose proof (binary_round_shifted false p 0 0) as H. cbv zeta in H.
    rewrite Z.pow_0_r, Z.mul_1_r in H. cbn [Z.to_pos] in H.
    rewrite H by lia. f_equal; lia.
  - pose proof (binary_round_shifted true p 0 0) as H. cbv zeta in H.
    rewrite Z.pow_0_r, Z.mul_1_r in H. cbn [Z.to_pos] in H.
    rewrite H by lia. f_equal; lia.
Qed.

(** A small integer scaled by a power of two rounds to the float of the
    integer. *)
Lemma binary_normalize_scaled (z k : Z) :
  small z -> 0 <= k <= 1000 ->
  binary_normalize 53 1024 (z * 2 ^ k) (- k) false = Float64.of_int64 z.
Proof.
  intros Hs Hk. destruct (Z.eq_dec z 0) as [->|Hz]; [reflexivity|].
  rewrite (of_int64_small z Hz Hs).
  pose proof (Zdigits2_small z Hz Hs) as Hd.
  pose proof (Z.pow_pos_nonneg 2 k ltac:(lia) ltac:(lia)) as Hpow.
  destruct z as [|p|p]; [done| |]; cbn [Zdigits2 Z.abs] in *.
  - assert (Z.pos p * 2 ^ k = Z.pos (Z.to_pos (Z.pos p * 2 ^ k))) as E
      by (rewrite Z2Pos.id; lia).
    rewrite E. cbn [binary_normalize].
    pose proof (binary_round_shifted false p k (- k)) as H. cbv zeta in H.
    rewrite H by lia. f_equal; lia.
  - assert (Z.neg p * 2 ^ k = Z.neg (Z.to_pos (Z.pos p * 2 ^ k))) as E.
    { assert (Z.pos (Z.to_pos (Z.pos p * 2 ^ k)) = Z.pos p * 2 ^ k) as E'
        by (apply Z2Pos.id; lia).
      rewrite <- !Pos2Z.opp_pos, E'. lia. }
    rewrite E. cbn [binary_normalize].
    pose proof (binary_round_shifted true p k (- k)) as H. cbv zeta in H.
    rewrite H by lia. f_equal; lia.
Qed.

Lemma shl_align_value (m : positive) (e e' : Z) :
  e' <= e ->
  Z.pos (fst (shl_align m e e')) = Z.pos m * 2 ^ (e - e').
Proof.
  intros He. unfold shl_align.
  destruct (e' - e) as [|k|k] eqn:Hk; cbn [fst].
  - replace (e - e') with 0 by lia. lia.
  - lia.
  - rewrite pos_iter_xO. f_equal. f_equal. lia.
Qed.

(** The signed mantissa of the float of a small integer, aligned to an
    exponent below its own. *)
Lemma aligned_mantissa (z e' : Z) :
  z <> 0 -> small z -> e' <= Zdigits2 z - 53 ->
  cond_Zopp (z <? 0)
    (Z.pos (fst (shl_align (Z.to_pos (Z.abs z * 2 ^ (53 - Zdigits2 z)))
                           (Zdigits2 z - 53) e')))
  = z * 2 ^ (- e').
Proof.
  intros Hz Hs He. pose proof (Zdigits2_small z Hz Hs) as Hd.
  rewrite shl_align_value by done.
  pose proof (Z.pow_pos_nonneg 2 (53 - Zdigits2 z) ltac:(lia) ltac:(lia)).
  rewrite Z2Pos.id by lia.
  rewrite <- Z.mul_assoc, <- Z.pow_add_r by lia.
  replace (53 - Zdigits2 z + (Zdigits2 z - 53 - e')) with (- e') by lia.
  unfold cond_Zopp. destruct (Z.ltb_spec z 0); lia.
Qed.

Lemma add_small (a b : Z) :
  small a -> small b -> small (a + b) ->
  Float64.add (Float64.of_int64 a) (Float64.of_int64 b)
  = Float64.of_int64 (a + b).
Proof.
  intros Ha Hb Hab.
  destruct (Z.eq_dec a 0) as [->|Hna].
  { change (Float64.of_int64 0) with (S754_zero false). rewrite Z.add_0_l.
    destruct (Z.eq_dec b 0) as [->|Hnb]; [reflexivity|].
    by rewrite (of_int64_small b Hnb Hb). }
  destruct (Z.eq_dec b 0) as [->|Hnb].
  { change (Float64.of_int64 0) with (S754_zero false). rewrite Z.add_0_r.
    by rewrite (of_int64_small a Hna Ha). }
  rewrite (of_int64_small a Hna Ha), (of_int64_small b Hnb Hb).
  pose proof (Zdigits2_small a Hna Ha) as Hda.
  pose proof (Zdigits2_small b Hnb Hb) as Hdb.
  unfold Float64.add, SFadd. cbv zeta.
  set (ez := Z.min (Zdigits2 a - 53) (Zdigits2 b - 53)).
  rewrite !aligned_mantissa by (try done; unfold ez; lia).
  rewrite <- Z.mul_add_distr_r.
  replace ez with (- - ez) at 2 by lia.
  apply binary_normalize_scaled; [done|unfold ez; lia].
Qed.

Lemma sub_small (a b : Z) :
  small a -> small b -> small (a - b) ->
  Float64.sub (Float64.of_int64 a) (Float64.of_int64 b)
  = Float64.of_int64 (a - b).
Proof.
  intros Ha Hb Hab.
  destruct (Z.eq_dec b 0) as [->|Hnb].
  { change (Float64.of_int64 0) with (S754_zero false). rewrite Z.sub_0_r.
    destruct (Z.eq_dec a 0) as [->|Hna]; [reflexivity|].
    by rewrite (of_int64_small a Hna Ha). }
  destruct (Z.eq_dec a 0) as [->|Hna].
  { change (Float64.of_int64 0) with (S754_zero false). rewrite Z.sub_0_l.
    assert (small (- b)) as Hb' by (unfold small in *; lia).
    rewrite (of_int64_small b Hnb Hb), (of_int64_small (- b)) by (done || lia).
    cbn [Float64.sub SFsub].
    assert (Zdigits2 (- b) = Zdigits2 b) as -> by (by destruct b).
    rewrite Z.abs_opp. f_equal.
    destruct (Z.ltb_spec b 0), (Z.ltb_spec (- b) 0); try done; lia. }
  rewrite (of_int64_small a Hna Ha), (of_int64_small b Hnb Hb).
  pose proof (Zdigits2_small a Hna Ha) as Hda.
  pose proof (Zdigits2_small b Hnb Hb) as Hdb.
  unfold Float64.sub, SFsub. cbv zeta.
  set (ez := Z.min (Zdigits2 a - 53) (Zdigits2 b - 53)).
  rewrite !aligned_mantissa by (try done; unfold ez; lia).
  rewrite <- Z.mul_sub_distr_r.
  replace ez with (- - ez) at 2 by lia.
  apply binary_normalize_scaled; [done|unfold ez; lia].
Qed.

Lemma kahan_step_small (s v : Z) :
  small s -> small v -> small (s + v) ->
  kahan_step (Float64.of_int64 s, Float64.zero) (Float64.of_int64 v)
  = (Float64.of_int64 (s + v), Float64.zero).
Proof.
  intros Hs Hv Hsv. unfold kahan_step. cbn [fst snd].
  change Float64.zero with (Float64.of_int64 0).
  assert (small 0) as H0 by (unfold small; simpl; lia).
  rewrite (sub_small v 0) by (rewrite ?Z.sub_0_r; done).
  rewrite Z.sub_0_r, (add_small s v) by done.
  rewrite (sub_small (s + v) s)
    by (try done; by replace (s + v - s) with v by lia).
  replace (s + v - s) with v by lia.
  rewrite (sub_small v v) by (rewrite ?Z.sub_diag; done).
  by rewrite Z.sub_diag.
Qed.

Lemma kahan_sum_small (values : list Z) (a : Z) :
  0 <= a -> Forall (fun v => 0 <= v) values ->
  a + Zsum values < 9007199254740992 ->
  fold_left kahan_step (map Float64.of_int64 values)
            (Float64.of_int64 a, Float64.zero)
  = (Float64.of_int64 (a + Zsum values), Float64.zero).
Proof.
  intros Ha Hv. revert a Ha.
  induction Hv as [|v values Hv0 Hv IH]; intros a Ha Hsum; simpl in *.
  - by rewrite Z.add_0_r.
  - assert (0 <= Zsum values) as Hrest.
    { clear -Hv. induction Hv; simpl; unfold Zsum in *; simpl; lia. }
    unfold Zsum in *. simpl in Hsum.
    rewrite kahan_step_small by (unfold small; lia).
    rewrite IH by lia. f_equal. f_equal. lia.
Qed.

Lemma group_mean_small (values : list Z) :
  Forall (fun v => 0 <= v) values ->
  Zsum values < 9007199254740992 ->
  group_mean values
  = Float64.div (Float64.of_int64 (Zsum values))
                (Float64.of_int64 (Z.of_nat (length values))).
Proof.
  intros Hv Hsum. unfold group_mean. cbv zeta.
  change (Float64.zero, Float64.zero)
    with (Float64.of_int64 0, Float64.zero).
  by rewrite (kahan_sum_small values 0) by (done || lia).
Qed.

(** * Facts about masks and row selection *)

Lemma bool_index_map {A : Type} (f : A -> bool) (l : list A) :
  bool_index l (map f l) = List.filter f l.
Proof.
  unfold bool_index. induction l as [|x l IH]; simpl; [done|].
  destruct (f x); simpl; by rewrite IH.
Qed.

Lemma mask_and_map {A : Type} (f g : A -> bool) (l : list A) :
  mask_and (map f l) (map g l) = map (fun x => f x && g x) l.
Proof.
  unfold mask_and. induction l as [|x l IH]; simpl; [done|]. by rewrite IH.
Qed.

Lemma isin_map {A : Type} (key : A -> string) (l : list A) (vals : list string) :
  isin (map key l) vals = map (fun x => existsb (String.eqb (key x)) vals) l.
Proof. unfold isin. by rewrite map_map. Qed.

Lemma existsb_eqb_elem_of (x : string) (vals : list string) :
  existsb (String.eqb x) vals = true <-> x ∈ vals.
Proof.
  rewrite existsb_exists. split.
  - intros (y & Hy & E). apply String.eqb_eq in E. subst.
    by apply list_elem_of_In.
  - intros H. exists x. split; [by apply list_elem_of_In|apply String.eqb_refl].
Qed.

Lemma list_filter_decide {A : Type} (f : A -> bool) (P : A -> Prop)
    `{forall x, Decision (P x)} (l : list A) :
  (forall x, f x = true <-> P x) -> List.filter f l = filter P l.
Proof.
  intros Hf. induction l as [|x l IH]; simpl; [done|].
  rewrite filter_cons. destruct (decide (P x)) as [HP|HP].
  - apply Hf in HP. rewrite HP. by rewrite IH.
  - destruct (f x) eqn:E; [by apply Hf in E|done].
Qed.

Lemma filter_rows_keeps df sel d0 d1 :
  filter_rows df sel d0 d1 = List.filter (keeps sel d0 d1) df.
Proof.
  unfold filter_rows, filter_mask.
  by rewrite isin_map, !mask_and_map, bool_index_map.
Qed.

Lemma keeps_spec sel d0 d1 r : keeps sel d0 d1 r = true <-> qualifies sel d0 d1 r.
Proof.
  unfold keeps, qualifies.
  rewrite !andb_true_iff, !date_leb_spec, existsb_eqb_elem_of. tauto.
Qed.

Lemma filter_rows_filter df sel d0 d1 :
  filter_rows df sel d0 d1 = filter (qualifies sel d0 d1) df.
Proof.
  rewrite filter_rows_keeps. apply list_filter_decide. apply keeps_spec.
Qed.

(** * Running the script *)

Lemma bind_done {A B : Type} (m : App A) (k : A -> App B) s a s' :
  m s = (Done a, s') -> bind m k s = k a s'.
Proof. unfold bind. by intros ->. Qed.

Lemma bind_stop {A B : Type} (m : App A) (k : A -> App B) s s' :
  m s = (Stop, s') -> bind m k s = (Stop, s').
Proof. unfold bind. by intros ->. Qed.

Lemma load_data_loaded fs df s :
  loaded_table fs = Some df ->
  load_data fs s = (Done (length (heap s)), mkState (heap s ++ [df]) (page s)).
Proof.
  unfold loaded_table, load_data.
  destruct (read_euc_kr fs); [by intros [= ->]| |done].
  destruct (read_cp949 fs); [by intros [= ->]|done|done].
Qed.

Lemma page_before_filter_no_result df :
  forallb (fun e => negb (is_result e)) (page_before_filter df) = true.
Proof.
  unfold page_before_filter. simpl.
  by destruct (_ <? 5)%nat.
Qed.

(** With a table that has rows, the script reaches the filter stage with the
    table as the only object. *)
Lemma main_reaches_filter fs ui df :
  loaded_table fs = Some df -> df <> [] ->
  run fs ui =
  bind (filter_stage 0%nat ui) (sections (selected_stations ui))
       (mkState [df] (page_before_filter df)).
Proof.
  intros Hload Hne. unfold run, main.
  erewrite bind_done; [|reflexivity].
  erewrite bind_done; [|by apply load_data_loaded].
  erewrite bind_done; [|reflexivity].
  destruct df as [|r df]; [done|].
  unfold page_before_filter.
  set (missing := (length _ <? 5)%nat).
  change (default [] (heap (mkState (heap initial ++ [r :: df]) (page (mkState (heap initial) (page initial ++ [Title "KTX 승하차 인원 데이터 시각화"])))) !! length (heap (mkState (heap initial) (page initial ++ [Title "KTX 승하차 인원 데이터 시각화"])))))
    with (r :: df).
  cbv beta iota delta [empty].
  destruct missing; reflexivity.
Qed.

Lemma filter_stage_invalid l ui s :
  date_gtb (start_date ui) (end_date ui) = true ->
  filter_stage l ui s =
  (Stop, mkState (heap s) (page s ++ [Error msg_date_range])).
Proof. unfold filter_stage. by intros ->. Qed.

Lemma filter_stage_empty l ui s df :
  date_gtb (start_date ui) (end_date ui) = false ->
  heap s !! l = Some df ->
  filter_rows df (selected_stations ui) (start_date ui) (end_date ui) = [] ->
  filter_stage l ui s =
  (Stop, mkState (heap s ++ [[]]) (page s ++ [Warning msg_no_data])).
Proof.
  unfold filter_stage. intros -> Hl Hf.
  unfold bind, deref, alloc. cbn [heap page]. rewrite Hl. simpl.
  rewrite Hf. rewrite list_lookup_middle by done. reflexivity.
Qed.

Lemma filter_stage_rows l ui s df :
  date_gtb (start_date ui) (end_date ui) = false ->
  heap s !! l = Some df ->
  filter_rows df (selected_stations ui) (start_date ui) (end_date ui) <> [] ->
  filter_stage l ui s =
  (Done (length (heap s)),
   mkState (heap s ++
     [filter_rows df (selected_stations ui) (start_date ui) (end_date ui)])
     (page s)).
Proof.
  unfold filter_stage. intros -> Hl Hf.
  unfold bind, deref, alloc. cbn [heap page]. rewrite Hl. simpl.
  rewrite list_lookup_middle by done. simpl.
  destruct (filter_rows _ _ _ _); [done|reflexivity].
Qed.

(** ** The sections, one by one *)

Ltac run_section Hl :=
  unfold bind, emit, deref, copy, alloc, setitem_at; cbn [heap page];
  rewrite ?Hl; simpl; rewrite <- ?app_assoc; try reflexivity.

Lemma section1_run sel l s fdf :
  heap s !! l = Some fdf ->
  section1 sel l s = (Done tt, mkState (heap s) (page s ++ page1 sel fdf)).
Proof. intros Hl. unfold section1, page1. run_section Hl. Qed.

Lemma section2_run l s fdf :
  heap s !! l = Some fdf ->
  section2 l s = (Done tt, mkState (heap s) (page s ++ page2 fdf)).
Proof. intros Hl. unfold section2, page2. run_section Hl. Qed.

Lemma section3_run l s fdf :
  heap s !! l = Some fdf ->
  section3 l s = (Done tt, mkState (heap s) (page s ++ page3 fdf)).
Proof. intros Hl. unfold section3, page3. run_section Hl. Qed.

Lemma section5_run l s fdf :
  heap s !! l = Some fdf ->
  section5 l s = (Done tt, mkState (heap s) (page s ++ page5 fdf)).
Proof. intros Hl. unfold section5, page5. run_section Hl. Qed.

Lemma section6_run l s fdf :
  heap s !! l = Some fdf ->
  section6 l s = (Done tt, mkState (heap s) (page s ++ page6 fdf)).
Proof. intros Hl. unfold section6, page6. run_section Hl. Qed.

Lemma section7_run l s fdf :
  heap s !! l = Some fdf ->
  section7 l s = (Done tt, mkState (heap s) (page s ++ page7 fdf)).
Proof. intros Hl. unfold section7, page7. run_section Hl. Qed.

Lemma section9_run l s fdf :
  heap s !! l = Some fdf ->
  section9 l s = (Done tt, mkState (heap s) (page s ++ page9 fdf)).
Proof. intros Hl. unfold section9, page9. run_section Hl. Qed.

Lemma section4_run l s fdf :
  heap s !! l = Some fdf ->
  section4 l s =
  (Done tt, mkState (heap s ++ [heatmap_frame fdf]) (page s ++ page4 fdf)).
Proof.
  intros Hl. unfold section4, page4, heatmap_frame, copy.
  unfold bind, emit, deref, alloc, setitem_at. cbn [heap page].
  rewrite Hl. cbn [from_option id].
  rewrite !list_lookup_middle by (by rewrite ?length_insert).
  rewrite (insert_app_r_alt (heap s)) by done. rewrite Nat.sub_diag.
  cbn [from_option id list_insert insert].
  rewrite list_lookup_middle by done.
  rewrite (insert_app_r_alt (heap s)) by done. rewrite Nat.sub_diag.
  cbn [from_option id list_insert insert].
  rewrite list_lookup_middle by done.
  cbn [from_option id]. rewrite <- !app_assoc. reflexivity.
Qed.

Lemma section8_run l s fdf :
  heap s !! l = Some fdf ->
  section8 l s =
  (Done tt, mkState (<[l := after_diffs fdf]> (heap s)) (page s ++ page8 fdf)).
Proof.
  intros Hl. unfold section8, page8, after_diffs.
  assert (l < length (heap s))%nat as Hlt by (by eapply lookup_lt_Some).
  unfold bind, emit, deref, copy, alloc, setitem_at. cbn [heap page].
  rewrite Hl. cbn [from_option id].
  rewrite !list_lookup_insert_eq by (by rewrite ?length_insert).
  cbn [from_option id].
  rewrite list_insert_insert_eq. rewrite <- !app_assoc. reflexivity.
Qed.

(** ** The nine sections in sequence, and the whole run *)

Lemma sections_run sel l s fdf :
  heap s !! l = Some fdf ->
  sections sel l s =
  (Done tt,
   mkState (<[l := after_diffs fdf]> (heap s) ++ [heatmap_frame fdf])
           (page s ++ rendered sel fdf)).
Proof.
  intros Hl. unfold sections, rendered.
  assert (l < length (heap s))%nat as Hlt by (by eapply lookup_lt_Some).
  erewrite bind_done; [|by apply section1_run].
  erewrite bind_done; [|by apply section2_run].
  erewrite bind_done; [|by apply section3_run].
  erewrite bind_done; [|by apply section4_run].
  erewrite bind_done;
    [|apply section5_run; cbn [heap]; by apply lookup_app_l_Some].
  erewrite bind_done;
    [|apply section6_run; cbn [heap]; by apply lookup_app_l_Some].
  erewrite bind_done;
    [|apply section7_run; cbn [heap]; by apply lookup_app_l_Some].
  erewrite bind_done;
    [|apply section8_run; cbn [heap]; by apply lookup_app_l_Some].
  erewrite section9_run.
  2:{ cbn [heap]. apply list_lookup_insert_eq. rewrite length_app. lia. }
  cbn [heap page]. rewrite insert_app_l by done.
  by rewrite <- !app_assoc.
Qed.

Lemma run_rendered fs ui df :
  loaded_table fs = Some df -> df <> [] ->
  date_gtb (start_date ui) (end_date ui) = false ->
  filter_rows df (selected_stations ui) (start_date ui) (end_date ui) <> [] ->
  let fdf := filter_rows df (selected_stations ui) (start_date ui) (end_date ui) in
  run fs ui =
  (Done tt,
   mkState [df; after_diffs fdf; heatmap_frame fdf]
           (page_before_filter df ++ rendered (selected_stations ui) fdf)).
Proof.
  intros Hload Hne Hd Hf fdf.
  rewrite (main_reaches_filter fs ui df Hload Hne).
  erewrite bind_done; [|by eapply filter_stage_rows].
  erewrite sections_run; [|reflexivity]. reflexivity.
Qed.

Lemma run_invalid_range fs ui df :
  loaded_table fs = Some df -> df <> [] ->
  date_gtb (start_date ui) (end_date ui) = true ->
  run fs ui =
  (Stop, mkState [df] (page_before_filter df ++ [Error msg_date_range])).
Proof.
  intros Hload Hne Hd.
  rewrite (main_reaches_filter fs ui df Hload Hne).
  erewrite bind_stop; [reflexivity|by apply filter_stage_invalid].
Qed.

Lemma run_no_rows fs ui df :
  loaded_table fs = Some df -> df <> [] ->
  date_gtb (start_date ui) (end_date ui) = false ->
  filter_rows df (selected_stations ui) (start_date ui) (end_date ui) = [] ->
  run fs ui =
  (Stop, mkState [df; []] (page_before_filter df ++ [Warning msg_no_data])).
Proof.
  intros Hload Hne Hd Hf.
  rewrite (main_reaches_filter fs ui df Hload Hne).
  erewrite bind_stop; [reflexivity|by eapply filter_stage_empty].
Qed.

Lemma page_before_filter_elements df e :
  e ∈ page_before_filter df ->
  (exists t, e = Title t) \/ (exists t m, e = WarningMissing t m).
Proof.
  unfold page_before_filter. destruct (_ <? 5)%nat; intros H.
  - apply elem_of_cons in H as [->|H]; [by left; eexists|].
    apply list_elem_of_singleton in H as ->. right. by do 2 eexists.
  - apply list_elem_of_singleton in H as ->. left. by eexists.
Qed.

Lemma forallb_app_true {A : Type} (f : A -> bool) (l k : list A) :
  forallb f l = true -> forallb f k = true -> forallb f (l ++ k) = true.
Proof. intros Hl Hk. rewrite forallb_app. by rewrite Hl, Hk. Qed.

(** * The filter stage (claims C1 to C3) *)

(** C1: the rows that lines 54-56 keep are exactly the rows of the table, in
    their original order and with their multiplicity, whose station is
    selected and whose date lies in the closed interval between the start and
    the end date; and when some row is kept, section 6 of the page shows that
    table. *)
Theorem C1_filter_keeps_qualifying_rows
    (fs : FileSystem) (ui : Widgets) (df : DataFrame) :
  loaded_table fs = Some df ->
  date_le (start_date ui) (end_date ui) ->
  let sel := selected_stations ui in
  let out := filter_rows df sel (start_date ui) (end_date ui) in
  out = filter (qualifies sel (start_date ui) (end_date ui)) df /\
  out `sublist_of` df /\
  (forall r, r ∈ out <->
             r ∈ df /\ qualifies sel (start_date ui) (end_date ui) r) /\
  (out <> [] ->
   fst (run fs ui) = Done tt /\ DataframeOf out ∈ page (snd (run fs ui))).
Proof.
  intros Hload Hle sel out.
  assert (out = filter (qualifies sel (start_date ui) (end_date ui)) df) as E
    by apply filter_rows_filter.
  split; [done|]. split; [rewrite E; apply sublist_filter|].
  split.
  - intros r. rewrite E, list_elem_of_filter. tauto.
  - intros Hne.
    assert (df <> []) as Hdf.
    { intros ->. by rewrite E in Hne. }
    pose proof (run_rendered fs ui df Hload Hdf (date_gtb_false _ _ Hle) Hne)
      as Hrun.
    cbv zeta in Hrun. rewrite Hrun. split; [done|].
    cbn [snd page]. unfold rendered, page6.
    rewrite !elem_of_app. right. do 5 right. left.
    apply elem_of_cons. right. apply elem_of_cons. by left.
Qed.

Lemma C1_filter_keeps_qualifying_rows_witness :
  loaded_table sample_fs = Some sample_table /\
  date_le (start_date sample_ui) (end_date sample_ui) /\
  filter_rows sample_table (selected_stations sample_ui)
    (start_date sample_ui) (end_date sample_ui)
  = [ mkRow (month_start 2023 2) "B" 10 5 7 3 [];
      mkRow (month_start 2023 2) "A" 20 5 1 1 [];
      mkRow (month_start 2023 1) "A" 30 5 2 2 [] ] /\
  filter_rows sample_table (selected_stations sample_ui)
    (start_date sample_ui) (end_date sample_ui)
    `sublist_of` sample_table.
Proof.
  assert (date_le (start_date sample_ui) (end_date sample_ui)) as Hle
    by (unfold date_le; simpl; lia).
  split; [reflexivity|]. split; [exact Hle|]. split; [reflexivity|].
  exact (proj1 (proj2
    (C1_filter_keeps_qualifying_rows sample_fs sample_ui sample_table
       eq_refl Hle))).
Defined.

(** C2: when the start date is after the end date, the filter stage emits
    the date-range error and stops, whatever the table and the selected
    stations are; the run ends there, the loaded table is the only object,
    and the page holds no chart and no table. *)
Theorem C2_invalid_date_range_stops
    (fs : FileSystem) (ui : Widgets) (df : DataFrame) :
  loaded_table fs = Some df -> df <> [] ->
  date_lt (end_date ui) (start_date ui) ->
  (forall l s,
     filter_stage l ui s =
     (Stop, mkState (heap s) (page s ++ [Error msg_date_range]))) /\
  run fs ui =
  (Stop, mkState [df] (page_before_filter df ++ [Error msg_date_range])) /\
  forallb (fun e => negb (is_result e)) (page (snd (run fs ui))) = true.
Proof.
  intros Hload Hne Hlt. apply date_gtb_spec in Hlt.
  split; [intros l s; by apply filter_stage_invalid|].
  rewrite (run_invalid_range fs ui df Hload Hne Hlt). split; [done|].
  cbn [snd page]. apply forallb_app_true; [|done].
  apply page_before_filter_no_result.
Qed.

Lemma C2_invalid_date_range_stops_witness :
  date_lt (end_date reversed_ui) (start_date reversed_ui) /\
  run sample_fs reversed_ui =
  (Stop, mkState [sample_table]
           (page_before_filter sample_table ++ [Error msg_date_range])).
Proof.
  assert (date_lt (end_date reversed_ui) (start_date reversed_ui)) as Hlt
    by (unfold date_lt; simpl; lia).
  split; [exact Hlt|].
  exact (proj1 (proj2
    (C2_invalid_date_range_stops sample_fs reversed_ui sample_table
       eq_refl ltac:(discriminate) Hlt))).
Defined.

(** C3: when the dates are in order but no row passes the filter, the run
    stops at the warning that no data matches, before any section; that
    message differs from the date-range message, is shown as a warning
    rather than an error, and the date-range error is not on the page. *)
Theorem C3_empty_result_stops
    (fs : FileSystem) (ui : Widgets) (df : DataFrame) :
  loaded_table fs = Some df -> df <> [] ->
  date_le (start_date ui) (end_date ui) ->
  filter_rows df (selected_stations ui) (start_date ui) (end_date ui) = [] ->
  run fs ui =
  (Stop, mkState [df; []] (page_before_filter df ++ [Warning msg_no_data])) /\
  forallb (fun e => negb (is_result e)) (page (snd (run fs ui))) = true /\
  (Error msg_date_range ∉ page (snd (run fs ui))) /\
  msg_no_data <> msg_date_range.
Proof.
  intros Hload Hne Hle Hf.
  rewrite (run_no_rows fs ui df Hload Hne (date_gtb_false _ _ Hle) Hf).
  split; [done|]. cbn [snd page]. split; [|split; [|done]].
  - apply forallb_app_true; [|done]. apply page_before_filter_no_result.
  - rewrite elem_of_app. intros [H|H].
    + apply page_before_filter_elements in H as [[t H]|(t & m & H)]; done.
    + by apply list_elem_of_singleton in H.
Qed.

Lemma C3_empty_result_stops_witness :
  date_le (start_date no_match_ui) (end_date no_match_ui) /\
  run sample_fs no_match_ui =
  (Stop, mkState [sample_table; []]
           (page_before_filter sample_table ++ [Warning msg_no_data])).
Proof.
  assert (date_le (start_date no_match_ui) (end_date no_match_ui)) as Hle
    by (unfold date_le; simpl; lia).
  split; [exact Hle|].
  exact (proj1
    (C3_empty_result_stops sample_fs no_match_ui sample_table
       eq_refl ltac:(discriminate) Hle eq_refl)).
Defined.

(** * Column assignment and the long form (claim C6) *)

Lemma combine_map_same {A B : Type} (g : A -> B) (l : list A) :
  combine l (map g l) = map (fun x => (x, g x)) l.
Proof. induction l as [|x l IH]; simpl; [done|]. by rewrite IH. Qed.

Lemma combine_map_both {A B C : Type} (f : A -> B) (g : A -> C) (l : list A) :
  combine (map f l) (map g l) = map (fun x => (f x, g x)) l.
Proof. induction l as [|x l IH]; simpl; [done|]. by rewrite IH. Qed.

Lemma setitem_map (df : DataFrame) (col : string) (g : Row -> value) :
  setitem df col (map g df) = map (fun r => set_cell r col (g r)) df.
Proof. unfold setitem. by rewrite combine_map_same, map_map. Qed.

Lemma series_sub_map {A : Type} (f g : A -> Z) (l : list A) :
  series_sub (map f l) (map g l) = map (fun x => Int64.sub (f x) (g x)) l.
Proof.
  unfold series_sub. induction l as [|x l IH]; simpl; [done|]. by rewrite IH.
Qed.

Lemma series_add_map {A : Type} (f g : A -> Z) (l : list A) :
  series_add (map f l) (map g l) = map (fun x => Int64.add (f x) (g x)) l.
Proof.
  unfold series_add. induction l as [|x l IH]; simpl; [done|]. by rewrite IH.
Qed.

Lemma after_diffs_rows (fdf : DataFrame) : after_diffs fdf = map add_diffs fdf.
Proof.
  unfold after_diffs. cbv zeta.
  rewrite series_sub_map, map_map, setitem_map.
  rewrite !map_map. cbn [up_board up_alight set_cell].
  rewrite series_sub_map, map_map.
  rewrite <- (map_map (fun r => set_cell r "하행_승하차차이"
                          (VInt (Int64.sub (down_board r) (down_alight r))))
                      (fun r => VInt (Int64.sub (up_board r) (up_alight r)))).
  rewrite setitem_map, map_map. reflexivity.
Qed.

Lemma assoc_get_set_eq col v cols : assoc_get col (assoc_set col v cols) = Some v.
Proof.
  induction cols as [|[c w] cols IH]; simpl.
  - by rewrite String.eqb_refl.
  - destruct (String.eqb c col) eqn:E; simpl; by rewrite E.
Qed.

Lemma assoc_get_set_ne col col' v cols :
  col <> col' -> assoc_get col (assoc_set col' v cols) = assoc_get col cols.
Proof.
  intros Hne. induction cols as [|[c w] cols IH]; simpl.
  - destruct (String.eqb col' col) eqn:E; [|done].
    apply String.eqb_eq in E. by subst.
  - destruct (String.eqb c col') eqn:E; simpl.
    + apply String.eqb_eq in E. subst c.
      destruct (String.eqb col' col) eqn:E'; [|done].
      apply String.eqb_eq in E'. by subst.
    + destruct (String.eqb c col); [done|apply IH].
Qed.





(** * Which objects change (claim C8) *)

Lemma preserves_same_heap {A : Type} (m : App A) s o p :
  m s = (o, mkState (heap s) p) -> preserves m s.
Proof. intros E l t Hl. by rewrite E. Qed.

Lemma preserves_grown_heap {A : Type} (m : App A) s o p extra :
  m s = (o, mkState (heap s ++ extra) p) -> preserves m s.
Proof. intros E l t Hl. rewrite E. cbn [snd heap]. by apply lookup_app_l_Some. Qed.

Lemma filter_stage_preserves l ui s : preserves (filter_stage l ui) s.
Proof.
  intros l' t Hl'. unfold filter_stage.
  destruct (date_gtb (start_date ui) (end_date ui)); [done|].
  unfold bind, deref, alloc. cbn [heap page].
  rewrite list_lookup_middle by done. cbn [from_option id].
  destruct (empty _); cbn [snd heap emit ret]; by apply lookup_app_l_Some.
Qed.

(** C8, as the script has it: the filter stage and every section except
    section 8 leave every existing table as it was (the filter stage and
    section 4 work on new objects); section 8 assigns its two difference
    columns into the filtered table itself, which keeps its rows, their six
    loaded columns and their order, and changes no other object. *)
Theorem C8_only_differential_assigns_in_place
    (sel : list string) (ui : Widgets) (l : loc) (s : AppState)
    (fdf : DataFrame) :
  heap s !! l = Some fdf ->
  preserves (filter_stage l ui) s /\
  preserves (section1 sel l) s /\ preserves (section2 l) s /\
  preserves (section3 l) s /\ preserves (section4 l) s /\
  preserves (section5 l) s /\ preserves (section6 l) s /\
  preserves (section7 l) s /\ preserves (section9 l) s /\
  heap (snd (section8 l s)) = <[l := map add_diffs fdf]> (heap s) /\
  (forall l', l' <> l ->
     heap (snd (section8 l s)) !! l' = heap s !! l').
Proof.
  intros Hl.
  split; [apply filter_stage_preserves|].
  split; [eapply preserves_same_heap; by apply section1_run|].
  split; [eapply preserves_same_heap; by apply section2_run|].
  split; [eapply preserves_same_heap; by apply section3_run|].
  split; [eapply preserves_grown_heap; by apply section4_run|].
  split; [eapply preserves_same_heap; by apply section5_run|].
  split; [eapply preserves_same_heap; by apply section6_run|].
  split; [eapply preserves_same_heap; by apply section7_run|].
  split; [eapply preserves_same_heap; by apply section9_run|].
  rewrite (section8_run l s fdf Hl). cbn [snd heap].
  rewrite after_diffs_rows. split; [done|].
  intros l' Hne. by apply list_lookup_insert_ne.
Qed.

Lemma C8_only_differential_assigns_in_place_witness :
  heap (snd (section8 1%nat (mkState [sample_table; sample_table] [])))
  = [sample_table; map add_diffs sample_table].
Proof.
  exact (proj1 (proj2 (proj2 (proj2 (proj2 (proj2 (proj2 (proj2 (proj2 (proj2
    (C8_only_differential_assigns_in_place [] sample_ui 1%nat
       (mkState [sample_table; sample_table] []) sample_table
       eq_refl))))))))))).
Defined.

(** Section 8 does not leave its input table unchanged: after it, the
    filtered table differs from what sections 1 to 7 read. *)
Lemma C8_differential_changes_its_input :
  let s := mkState [sample_table] [] in
  ~ preserves (section8 0%nat) s.
Proof.
  intros s H. specialize (H 0%nat sample_table eq_refl).
  vm_compute in H. discriminate H.
Qed.

(** * The time series (claim C9) *)

Lemma StronglySorted_list_filter {A : Type} (R : A -> A -> Prop)
    (f : A -> bool) (l : list A) :
  StronglySorted R l -> StronglySorted R (List.filter f l).
Proof.
  induction 1 as [|x l Hl IH Hx]; simpl; [constructor|].
  destruct (f x); [|done]. constructor; [done|].
  rewrite Forall_forall in *. intros y Hy.
  apply Hx. apply list_elem_of_In. apply list_elem_of_In in Hy.
  by apply filter_In in Hy as [Hy _].
Qed.

Lemma StronglySorted_map_filter {A B : Type} (R : B -> B -> Prop)
    (g : A -> B) (f : A -> bool) (l : list A) :
  StronglySorted R (map g l) -> StronglySorted R (map g (List.filter f l)).
Proof.
  induction l as [|x l IH]; simpl; [done|].
  intros H. apply StronglySorted_inv in H as [Hl Hx].
  destruct (f x); [|by apply IH]. simpl. constructor; [by apply IH|].
  rewrite Forall_forall in *. intros y Hy. apply Hx.
  apply list_elem_of_In in Hy. apply list_elem_of_In.
  apply in_map_iff in Hy as (r & <- & Hr). apply in_map.
  by apply filter_In in Hr as [Hr _].
Qed.

Lemma station_rows_filter (fdf : DataFrame) (st : string) :
  bool_index fdf (map (fun r => String.eqb (station r) st) fdf)
  = filter (fun r => station r = st) fdf.
Proof.
  rewrite bool_index_map. apply list_filter_decide.
  intros r. apply String.eqb_eq.
Qed.

(** C9, as the script has it: for each selected station, in the order of the
    selection, the figure holds four traces (down boarding, down alighting,
    up boarding, up alighting) over the periods of that station's rows, in
    the order in which the rows stand in the filtered table; the traces are
    chronological when the rows of the table are. *)
Theorem C9_time_series_keep_row_order
    (fdf : DataFrame) (sel : list string) (st : string) :
  let rows := filter (fun r => station r = st) fdf in
  fig_time fdf sel =
  go_Figure (flat_map (station_traces fdf) sel)
            "선택된 역의 시간에 따른 승하차 인원 변화" "날짜" "인원 수" /\
  station_traces fdf st =
  [ mkScatter (map period rows) (map down_board rows) "lines"
              (st ++ " 하행 승차") "solid";
    mkScatter (map period rows) (map down_alight rows) "lines"
              (st ++ " 하행 하차") "solid";
    mkScatter (map period rows) (map up_board rows) "lines"
              (st ++ " 상행 승차") "dash";
    mkScatter (map period rows) (map up_alight rows) "lines"
              (st ++ " 상행 하차") "dash" ] /\
  rows `sublist_of` fdf /\
  (chronological (map period fdf) ->
   forall tr, tr ∈ station_traces fdf st -> chronological (sc_x tr)).
Proof.
  intros rows. split; [reflexivity|].
  assert (station_traces fdf st =
    [ mkScatter (map period rows) (map down_board rows) "lines"
                (st ++ " 하행 승차") "solid";
      mkScatter (map period rows) (map down_alight rows) "lines"
                (st ++ " 하행 하차") "solid";
      mkScatter (map period rows) (map up_board rows) "lines"
                (st ++ " 상행 승차") "dash";
      mkScatter (map period rows) (map up_alight rows) "lines"
                (st ++ " 상행 하차") "dash" ]) as E.
  { unfold station_traces. cbv zeta. by rewrite station_rows_filter. }
  split; [exact E|]. split; [apply sublist_filter|].
  intros Hc tr Htr.
  assert (chronological (map period rows)) as Hrows.
  { unfold rows. rewrite <- station_rows_filter, bool_index_map.
    by apply StronglySorted_map_filter. }
  rewrite E in Htr.
  repeat (apply elem_of_cons in Htr as [->|Htr]; [exact Hrows|]).
  by apply elem_of_nil in Htr.
Qed.

Lemma C9_time_series_keep_row_order_witness :
  chronological (map period [ mkRow (month_start 2023 1) "A" 30 5 2 2 [];
                              mkRow (month_start 2023 2) "A" 20 5 1 1 [] ]) /\
  forall tr,
    tr ∈ station_traces [ mkRow (month_start 2023 1) "A" 30 5 2 2 [];
                          mkRow (month_start 2023 2) "A" 20 5 1 1 [] ] "A" ->
    chronological (sc_x tr).
Proof.
  assert (chronological
            (map period [ mkRow (month_start 2023 1) "A" 30 5 2 2 [];
                          mkRow (month_start 2023 2) "A" 20 5 1 1 [] ])) as Hc.
  { repeat constructor. discriminate. }
  split; [exact Hc|].
  exact (proj2 (proj2 (proj2
    (C9_time_series_keep_row_order
       [ mkRow (month_start 2023 1) "A" 30 5 2 2 [];
         mkRow (month_start 2023 2) "A" 20 5 1 1 [] ] ["A"] "A"))) Hc).
Defined.

(** The rows of station A stand in the sample table with February before
    January, and so does the trace. *)
Lemma C9_trace_not_chronological :
  let fdf := filter_rows sample_table (selected_stations sample_ui)
               (start_date sample_ui) (end_date sample_ui) in
  exists tr, tr ∈ station_traces fdf "A" /\
             sc_x tr = [month_start 2023 2; month_start 2023 1] /\
             ~ chronological (sc_x tr).
Proof.
  intros fdf.
  exists (mkScatter [month_start 2023 2; month_start 2023 1] [20; 30]
                    "lines" ("A" ++ " 하행 승차") "solid").
  split; [vm_compute; by left|]. split; [reflexivity|].
  cbn [sc_x]. intros H. apply StronglySorted_inv in H as [_ H].
  apply Forall_inv in H. by apply H.
Qed.

(** * Keys of a [groupby]: distinct and ascending *)

Section KeyFacts.
Context {A : Type} `{EqDecision A}.
Variable cmp : A -> A -> comparison.

Lemma elem_of_unique_from (seen l : list A) (x : A) :
  x ∈ unique_from seen l <-> x ∈ l /\ x ∉ seen.
Proof.
  revert seen. induction l as [|y l IH]; intros seen; simpl.
  - split; [by intros ?%elem_of_nil|by intros [?%elem_of_nil _]].
  - destruct (decide (y ∈ seen)) as [Hy|Hy].
    + rewrite IH, elem_of_cons. split; [tauto|].
      intros [[->|Hx] Hs]; [done|tauto].
    + rewrite !elem_of_cons, IH, elem_of_cons. split.
      * intros [->|[Hx Hs]]; tauto.
      * intros [[->|Hx] Hs]; [by left|].
        destruct (decide (x = y)) as [->|Hne]; [by left|right; tauto].
Qed.

Lemma NoDup_unique_from (seen l : list A) : NoDup (unique_from seen l).
Proof.
  revert seen. induction l as [|y l IH]; intros seen; simpl; [constructor|].
  destruct (decide (y ∈ seen)); [apply IH|].
  constructor; [|apply IH].
  rewrite elem_of_unique_from, elem_of_cons. tauto.
Qed.

Lemma elem_of_unique (l : list A) (x : A) : x ∈ unique l <-> x ∈ l.
Proof.
  unfold unique. rewrite elem_of_unique_from. split; [tauto|].
  intros Hx. split; [done|]. by intros ?%elem_of_nil.
Qed.

Lemma insert_sorted_perm (x : A) (l : list A) : insert_sorted cmp x l ≡ₚ x :: l.
Proof.
  induction l as [|y l IH]; simpl; [done|].
  destruct (cmp x y); [done|done|].
  rewrite IH. apply Permutation_swap.
Qed.

Lemma sorted_perm (l : list A) : sorted cmp l ≡ₚ l.
Proof.
  induction l as [|x l IH]; simpl; [done|].
  by rewrite insert_sorted_perm, IH.
Qed.

Lemma elem_of_group_keys (l : list A) (x : A) : x ∈ group_keys cmp l <-> x ∈ l.
Proof. unfold group_keys. by rewrite sorted_perm, elem_of_unique. Qed.

Lemma NoDup_group_keys (l : list A) : NoDup (group_keys cmp l).
Proof. unfold group_keys. rewrite sorted_perm. apply NoDup_unique_from. Qed.

Lemma length_group_keys (l : list A) :
  length (group_keys cmp l) = length (remove_dups l).
Proof.
  apply Permutation_length, NoDup_Permutation.
  - apply NoDup_group_keys.
  - apply NoDup_remove_dups.
  - intros x. by rewrite elem_of_group_keys, elem_of_remove_dups.
Qed.

Hypothesis cmp_eq : forall a b, cmp a b = Eq <-> a = b.
Hypothesis cmp_antisym : forall a b, cmp a b = CompOpp (cmp b a).
Hypothesis cmp_trans :
  forall a b c, cmp a b = Lt -> cmp b c = Lt -> cmp a c = Lt.

Lemma insert_sorted_ascending (x : A) (l : list A) :
  StronglySorted (fun a b => cmp a b = Lt) l -> x ∉ l ->
  StronglySorted (fun a b => cmp a b = Lt) (insert_sorted cmp x l).
Proof.
  induction 1 as [|y l Hl IH Hy]; intros Hx; simpl.
  - repeat constructor.
  - apply not_elem_of_cons in Hx as [Hxy Hx].
    destruct (cmp x y) eqn:E.
    + by apply cmp_eq in E.
    + constructor; [by constructor|]. constructor; [done|].
      eapply Forall_impl; [exact Hy|]. intros z Hz. by eapply cmp_trans.
    + constructor; [by apply IH|].
      rewrite insert_sorted_perm. constructor; [|done].
      rewrite cmp_antisym, E. reflexivity.
Qed.

Lemma sorted_ascending (l : list A) :
  NoDup l -> StronglySorted (fun a b => cmp a b = Lt) (sorted cmp l).
Proof.
  induction 1 as [|x l Hx Hl IH]; simpl; [constructor|].
  apply insert_sorted_ascending; [done|]. by rewrite sorted_perm.
Qed.

Lemma group_keys_ascending (l : list A) :
  StronglySorted (fun a b => cmp a b = Lt) (group_keys cmp l).
Proof. apply sorted_ascending, NoDup_unique_from. Qed.

Lemma ascending_keys_unique (k1 k2 : list A) :
  StronglySorted (fun a b => cmp a b = Lt) k1 ->
  StronglySorted (fun a b => cmp a b = Lt) k2 ->
  NoDup k1 -> NoDup k2 -> (forall x, x ∈ k1 <-> x ∈ k2) -> k1 = k2.
Proof.
  intros H1 H2 N1 N2 Hel.
  apply (StronglySorted_unique_strong (fun a b => cmp a b = Lt)); try done.
  - intros a b _ _ Hab Hba. rewrite cmp_antisym, Hba in Hab. discriminate.
  - by apply NoDup_Permutation.
Qed.

Lemma group_keys_same_elements (l l' : list A) :
  (forall x, x ∈ l <-> x ∈ l') -> group_keys cmp l = group_keys cmp l'.
Proof.
  intros Hel. apply ascending_keys_unique.
  - apply group_keys_ascending.
  - apply group_keys_ascending.
  - apply NoDup_group_keys.
  - apply NoDup_group_keys.
  - intros x. by rewrite !elem_of_group_keys.
Qed.

End KeyFacts.

Lemma string_compare_trans (a b c : string) :
  String.compare a b = Lt -> String.compare b c = Lt -> String.compare a c = Lt.
Proof.
  intros Hab Hbc.
  apply (proj2 (String_as_OT.cmp_lt a c)).
  eapply String_as_OT.lt_trans.
  - apply (proj1 (String_as_OT.cmp_lt a b)). exact Hab.
  - apply (proj1 (String_as_OT.cmp_lt b c)). exact Hbc.
Qed.

Lemma station_keys_ascending (l : list string) :
  StronglySorted (fun a b => String.compare a b = Lt)
                 (group_keys String.compare l).
Proof.
  apply group_keys_ascending.
  - apply String_as_OT.cmp_eq.
  - apply String_as_OT.cmp_antisym.
  - apply string_compare_trans.
Qed.

Lemma station_keys_same_elements (l l' : list string) :
  (forall x, x ∈ l <-> x ∈ l') ->
  group_keys String.compare l = group_keys String.compare l'.
Proof.
  apply group_keys_same_elements.
  - apply String_as_OT.cmp_eq.
  - apply String_as_OT.cmp_antisym.
  - apply string_compare_trans.
Qed.

(** * The five stations with the largest sums (claim C4) *)

Lemma elem_of_map_iff {A B : Type} (f : A -> B) (l : list A) (y : B) :
  y ∈ map f l <-> exists x, f x = y /\ x ∈ l.
Proof.
  rewrite list_elem_of_In, in_map_iff.
  split; intros (x & E & Hx); exists x; by rewrite ?list_elem_of_In in *.
Qed.

Lemma group_filter (df : DataFrame) (k : string) :
  group df k = filter (fun r => station r = k) df.
Proof. unfold group. apply list_filter_decide. intros r. apply String.eqb_eq. Qed.

Lemma groupby_station_keys {B : Type} (agg : DataFrame -> B) (df : DataFrame) :
  map fst (groupby_station agg df) = group_keys String.compare (map station df).
Proof. unfold groupby_station. rewrite map_map. simpl. apply map_id. Qed.

Lemma elem_of_groupby_station {B : Type} (agg : DataFrame -> B)
    (df : DataFrame) (k : string) (v : B) :
  (k, v) ∈ groupby_station agg df <->
  k ∈ map station df /\ v = agg (filter (fun r => station r = k) df).
Proof.
  unfold groupby_station. rewrite elem_of_map_iff. split.
  - intros (k' & [= -> <-] & Hk). apply elem_of_group_keys in Hk.
    by rewrite group_filter.
  - intros [Hk ->]. exists k. rewrite group_filter. split; [done|].
    by apply elem_of_group_keys.
Qed.

Lemma groupby_station_ascending {B : Type} (agg : DataFrame -> B)
    (df : DataFrame) :
  StronglySorted (fun a b => String.compare (fst a) (fst b) = Lt)
                 (groupby_station agg df).
Proof.
  unfold groupby_station.
  pose proof (station_keys_ascending (map station df)) as H.
  induction H as [|k ks Hks IH Hk]; simpl; constructor; [done|].
  apply Forall_forall. intros e He.
  apply elem_of_map_iff in He as (k' & <- & Hk'). simpl.
  rewrite Forall_forall in Hk. by apply Hk.
Qed.

Lemma insert_desc_ranked (x : string * Z) (s : list (string * Z)) :
  StronglySorted ranks_before s ->
  Forall (fun y => String.compare (fst x) (fst y) = Lt) s ->
  StronglySorted ranks_before (insert_sorted cmp_desc x s).
Proof.
  induction 1 as [|y s Hs IH Hy]; intros Hx; simpl.
  - repeat constructor.
  - apply Forall_cons in Hx as [Hxy Hx].
    unfold cmp_desc at 1. destruct (Z.compare_spec (snd y) (snd x)) as [E|E|E].
    + constructor; [by constructor|]. constructor.
      * right. by split.
      * rewrite Forall_forall in *. intros z Hz.
        destruct (Hy z Hz) as [Hgt|[Heq Hlt]].
        -- left. lia.
        -- right. split; [lia|]. by apply Hx.
    + constructor; [by constructor|]. constructor.
      * left. lia.
      * rewrite Forall_forall in *. intros z Hz. left.
        destruct (Hy z Hz) as [Hgt|[Heq Hlt]]; lia.
    + constructor; [by apply IH|].
      rewrite insert_sorted_perm. constructor; [|done]. left. lia.
Qed.

Lemma sorted_desc_ranked (s : list (string * Z)) :
  StronglySorted (fun a b => String.compare (fst a) (fst b) = Lt) s ->
  StronglySorted ranks_before (sorted cmp_desc s).
Proof.
  induction 1 as [|x s Hs IH Hx]; simpl; [constructor|].
  apply insert_desc_ranked; [done|]. by rewrite sorted_perm.
Qed.

Lemma isin_rows_filter (fdf : DataFrame) (names : list string) :
  bool_index fdf (isin (map station fdf) names)
  = filter (fun r => station r ∈ names) fdf.
Proof.
  rewrite isin_map, bool_index_map. apply list_filter_decide.
  intros r. apply existsb_eqb_elem_of.
Qed.

(** C4: section 9 sums the down-direction boardings per station in
    [int64], ranks the stations by that sum, larger first and equal sums by
    ascending name, keeps the first five of the ranking (all of them when
    there are fewer than five stations) and plots the rows of those stations
    in the order of the table.  The sum of a station is the signed 64-bit
    integer that stands for the sum of its boardings: that sum itself
    whenever it fits in 64 bits. *)
Theorem C4_top_five_stations (fdf : DataFrame) :
  let sums := groupby_station (sum_of down_board) fdf in
  let top := nlargest 5 sums in
  let boarded := fun k =>
    Zsum (map down_board (filter (fun r => station r = k) fdf)) in
  top_5_stations fdf = map fst top /\
  (forall k v, (k, v) ∈ sums <->
     k ∈ map station fdf /\ int64_of (boarded k) v) /\
  (forall k v, (k, v) ∈ sums ->
     -9223372036854775808 <= boarded k < 9223372036854775808 ->
     v = boarded k) /\
  (forall e, e ∈ top -> e ∈ sums) /\
  length (top_5_stations fdf)
  = Nat.min 5 (length (remove_dups (map station fdf))) /\
  StronglySorted ranks_before top /\
  (forall t e, t ∈ top -> e ∈ sums -> e ∉ top -> ranks_before t e) /\
  top_5_data fdf = filter (fun r => station r ∈ top_5_stations fdf) fdf /\
  top_5_data fdf `sublist_of` fdf /\
  (forall l s, heap s !! l = Some fdf ->
     section9 l s =
     (Done tt,
      mkState (heap s)
        (page s ++ [Header "9. 상위 5개 역 분석";
                    PlotlyChart (px_line (top_5_data fdf)
                                   "상위 5개 역의 승차 인원 추이")]))).
Proof.
  intros sums top boarded.
  assert (StronglySorted ranks_before (sorted cmp_desc sums)) as Hrank
    by apply sorted_desc_ranked, groupby_station_ascending.
  assert (sorted cmp_desc sums = top ++ drop 5 (sorted cmp_desc sums)) as Hsplit
    by (symmetry; apply take_drop).
  assert (forall k v, (k, v) ∈ sums <->
            k ∈ map station fdf /\ int64_of (boarded k) v) as Hsums.
  { intros k v. unfold sums. rewrite elem_of_groupby_station.
    by rewrite sum_of_int64. }
  split; [reflexivity|]. split; [exact Hsums|].
  split.
  { intros k v [_ Hv]%Hsums Hfit.
    eapply int64_of_unique; [exact Hv|]. split; [done|]. exists 0. lia. }
  split.
  { intros e He. unfold top, nlargest in He.
    apply elem_of_take in He as (i & He & _).
    apply list_elem_of_lookup_2 in He. by rewrite sorted_perm in He. }
  split.
  { unfold top_5_stations. fold sums. fold top.
    rewrite length_map. unfold top, nlargest. rewrite length_take.
    rewrite (Permutation_length (sorted_perm cmp_desc sums)).
    rewrite <- (length_group_keys String.compare).
    unfold sums. rewrite <- (groupby_station_keys (sum_of down_board)).
    by rewrite length_map. }
  split.
  { rewrite Hsplit in Hrank. by apply StronglySorted_app_1_l in Hrank. }
  split.
  { intros t e Ht He Hne. rewrite Hsplit in Hrank.
    eapply StronglySorted_app_1_elem_of; [exact Hrank|exact Ht|].
    rewrite <- (sorted_perm cmp_desc), Hsplit in He.
    apply elem_of_app in He as [He|He]; [done|exact He]. }
  split; [apply isin_rows_filter|].
  split; [unfold top_5_data; rewrite isin_rows_filter; apply sublist_filter|].
  intros l s Hl. by apply section9_run.
Qed.

Lemma C4_top_five_stations_witness :
  top_5_stations ranked_table = ["D"; "B"; "C"; "A"] /\
  nlargest 5 (groupby_station (sum_of down_board) ranked_table)
  = [("D", 9); ("B", 7); ("C", 7); ("A", 3)] /\
  section9 0%nat (mkState [ranked_table] []) =
  (Done tt,
   mkState [ranked_table]
     [Header "9. 상위 5개 역 분석";
      PlotlyChart (px_line (top_5_data ranked_table)
                     "상위 5개 역의 승차 인원 추이")]).
Proof.
  split; [reflexivity|]. split; [reflexivity|].
  exact (proj2 (proj2 (proj2 (proj2 (proj2 (proj2 (proj2 (proj2 (proj2
    (C4_top_five_stations ranked_table)))))))))
    0%nat (mkState [ranked_table] []) eq_refl).
Defined.

(** Station A has boarded [2^63] passengers, more than every other station
    together, and its counts are valid ones; but its [int64] sum is [-2^63],
    the ranking puts it last, and the five stations of the chart are the
    other ones. *)
Lemma C4_wrapped_sum_ranks_last :
  let fdf := overflow_table in
  let boarded := fun k =>
    Zsum (map down_board (filter (fun r => station r = k) fdf)) in
  Forall record_counts fdf /\
  map boarded ["A"; "B"; "C"; "D"; "E"; "F"]
  = [9223372036854775808; 5; 4; 3; 2; 1] /\
  groupby_station (sum_of down_board) fdf
  = [("A", -9223372036854775808); ("B", 5); ("C", 4); ("D", 3); ("E", 2);
     ("F", 1)] /\
  top_5_stations fdf = ["B"; "C"; "D"; "E"; "F"] /\
  top_5_data fdf = drop 2 fdf.
Proof.
  intros fdf boarded. split.
  { unfold fdf, overflow_table.
    repeat (apply List.Forall_cons;
            [cbv [record_counts down_board down_alight up_board up_alight];
             lia|]).
    apply List.Forall_nil. }
  split; [by vm_compute|]. split; [by vm_compute|].
  split; by vm_compute.
Qed.

(** * Month labels: lexicographic order is chronological order *)

Lemma digit_compare (a b : Z) :
  Ascii.compare (digit a) (digit b) = (a mod 10 ?= b mod 10).
Proof.
  unfold digit, Ascii.compare.
  assert (forall d, 0 <= d < 10 ->
            N_of_ascii (ascii_of_N (48 + Z.to_N d)) = (48 + Z.to_N d)%N) as Hd.
  { intros d Hdr. apply N_ascii_embedding. lia. }
  rewrite !Hd by (apply Z.mod_pos_bound; lia).
  pose proof (Z.mod_pos_bound a 10 ltac:(lia)).
  pose proof (Z.mod_pos_bound b 10 ltac:(lia)).
  destruct (Z.compare_spec (a mod 10) (b mod 10)).
  - apply N.compare_eq_iff. lia.
  - apply N.compare_lt_iff. lia.
  - apply N.compare_gt_iff. lia.
Qed.

Ltac by_digits :=
  first [ symmetry; apply Z.compare_lt_iff; Z.div_mod_to_equations; lia
        | symmetry; apply Z.compare_gt_iff; Z.div_mod_to_equations; lia ].

Lemma four_digits_then (y1 y2 : Z) (k : comparison) :
  0 <= y1 < 10000 -> 0 <= y2 < 10000 ->
  match (y1 / 1000) mod 10 ?= (y2 / 1000) mod 10 with
  | Eq => match (y1 / 100) mod 10 ?= (y2 / 100) mod 10 with
          | Eq => match (y1 / 10) mod 10 ?= (y2 / 10) mod 10 with
                  | Eq => match y1 mod 10 ?= y2 mod 10 with
                          | Eq => k
                          | c => c
                          end
                  | c => c
                  end
          | c => c
          end
  | c => c
  end
  = match y1 ?= y2 with Eq => k | c => c end.
Proof.
  intros H1 H2.
  destruct (Z.compare_spec ((y1 / 1000) mod 10) ((y2 / 1000) mod 10));
    [|replace (y1 ?= y2) with Lt by by_digits; reflexivity
     |replace (y1 ?= y2) with Gt by by_digits; reflexivity].
  destruct (Z.compare_spec ((y1 / 100) mod 10) ((y2 / 100) mod 10));
    [|replace (y1 ?= y2) with Lt by by_digits; reflexivity
     |replace (y1 ?= y2) with Gt by by_digits; reflexivity].
  destruct (Z.compare_spec ((y1 / 10) mod 10) ((y2 / 10) mod 10));
    [|replace (y1 ?= y2) with Lt by by_digits; reflexivity
     |replace (y1 ?= y2) with Gt by by_digits; reflexivity].
  destruct (Z.compare_spec (y1 mod 10) (y2 mod 10));
    [|replace (y1 ?= y2) with Lt by by_digits; reflexivity
     |replace (y1 ?= y2) with Gt by by_digits; reflexivity].
  replace (y1 ?= y2) with Eq; [reflexivity|].
  symmetry. apply Z.compare_eq_iff. Z.div_mod_to_equations. lia.
Qed.

Lemma two_digits (m1 m2 : Z) :
  0 <= m1 < 100 -> 0 <= m2 < 100 ->
  match (m1 / 10) mod 10 ?= (m2 / 10) mod 10 with
  | Eq => match m1 mod 10 ?= m2 mod 10 with
          | Eq => Eq
          | c => c
          end
  | c => c
  end
  = (m1 ?= m2).
Proof.
  intros H1 H2.
  destruct (Z.compare_spec ((m1 / 10) mod 10) ((m2 / 10) mod 10));
    [|by_digits|by_digits].
  destruct (Z.compare_spec (m1 mod 10) (m2 mod 10)); [|by_digits|by_digits].
  symmetry. apply Z.compare_eq_iff. Z.div_mod_to_equations. lia.
Qed.

Lemma strftime_Ym_compare (a b : Timestamp) :
  valid_period a -> valid_period b ->
  String.compare (strftime_Ym a) (strftime_Ym b)
  = match year (ts_date a) ?= year (ts_date b) with
    | Eq => month (ts_date a) ?= month (ts_date b)
    | c => c
    end.
Proof.
  intros [Hya Hma] [Hyb Hmb]. unfold strftime_Ym. cbv zeta.
  cbn [String.compare]. rewrite !digit_compare.
  change (Ascii.compare "-" "-") with Eq. cbv iota.
  rewrite four_digits_then by lia.
  destruct (year (ts_date a) ?= year (ts_date b)); [|done|done].
  apply two_digits; lia.
Qed.


Lemma month_label_inj (r1 r2 : Row) :
  valid_period (period r1) -> valid_period (period r2) ->
  month_label r1 = month_label r2 -> year_month r1 = year_month r2.
Proof.
  intros H1 H2 E.
  assert (String.compare (month_label r1) (month_label r2) = Eq) as Hc
    by (by apply String_as_OT.cmp_eq).
  unfold month_label in Hc. rewrite strftime_Ym_compare in Hc by done.
  unfold year_month.
  destruct (Z.compare_spec (year (ts_date (period r1)))
                           (year (ts_date (period r2)))) as [Ey|Ey|Ey];
    [|done|done].
  apply Z.compare_eq_iff in Hc. by rewrite Ey, Hc.
Qed.

(** * The heat map table and its pivot (claims C7 and C10) *)

Lemma heatmap_frame_rows (fdf : DataFrame) : heatmap_frame fdf = map add_heat fdf.
Proof.
  unfold heatmap_frame. cbv zeta.
  rewrite setitem_map.
  rewrite !map_map. cbn [down_board up_board set_cell].
  rewrite series_add_map, map_map.
  rewrite <- (map_map (fun r => set_cell r "월" (VStr (strftime_Ym (period r))))
                      (fun r => VInt (Int64.add (down_board r) (up_board r)))).
  rewrite setitem_map, map_map. reflexivity.
Qed.

Lemma heat_keys (fdf : DataFrame) :
  combine (col_str (heatmap_frame fdf) "월") (map station (heatmap_frame fdf))
  = map heat_key fdf.
Proof.
  rewrite heatmap_frame_rows. unfold col_str.
  rewrite !map_map, combine_map_both. apply map_ext. intros r.
  unfold add_heat, heat_key, month_label. cbn [station derived set_cell].
  rewrite assoc_get_set_ne by done. by rewrite assoc_get_set_eq.
Qed.

Lemma heat_values (fdf : DataFrame) :
  col_int (heatmap_frame fdf) "총_승차인원수" = map boardings fdf.
Proof.
  rewrite heatmap_frame_rows. unfold col_int. rewrite map_map.
  apply map_ext. intros r. unfold add_heat. cbn [derived set_cell].
  by rewrite assoc_get_set_eq.
Qed.

Lemma keyed_group (fdf : DataFrame) (k : string * string) :
  map snd (List.filter (fun p => bool_decide (fst p = k))
             (map (fun r => (heat_key r, boardings r)) fdf))
  = map boardings (filter (fun r => heat_key r = k) fdf).
Proof.
  induction fdf as [|r fdf IH]; simpl; [done|].
  rewrite filter_cons. destruct (decide (heat_key r = k)) as [E|E].
  - rewrite bool_decide_eq_true_2 by done. simpl. by rewrite IH.
  - rewrite bool_decide_eq_false_2 by done. exact IH.
Qed.

Lemma heat_series (fdf : DataFrame) :
  groupby2_mean (col_str (heatmap_frame fdf) "월")
                (map station (heatmap_frame fdf))
                (col_int (heatmap_frame fdf) "총_승차인원수")
  = map (fun k => (k, mean_of boardings (heat_rows fdf (fst k) (snd k))))
        (group_keys pair_compare (map heat_key fdf)).
Proof.
  unfold groupby2_mean. cbv zeta. rewrite heat_keys, heat_values.
  apply map_ext. intros [m st]. rewrite combine_map_both, keyed_group.
  reflexivity.
Qed.

Lemma lookup2_keyed (f : string * string -> spec_float)
    (keys : list (string * string))
    (k : string * string) :
  lookup2 k (map (fun k' => (k', f k')) keys)
  = if decide (k ∈ keys) then Some (f k) else None.
Proof.
  induction keys as [|k' keys IH]; simpl.
  - destruct (decide (k ∈ [])) as [H|H]; [by apply elem_of_nil in H|done].
  - destruct (decide (k' = k)) as [->|Hne].
    + rewrite bool_decide_eq_true_2 by done.
      destruct (decide (k ∈ k :: keys)) as [H|H]; [done|].
      exfalso. apply H. by left.
    + rewrite bool_decide_eq_false_2 by done. rewrite IH.
      destruct (decide (k ∈ keys)) as [H|H];
        destruct (decide (k ∈ k' :: keys)) as [H'|H']; try done.
      * exfalso. apply H'. by right.
      * apply elem_of_cons in H' as [->|H']; done.
Qed.

Lemma month_axis_keys (fdf : DataFrame) :
  month_axis fdf = group_keys String.compare (map month_label fdf).
Proof.
  unfold month_axis, heatmap_pivot, unstack. cbv zeta. cbn [index].
  rewrite heat_series, map_map. cbn [fst].
  apply station_keys_same_elements. intros x.
  rewrite !elem_of_map_iff. split.
  - intros (k & <- & Hk). apply elem_of_group_keys in Hk.
    apply elem_of_map_iff in Hk as (r & <- & Hr). by exists r.
  - intros (r & <- & Hr). exists (heat_key r). split; [done|].
    apply elem_of_group_keys, elem_of_map_iff. by exists r.
Qed.

Lemma station_axis_keys (fdf : DataFrame) :
  station_axis fdf = group_keys String.compare (map station fdf).
Proof.
  unfold station_axis, heatmap_pivot, unstack. cbv zeta. cbn [columns].
  rewrite heat_series, map_map. cbn [snd fst].
  apply station_keys_same_elements. intros x.
  rewrite !elem_of_map_iff. split.
  - intros (k & <- & Hk). apply elem_of_group_keys in Hk.
    apply elem_of_map_iff in Hk as (r & <- & Hr). by exists r.
  - intros (r & <- & Hr). exists (heat_key r). split; [done|].
    apply elem_of_group_keys, elem_of_map_iff. by exists r.
Qed.

(** * The month axis (claim C10) *)





Lemma ym_label_year_month (r : Row) : ym_label (year_month r) = month_label r.
Proof. reflexivity. Qed.






(** * The heat map matrix (claim C7) *)

Lemma Zsum_bounds (l : list Z) (x : Z) :
  Forall (fun v => 0 <= v) l -> x ∈ l -> 0 <= x <= Zsum l.
Proof.
  unfold Zsum. induction 1 as [|v l Hv Hl IH]; intros Hx.
  - by apply elem_of_nil in Hx.
  - assert (0 <= fold_right Z.add 0 l) as Hrest.
    { clear -Hl. induction Hl; simpl; lia. }
    apply elem_of_cons in Hx as [->|Hx]; simpl; [lia|].
    specialize (IH Hx). lia.
Qed.

Lemma mean_of_small (f : Row -> Z) (rows : DataFrame) :
  Forall (fun r => 0 <= f r) rows ->
  Zsum (map f rows) < 9007199254740992 ->
  mean_of f rows
  = Float64.div (Float64.of_int64 (Zsum (map f rows)))
                (Float64.of_int64 (Z.of_nat (length rows))).
Proof.
  intros Hf Hsum. unfold mean_of.
  rewrite group_mean_small, length_map; [done| |done].
  apply Forall_forall. intros v Hv.
  apply elem_of_map_iff in Hv as (r & <- & Hr).
  by apply (proj1 (Forall_forall _ _) Hf).
Qed.

Lemma boardings_int64 (r : Row) :
  int64_of (down_board r + up_board r) (boardings r).
Proof. apply wrap_spec. Qed.

Lemma mean_of_boardings_small (rows : DataFrame) :
  Forall record_counts rows ->
  Zsum (map (fun r => down_board r + up_board r) rows) < 9007199254740992 ->
  mean_of boardings rows
  = Float64.div
      (Float64.of_int64 (Zsum (map (fun r => down_board r + up_board r) rows)))
      (Float64.of_int64 (Z.of_nat (length rows))).
Proof.
  intros Hc Hsum.
  assert (Forall (fun r => 0 <= down_board r + up_board r) rows) as Hpos.
  { apply Forall_forall. intros r Hr.
    apply (proj1 (Forall_forall _ _) Hc) in Hr.
    unfold record_counts in Hr. lia. }
  assert (map boardings rows = map (fun r => down_board r + up_board r) rows)
    as Hmap.
  { apply map_ext_in. intros r Hr%list_elem_of_In. unfold boardings, Int64.add.
    apply wrap_fits.
    assert (0 <= down_board r + up_board r
            <= Zsum (map (fun r => down_board r + up_board r) rows)) as Hb.
    { apply Zsum_bounds.
      - apply Forall_forall. intros v Hv.
        apply elem_of_map_iff in Hv as (r' & <- & Hr').
        by apply (proj1 (Forall_forall _ _) Hpos).
      - apply elem_of_map_iff. by exists r. }
    lia. }
  unfold mean_of. rewrite Hmap.
  by apply (mean_of_small (fun r => down_board r + up_board r)).
Qed.

Lemma lookup_map {A B : Type} (f : A -> B) (l : list A) (i : nat) (x : A) :
  l !! i = Some x -> map f l !! i = Some (f x).
Proof.
  revert i. induction l as [|y l IH]; intros [|i]; simpl; try done.
  - by intros [= ->].
  - apply IH.
Qed.

Lemma heat_rows_nil (fdf : DataFrame) (m st : string) :
  heat_rows fdf m st = [] <-> (m, st) ∉ map heat_key fdf.
Proof.
  unfold heat_rows. rewrite elem_of_map_iff. split.
  - intros E (r & Hk & Hr).
    assert (r ∈ filter (fun r => heat_key r = (m, st)) fdf) as Hin
      by (by apply list_elem_of_filter).
    rewrite E in Hin. by apply elem_of_nil in Hin.
  - intros Hno.
    destruct (filter (fun r => heat_key r = (m, st)) fdf) as [|r rest] eqn:E;
      [done|].
    exfalso. apply Hno. exists r.
    apply (list_elem_of_filter (fun r => heat_key r = (m, st))).
    rewrite E. by left.
Qed.

Lemma heat_cell_lookup (fdf : DataFrame) (i j : nat) (m st : string) :
  month_axis fdf !! i = Some m -> station_axis fdf !! j = Some st ->
  heat_cell fdf i j
  = Some (if decide ((m, st) ∈ map heat_key fdf)
          then Some (mean_of boardings (heat_rows fdf m st)) else None).
Proof.
  unfold heat_cell, month_axis, station_axis, heatmap_pivot, unstack.
  cbv zeta. cbn [index columns cells]. intros Hi Hj.
  rewrite (lookup_map _ _ _ _ Hi), (lookup_map _ _ _ _ Hj).
  rewrite heat_series, lookup2_keyed. cbn [fst snd]. f_equal.
  destruct (decide ((m, st) ∈ group_keys pair_compare (map heat_key fdf)))
    as [H|H];
    destruct (decide ((m, st) ∈ map heat_key fdf)) as [H'|H']; try done.
  - by apply elem_of_group_keys in H.
  - by apply (elem_of_group_keys pair_compare) in H'.
Qed.

Lemma heat_cells_shape (fdf : DataFrame) :
  let pv := heatmap_pivot (heatmap_frame fdf) in
  length (cells pv) = length (index pv) /\
  Forall (fun row => length row = length (columns pv)) (cells pv).
Proof.
  unfold heatmap_pivot, unstack. cbv zeta. cbn [index columns cells].
  split; [apply length_map|].
  apply Forall_forall. intros row Hrow.
  apply elem_of_map_iff in Hrow as (m & <- & _). apply length_map.
Qed.

(** C7: the heat map of the filtered table has one row per distinct month
    label of the filtered rows and one column per distinct station that
    occurs in the filtered rows, both ascending; its columns are the selected
    stations that have a row of the table in the date interval, not all the
    selected ones.  Every row of the matrix has one cell per column.  The
    total of a row is down plus up boardings in [int64], so the sum reduced
    to the 64-bit range.  The cell of a month and a station of the axes is
    the [float64] mean of the totals of the filtered rows of that month and
    station, taken in the order of the table, and the missing value (not a
    number) when there is no such row.  When the counts of these rows are
    not negative and their totals add up to less than [2^53], the cell is
    the quotient of the sum of down plus up boardings by the number of rows,
    rounded once to [float64].  Section 4 shows this matrix. *)
Theorem C7_heat_map_shape_and_cells (df : DataFrame) (sel : list string)
    (d0 d1 : date) :
  let fdf := filter_rows df sel d0 d1 in
  let pv := heatmap_pivot (heatmap_frame fdf) in
  index pv = group_keys String.compare (map month_label fdf) /\
  columns pv = group_keys String.compare (map station fdf) /\
  length (index pv) = length (remove_dups (map month_label fdf)) /\
  length (columns pv) = length (remove_dups (map station fdf)) /\
  (forall st, st ∈ columns pv <->
     exists r, r ∈ df /\ qualifies sel d0 d1 r /\ station r = st) /\
  length (cells pv) = length (index pv) /\
  Forall (fun row => length row = length (columns pv)) (cells pv) /\
  (forall r, int64_of (down_board r + up_board r) (boardings r)) /\
  (forall i j m st,
     index pv !! i = Some m -> columns pv !! j = Some st ->
     let rows := heat_rows fdf m st in
     let total := Zsum (map (fun r => down_board r + up_board r) rows) in
     (rows = [] -> heat_cell fdf i j = Some None) /\
     (rows <> [] ->
      heat_cell fdf i j = Some (Some (group_mean (map boardings rows)))) /\
     (rows <> [] -> Forall record_counts rows -> total < 9007199254740992 ->
      heat_cell fdf i j
      = Some (Some (Float64.div
                      (Float64.of_int64 total)
                      (Float64.of_int64 (Z.of_nat (length rows))))))) /\
  (forall l s, heap s !! l = Some fdf ->
     page (snd (section4 l s))
     = page s ++ [Header "4. 월별 승차 인원 히트맵";
                  PlotlyChart (px_imshow pv "월별 평균 승차 인원 히트맵")]).
Proof.
  intros fdf pv.
  assert (index pv = group_keys String.compare (map month_label fdf)) as Hm
    by apply month_axis_keys.
  assert (columns pv = group_keys String.compare (map station fdf)) as Hs
    by apply station_axis_keys.
  split; [exact Hm|]. split; [exact Hs|].
  split; [rewrite Hm; apply length_group_keys|].
  split; [rewrite Hs; apply length_group_keys|].
  split.
  { intros st. rewrite Hs, elem_of_group_keys, elem_of_map_iff.
    unfold fdf. rewrite filter_rows_filter. split.
    - intros (r & E & Hr). apply list_elem_of_filter in Hr as [Hq Hr].
      by exists r.
    - intros (r & Hr & Hq & E). exists r. split; [done|].
      by apply list_elem_of_filter. }
  split; [apply heat_cells_shape|]. split; [apply heat_cells_shape|].
  split; [apply boardings_int64|].
  split.
  { intros i j m st Hi Hj rows total.
    rewrite (heat_cell_lookup fdf i j m st Hi Hj).
    pose proof (heat_rows_nil fdf m st) as Hnil. fold rows in Hnil.
    destruct (decide ((m, st) ∈ map heat_key fdf)) as [H|H].
    - split; [intros E; apply Hnil in E; done|].
      split; [done|]. intros _ Hc Hsum. do 2 f_equal.
      exact (mean_of_boardings_small rows Hc Hsum).
    - split; [done|].
      split; intros Hne; exfalso; apply Hne; by apply Hnil. }
  intros l s Hl. by rewrite (section4_run l s fdf Hl).
Qed.

Lemma C7_heat_map_shape_and_cells_witness :
  let fdf := filter_rows repeated_table ["A"; "B"]
               (mkDate 2023 1 1) (mkDate 2023 12 31) in
  index (heatmap_pivot (heatmap_frame fdf)) = ["2023-01"; "2023-02"] /\
  columns (heatmap_pivot (heatmap_frame fdf)) = ["A"] /\
  heat_rows fdf "2023-01" "A" = take 3 repeated_table /\
  Forall record_counts (heat_rows fdf "2023-01" "A") /\
  heat_cell fdf 0 0
  = Some (Some (Float64.div (Float64.of_int64 4) (Float64.of_int64 3))) /\
  Float64.div (Float64.of_int64 4) (Float64.of_int64 3)
  = S754_finite false 6004799503160661 (-52) /\
  heat_cell fdf 1 0 = Some (Some (S754_finite false 5910974510923776 (-48))) /\
  heat_cell fdf 0 1 = None.
Proof.
  intros fdf.
  assert (Forall record_counts (heat_rows fdf "2023-01" "A")) as Hc.
  { assert (heat_rows fdf "2023-01" "A" = take 3 repeated_table) as ->
      by reflexivity.
    unfold repeated_table. cbn [take].
    repeat apply List.Forall_cons; try apply List.Forall_nil;
      cbv [record_counts down_board down_alight up_board up_alight]; lia. }
  pose proof (proj1 (proj2 (proj2 (proj2 (proj2 (proj2 (proj2 (proj2 (proj2
    (C7_heat_map_shape_and_cells repeated_table ["A"; "B"]
       (mkDate 2023 1 1) (mkDate 2023 12 31))))))))))) as Hcells.
  split; [reflexivity|]. split; [reflexivity|]. split; [reflexivity|].
  split; [exact Hc|].
  split.
  - apply (proj2 (proj2 (Hcells 0%nat 0%nat "2023-01" "A" eq_refl eq_refl)));
      [discriminate|exact Hc|reflexivity].
  - split; [by vm_compute|].
    split; [|reflexivity].
    eapply eq_trans.
    + apply (proj1 (proj2 (Hcells 1%nat 0%nat "2023-02" "A" eq_refl eq_refl))).
      discriminate.
    + by vm_compute.
Defined.

(** Station C is selected and stands in the table, but none of its rows
    lies in 2023: the heat map that the run shows has two columns, for
    three selected stations. *)
Lemma C7_selected_station_without_column :
  let fdf := filter_rows sample_table (selected_stations sample_ui)
               (start_date sample_ui) (end_date sample_ui) in
  fdf <> [] /\
  NoDup (selected_stations sample_ui) /\
  length (selected_stations sample_ui) = 3%nat /\
  exists pv title,
    PlotlyChart (px_imshow pv title) ∈ page (snd (run sample_fs sample_ui)) /\
    index pv = ["2023-01"; "2023-02"] /\
    columns pv = ["A"; "B"] /\
    length (columns pv) <> length (selected_stations sample_ui).
Proof.
  intros fdf. split; [discriminate|].
  split; [apply (bool_decide_unpack _); by vm_compute|]. split; [reflexivity|].
  exists (heatmap_pivot (heatmap_frame fdf)), "월별 평균 승차 인원 히트맵".
  split.
  - rewrite (run_rendered sample_fs sample_ui sample_table eq_refl)
      by (reflexivity || discriminate).
    cbn [snd page]. apply elem_of_app. right.
    unfold rendered. rewrite !elem_of_app. do 3 right. left.
    unfold page4. apply elem_of_cons. right. by left.
  - split; [reflexivity|]. split; [reflexivity|]. by vm_compute.
Qed.

(** * The totals of the pie chart (claim C5) *)

Lemma total_data_rows (fdf : DataFrame) :
  total_data fdf
  = map (fun k => let g := filter (fun r => station r = k) fdf in
                  mkTotalRow k (sum_of down_board g) (sum_of up_board g)
                    (Int64.add (sum_of down_board g) (sum_of up_board g)))
        (group_keys String.compare (map station fdf)).
Proof.
  unfold total_data, groupby_station. rewrite map_map. cbn [fst snd].
  apply map_ext. intros k. by rewrite group_filter.
Qed.

Lemma elem_of_total_data (fdf : DataFrame) (t : TotalRow) :
  t ∈ total_data fdf ->
  let g := filter (fun r => station r = tot_station t) fdf in
  tot_station t ∈ map station fdf /\
  tot_down t = sum_of down_board g /\ tot_up t = sum_of up_board g /\
  tot_total t = Int64.add (sum_of down_board g) (sum_of up_board g).
Proof.
  rewrite total_data_rows. intros Ht.
  apply elem_of_map_iff in Ht as (k & <- & Hk). cbn.
  by apply elem_of_group_keys in Hk.
Qed.

(** C5: section 3 gives the pie chart one row per station of the filtered
    table, in ascending order of name and also for a station whose total is
    zero, with the sum of its down boardings, the sum of its up boardings and
    their total, all three in [int64]: the signed 64-bit integers that stand
    for the sums, which are the sums themselves whenever they fit in 64 bits.
    The chart receives these totals as its values; the script divides
    nothing. *)
Theorem C5_pie_receives_station_totals (fdf : DataFrame) :
  let rows := total_data fdf in
  map tot_station rows = group_keys String.compare (map station fdf) /\
  (forall st, st ∈ map tot_station rows <-> st ∈ map station fdf) /\
  (forall t, t ∈ rows ->
     let g := filter (fun r => station r = tot_station t) fdf in
     let down := Zsum (map down_board g) in
     let up := Zsum (map up_board g) in
     int64_of down (tot_down t) /\
     int64_of up (tot_up t) /\
     int64_of (down + up) (tot_total t) /\
     (-9223372036854775808 <= down < 9223372036854775808 ->
      tot_down t = down) /\
     (-9223372036854775808 <= up < 9223372036854775808 -> tot_up t = up) /\
     (-9223372036854775808 <= down + up < 9223372036854775808 ->
      tot_total t = down + up)) /\
  (forall l s, heap s !! l = Some fdf ->
     page (snd (section3 l s))
     = page s ++ [Header "3. 역별 총 승차 인원 비율";
                  PlotlyChart (px_pie rows "총_승차인원수" "정차역"
                                      "역별 총 승차 인원 비율")]).
Proof.
  intros rows.
  assert (map tot_station rows = group_keys String.compare (map station fdf))
    as Hkeys.
  { unfold rows. rewrite total_data_rows, map_map. cbn. apply map_id. }
  split; [exact Hkeys|].
  split; [intros st; rewrite Hkeys; apply elem_of_group_keys|].
  split; [|intros l s Hl; by rewrite (section3_run l s fdf Hl)].
  intros t Ht g down up.
  apply elem_of_total_data in Ht as (_ & Hd & Hu & Ht). fold g in Hd, Hu, Ht.
  apply sum_of_int64 in Hd, Hu.
  assert (int64_of (down + up) (tot_total t)) as Hsum.
  { rewrite Ht. apply add_int64; by apply sum_of_int64. }
  assert (forall z v, int64_of z v ->
            -9223372036854775808 <= z < 9223372036854775808 -> v = z) as Hfit.
  { intros z v Hv Hz. eapply int64_of_unique; [exact Hv|].
    split; [done|]. exists 0. lia. }
  split; [exact Hd|]. split; [exact Hu|]. split; [exact Hsum|].
  split; [by apply Hfit|]. split; by apply Hfit.
Qed.

Lemma C5_pie_receives_station_totals_witness :
  total_data sample_table
  = [mkTotalRow "A" 50 3 53; mkTotalRow "B" 10 7 17; mkTotalRow "C" 1 1 2] /\
  page (snd (section3 0%nat (mkState [sample_table] [])))
  = [Header "3. 역별 총 승차 인원 비율";
     PlotlyChart (px_pie (total_data sample_table) "총_승차인원수" "정차역"
                         "역별 총 승차 인원 비율")].
Proof.
  split; [reflexivity|].
  exact (proj2 (proj2 (proj2 (C5_pie_receives_station_totals sample_table)))
           0%nat (mkState [sample_table] []) eq_refl).
Defined.

(** On the sample run the pie chart receives the totals 53 and 17 of the
    stations A and B: no value is the station's share of the sum, and the
    values add up to 70. *)
Lemma C5_pie_values_are_totals :
  exists rows values names title,
    PlotlyChart (px_pie rows values names title)
      ∈ page (snd (run sample_fs sample_ui)) /\
    map tot_station rows = ["A"; "B"] /\
    map tot_total rows = [53; 17] /\
    total_sum rows = 70 /\
    (forall t, t ∈ rows ->
       ~ Qeq (inject_Z (tot_total t)) (spec_share rows t)).
Proof.
  set (fdf := filter_rows sample_table (selected_stations sample_ui)
                (start_date sample_ui) (end_date sample_ui)).
  exists (total_data fdf), "총_승차인원수", "정차역", "역별 총 승차 인원 비율".
  split.
  - rewrite (run_rendered sample_fs sample_ui sample_table eq_refl)
      by (reflexivity || discriminate).
    cbn [snd page]. apply elem_of_app. right.
    unfold rendered. rewrite !elem_of_app. do 2 right. left.
    unfold page3. apply elem_of_cons. right. by left.
  - split; [reflexivity|]. split; [reflexivity|]. split; [reflexivity|].
    intros t Ht.
    change (total_data fdf) with [mkTotalRow "A" 50 3 53; mkTotalRow "B" 10 7 17]
      in Ht |- *.
    apply elem_of_cons in Ht as [->|Ht];
      [|apply elem_of_cons in Ht as [->|Ht]; [|by apply elem_of_nil in Ht]];
      by vm_compute.
Qed.

(** * Loading the table (lines 7 to 30) *)

(** X1: when [ktx.csv] is missing, or when neither decoder can read it, the
    run shows the title and the one message of that failure and stops,
    whatever the widgets hold; the frame it got is the empty one. *)
Theorem X1_load_failure_stops (fs : FileSystem) (ui : Widgets) :
  (read_euc_kr fs = FileNotFoundError ->
   run fs ui =
   (Stop, mkState [[]] [Title "KTX 승하차 인원 데이터 시각화";
                        Error msg_not_found])) /\
  (read_euc_kr fs = UnicodeDecodeError ->
   read_cp949 fs = UnicodeDecodeError ->
   run fs ui =
   (Stop, mkState [[]] [Title "KTX 승하차 인원 데이터 시각화";
                        Error msg_encoding])).
Proof.
  unfold run, main, load_data. split.
  - by intros ->.
  - by intros -> ->.
Qed.

Lemma X1_load_failure_stops_witness :
  run (mkFileSystem FileNotFoundError (ReadOk sample_table)) sample_ui =
  (Stop, mkState [[]] [Title "KTX 승하차 인원 데이터 시각화";
                       Error msg_not_found]).
Proof.
  exact (proj1 (X1_load_failure_stops
                  (mkFileSystem FileNotFoundError (ReadOk sample_table))
                  sample_ui) eq_refl).
Defined.

(** X2: a file that decodes to a table without rows stops the run after
    the title: no message, no widget value is read, nothing is drawn. *)
Theorem X2_empty_table_stops_silently (fs : FileSystem) (ui : Widgets) :
  loaded_table fs = Some [] ->
  run fs ui = (Stop, mkState [[]] [Title "KTX 승하차 인원 데이터 시각화"]).
Proof.
  intros Hload. unfold run, main.
  erewrite bind_done; [|reflexivity].
  erewrite bind_done; [|by apply load_data_loaded].
  reflexivity.
Qed.

Lemma X2_empty_table_stops_silently_witness :
  run (mkFileSystem UnicodeDecodeError (ReadOk [])) sample_ui =
  (Stop, mkState [[]] [Title "KTX 승하차 인원 데이터 시각화"]).
Proof.
  exact (X2_empty_table_stops_silently
           (mkFileSystem UnicodeDecodeError (ReadOk [])) sample_ui eq_refl).
Defined.

(** X3: the handler for a missing file guards only the first read.  When
    the first decoder fails on the encoding and the second read finds no
    file, the exception leaves [load_data] and [main] uncaught: the page
    holds the title alone, without any message of the script. *)
Theorem X3_fallback_read_is_unguarded (fs : FileSystem) (ui : Widgets) :
  read_euc_kr fs = UnicodeDecodeError ->
  read_cp949 fs = FileNotFoundError ->
  run fs ui =
  (Raised "FileNotFoundError",
   mkState [] [Title "KTX 승하차 인원 데이터 시각화"]).
Proof. unfold run, main, load_data. by intros -> ->. Qed.

Lemma X3_fallback_read_is_unguarded_witness :
  run (mkFileSystem UnicodeDecodeError FileNotFoundError) sample_ui =
  (Raised "FileNotFoundError",
   mkState [] [Title "KTX 승하차 인원 데이터 시각화"]).
Proof.
  exact (X3_fallback_read_is_unguarded
           (mkFileSystem UnicodeDecodeError FileNotFoundError) sample_ui
           eq_refl eq_refl).
Defined.

(** * The station widget and its warning (lines 32 to 37) *)

Lemma elem_of_all_stations (df : DataFrame) (x : string) :
  x ∈ all_stations df <-> x ∈ map station df.
Proof. apply (elem_of_group_keys String.compare). Qed.

Lemma elem_of_list_filter {A : Type} (f : A -> bool) (l : list A) (x : A) :
  x ∈ List.filter f l <-> x ∈ l /\ f x = true.
Proof. rewrite !list_elem_of_In, filter_In. tauto. Qed.

Lemma filter_length_lt {A : Type} (f : A -> bool) (l : list A) :
  (length (List.filter f l) < length l)%nat <->
  exists x, x ∈ l /\ f x = false.
Proof.
  induction l as [|y l IH]; simpl.
  - split; [lia|]. intros (x & Hx & _). by apply elem_of_nil in Hx.
  - pose proof (List.filter_length_le f l) as Hle.
    destruct (f y) eqn:E; simpl.
    + rewrite <- Nat.succ_lt_mono, IH. split.
      * intros (x & Hx & Hf). exists x. split; [by right|done].
      * intros (x & Hx & Hf). apply elem_of_cons in Hx as [->|Hx];
          [congruence|by exists x].
    + split; [|lia]. intros _. exists y. split; [by left|done].
Qed.

Lemma elem_of_default_stations (df : DataFrame) (x : string) :
  x ∈ default_stations df <-> x ∈ preferred_stations /\ x ∈ map station df.
Proof.
  unfold default_stations.
  by rewrite elem_of_list_filter, existsb_eqb_elem_of, elem_of_all_stations.
Qed.

Lemma elem_of_missing_stations (df : DataFrame) (x : string) :
  x ∈ missing_stations df <-> x ∈ preferred_stations /\ x ∉ map station df.
Proof.
  unfold missing_stations.
  rewrite elem_of_list_filter, negb_true_iff, <- not_true_iff_false.
  rewrite existsb_eqb_elem_of, elem_of_default_stations. tauto.
Qed.

Lemma default_stations_short (df : DataFrame) :
  (length (default_stations df) <? 5)%nat = true <->
  exists x, x ∈ preferred_stations /\ x ∉ map station df.
Proof.
  rewrite Nat.ltb_lt. unfold default_stations.
  change 5%nat with (length preferred_stations).
  rewrite filter_length_lt. split; intros (x & Hx & Hf); exists x.
  - split; [done|]. rewrite <- elem_of_all_stations, <- existsb_eqb_elem_of.
    by rewrite Hf.
  - split; [done|]. apply not_true_iff_false.
    by rewrite existsb_eqb_elem_of, elem_of_all_stations.
Qed.

Lemma page_before_filter_warning (df : DataFrame) :
  page_before_filter df
  = Title "KTX 승하차 인원 데이터 시각화" ::
    (if (length (default_stations df) <? 5)%nat
     then [WarningMissing msg_missing_stations (missing_stations df)]
     else []).
Proof. reflexivity. Qed.

Lemma rendered_no_station_warning (sel : list string) (fdf : DataFrame) :
  forallb (fun e => negb (is_station_warning e)) (rendered sel fdf) = true.
Proof. reflexivity. Qed.

(** The page of a run that loaded rows: what stands before the filter
    stage, and then elements among which no station warning is. *)
Lemma run_page_after_filter (fs : FileSystem) (ui : Widgets) (df : DataFrame) :
  loaded_table fs = Some df -> df <> [] ->
  exists rest,
    page (snd (run fs ui)) = page_before_filter df ++ rest /\
    forallb (fun e => negb (is_station_warning e)) rest = true.
Proof.
  intros Hload Hne.
  destruct (date_gtb (start_date ui) (end_date ui)) eqn:Hd.
  - rewrite (run_invalid_range fs ui df Hload Hne Hd). by eexists.
  - destruct (filter_rows df (selected_stations ui) (start_date ui)
                (end_date ui)) as [|r fdf] eqn:Hf.
    + rewrite (run_no_rows fs ui df Hload Hne Hd Hf). by eexists.
    + rewrite (run_rendered fs ui df Hload Hne Hd) by by rewrite Hf.
      eexists. split; [reflexivity|apply rendered_no_station_warning].
Qed.

(** X4: in a run that loaded rows, the station warning is on the page
    exactly when one of the five preferred stations has no row in the table;
    it then stands once, right after the title, and names the preferred
    stations without a row, those and no others. *)
Theorem X4_missing_station_warning
    (fs : FileSystem) (ui : Widgets) (df : DataFrame) :
  loaded_table fs = Some df -> df <> [] ->
  let pg := page (snd (run fs ui)) in
  ((exists x, x ∈ preferred_stations /\ x ∉ map station df) ->
   exists missing rest,
     pg = Title "KTX 승하차 인원 데이터 시각화" ::
          WarningMissing msg_missing_stations missing :: rest /\
     (forall x, x ∈ missing <->
                x ∈ preferred_stations /\ x ∉ map station df) /\
     forallb (fun e => negb (is_station_warning e)) rest = true) /\
  ((forall x, x ∈ preferred_stations -> x ∈ map station df) ->
   forallb (fun e => negb (is_station_warning e)) pg = true).
Proof.
  intros Hload Hne pg.
  destruct (run_page_after_filter fs ui df Hload Hne) as (rest & Hpg & Hrest).
  unfold pg. rewrite Hpg, page_before_filter_warning. split.
  - intros Hex. rewrite (proj2 (default_stations_short df) Hex).
    exists (missing_stations df), rest.
    split; [reflexivity|]. split; [apply elem_of_missing_stations|done].
  - intros Hall.
    destruct (length (default_stations df) <? 5)%nat eqn:E; [|exact Hrest].
    apply default_stations_short in E as (x & Hx & Hno).
    exfalso. by apply Hno, Hall.
Qed.

Lemma X4_missing_station_warning_witness :
  exists missing rest,
    page (snd (run sample_fs sample_ui))
    = Title "KTX 승하차 인원 데이터 시각화" ::
      WarningMissing msg_missing_stations missing :: rest /\
    (forall x, x ∈ missing <->
               x ∈ preferred_stations /\ x ∉ map station sample_table) /\
    forallb (fun e => negb (is_station_warning e)) rest = true.
Proof.
  apply (proj1 (X4_missing_station_warning sample_fs sample_ui sample_table
                  eq_refl ltac:(discriminate))).
  exists "서울". split; [by left|].
  intros H. vm_compute in H.
  repeat (apply elem_of_cons in H as [H|H]; [discriminate H|]).
  by apply elem_of_nil in H.
Defined.

(** X5: when no selected station has a row in the table, as when the
    selection is empty, a run with start date not after end date stops at
    the filter with the no-data warning, whatever the two dates are. *)
Theorem X5_no_selected_station_in_table
    (fs : FileSystem) (ui : Widgets) (df : DataFrame) :
  loaded_table fs = Some df -> df <> [] ->
  date_le (start_date ui) (end_date ui) ->
  (forall st, st ∈ selected_stations ui -> st ∉ map station df) ->
  run fs ui =
  (Stop, mkState [df; []] (page_before_filter df ++ [Warning msg_no_data])).
Proof.
  intros Hload Hne Hd Hsel.
  apply run_no_rows; [done|done|by apply date_gtb_false|].
  rewrite filter_rows_filter.
  destruct (filter _ df) as [|r rest] eqn:E; [done|].
  assert (r ∈ filter (qualifies (selected_stations ui) (start_date ui)
                        (end_date ui)) df) as Hr by (rewrite E; by left).
  apply list_elem_of_filter in Hr as [[Hst _] Hr].
  exfalso. apply (Hsel _ Hst), elem_of_map_iff. by exists r.
Qed.

Lemma X5_no_selected_station_in_table_witness :
  run sample_fs (mkWidgets [] (mkDate 2023 1 1) (mkDate 2023 12 31)) =
  (Stop, mkState [sample_table; []]
           (page_before_filter sample_table ++ [Warning msg_no_data])).
Proof.
  apply (X5_no_selected_station_in_table sample_fs
           (mkWidgets [] (mkDate 2023 1 1) (mkDate 2023 12 31)) sample_table
           eq_refl ltac:(discriminate)).
  - cbv [date_le start_date end_date year month day]. lia.
  - intros st Hst. by apply elem_of_nil in Hst.
Defined.

(** * The earliest and the latest date of the table (lines 41 and 42) *)

Lemma ts_compare_cases (a b : Timestamp) :
  match ts_compare a b with
  | Lt => date_lt (ts_date a) (ts_date b) \/
          (date_le (ts_date a) (ts_date b) /\ date_le (ts_date b) (ts_date a) /\
           ts_nanos a < ts_nanos b)
  | Eq => date_le (ts_date a) (ts_date b) /\ date_le (ts_date b) (ts_date a) /\
          ts_nanos a = ts_nanos b
  | Gt => date_lt (ts_date b) (ts_date a) \/
          (date_le (ts_date a) (ts_date b) /\ date_le (ts_date b) (ts_date a) /\
           ts_nanos b < ts_nanos a)
  end.
Proof.
  unfold ts_compare. pose proof (date_compare_cases (ts_date a) (ts_date b)) as H.
  unfold date_lt, date_le in *.
  destruct (date_compare (ts_date a) (ts_date b)); [|lia|lia].
  destruct (Z.compare_spec (ts_nanos a) (ts_nanos b)); lia.
Qed.

Lemma ts_le_refl (a : Timestamp) : ts_le a a.
Proof.
  unfold ts_le. pose proof (ts_compare_cases a a) as H.
  unfold date_lt, date_le in *. destruct (ts_compare a a); [done|done|lia].
Qed.

Lemma ts_le_trans (a b c : Timestamp) : ts_le a b -> ts_le b c -> ts_le a c.
Proof.
  unfold ts_le.
  pose proof (ts_compare_cases a b) as Hab.
  pose proof (ts_compare_cases b c) as Hbc.
  pose proof (ts_compare_cases a c) as Hac.
  unfold date_lt, date_le in *.
  destruct (ts_compare a b), (ts_compare b c), (ts_compare a c);
    intros ? ?; try done; lia.
Qed.

Lemma ts_le_total (a b : Timestamp) : ts_compare a b = Gt -> ts_le b a.
Proof.
  unfold ts_le.
  pose proof (ts_compare_cases a b) as Hab.
  pose proof (ts_compare_cases b a) as Hba.
  unfold date_lt, date_le in *.
  destruct (ts_compare a b), (ts_compare b a); intros ?; try done; lia.
Qed.

Lemma ts_le_date (a b : Timestamp) :
  ts_le a b -> date_le (ts_date a) (ts_date b).
Proof.
  unfold ts_le. pose proof (ts_compare_cases a b) as H.
  unfold date_lt, date_le in *. destruct (ts_compare a b); intros ?; [lia|lia|done].
Qed.

Lemma ts_min_le (a b : Timestamp) : ts_le (ts_min a b) a /\ ts_le (ts_min a b) b.
Proof.
  unfold ts_min. destruct (ts_compare b a) eqn:E.
  - split; [apply ts_le_refl|].
    unfold ts_le. pose proof (ts_compare_cases a b) as Hab.
    pose proof (ts_compare_cases b a) as Hba. rewrite E in Hba.
    unfold date_lt, date_le in *. destruct (ts_compare a b); [done|done|lia].
  - split; [unfold ts_le; by rewrite E|apply ts_le_refl].
  - split; [apply ts_le_refl|]. unfold ts_le.
    pose proof (ts_compare_cases a b) as Hab.
    pose proof (ts_compare_cases b a) as Hba. rewrite E in Hba.
    unfold date_lt, date_le in *. destruct (ts_compare a b); [done|done|lia].
Qed.

Lemma ts_max_ge (a b : Timestamp) : ts_le a (ts_max a b) /\ ts_le b (ts_max a b).
Proof.
  unfold ts_max. destruct (ts_compare b a) eqn:E.
  - split; [apply ts_le_refl|]. unfold ts_le. by rewrite E.
  - split; [apply ts_le_refl|]. unfold ts_le. by rewrite E.
  - split; [by apply ts_le_total|apply ts_le_refl].
Qed.

Lemma ts_min_choice (a b : Timestamp) : ts_min a b = a \/ ts_min a b = b.
Proof. unfold ts_min. destruct (ts_compare b a); tauto. Qed.

Lemma ts_max_choice (a b : Timestamp) : ts_max a b = a \/ ts_max a b = b.
Proof. unfold ts_max. destruct (ts_compare b a); tauto. Qed.

Lemma fold_ts_min (rest : list Timestamp) (t : Timestamp) :
  let m := fold_left ts_min rest t in
  m ∈ t :: rest /\ forall x, x ∈ t :: rest -> ts_le m x.
Proof.
  revert t. induction rest as [|y rest IH]; intros t; simpl.
  - split; [by left|]. intros x ->%list_elem_of_singleton. apply ts_le_refl.
  - destruct (IH (ts_min t y)) as [Hin Hle]. split.
    + apply elem_of_cons in Hin as [->|Hin].
      * destruct (ts_min_choice t y) as [->| ->]; [by left|right; by left].
      * right. by right.
    + intros x Hx.
      assert (ts_le (fold_left ts_min rest (ts_min t y)) (ts_min t y)) as Hm
        by (apply Hle; by left).
      apply elem_of_cons in Hx as [->|Hx].
      * eapply ts_le_trans; [exact Hm|apply (proj1 (ts_min_le t y))].
      * apply elem_of_cons in Hx as [->|Hx].
        -- eapply ts_le_trans; [exact Hm|apply (proj2 (ts_min_le t y))].
        -- apply Hle. by right.
Qed.

Lemma fold_ts_max (rest : list Timestamp) (t : Timestamp) :
  let m := fold_left ts_max rest t in
  m ∈ t :: rest /\ forall x, x ∈ t :: rest -> ts_le x m.
Proof.
  revert t. induction rest as [|y rest IH]; intros t; simpl.
  - split; [by left|]. intros x ->%list_elem_of_singleton. apply ts_le_refl.
  - destruct (IH (ts_max t y)) as [Hin Hle]. split.
    + apply elem_of_cons in Hin as [->|Hin].
      * destruct (ts_max_choice t y) as [->| ->]; [by left|right; by left].
      * right. by right.
    + intros x Hx.
      assert (ts_le (ts_max t y) (fold_left ts_max rest (ts_max t y))) as Hm
        by (apply Hle; by left).
      apply elem_of_cons in Hx as [->|Hx].
      * eapply ts_le_trans; [apply (proj1 (ts_max_ge t y))|exact Hm].
      * apply elem_of_cons in Hx as [->|Hx].
        -- eapply ts_le_trans; [apply (proj2 (ts_max_ge t y))|exact Hm].
        -- apply Hle. by right.
Qed.

Lemma min_date_least (df : DataFrame) (d0 : date) :
  min_date df = Some d0 ->
  (exists r, r ∈ df /\ ts_date (period r) = d0) /\
  forall r, r ∈ df -> date_le d0 (ts_date (period r)).
Proof.
  unfold min_date, series_min. destruct df as [|r0 df]; [done|].
  cbn [map option_map]. intros [= <-].
  destruct (fold_ts_min (map period df) (period r0)) as [Hin Hle].
  change (period r0 :: map period df) with (map period (r0 :: df)) in Hin, Hle.
  split.
  - apply elem_of_map_iff in Hin as (r & E & Hr). exists r. by rewrite E.
  - intros r Hr. apply ts_le_date, Hle, elem_of_map_iff. by exists r.
Qed.

Lemma max_date_greatest (df : DataFrame) (d1 : date) :
  max_date df = Some d1 ->
  (exists r, r ∈ df /\ ts_date (period r) = d1) /\
  forall r, r ∈ df -> date_le (ts_date (period r)) d1.
Proof.
  unfold max_date, series_max. destruct df as [|r0 df]; [done|].
  cbn [map option_map]. intros [= <-].
  destruct (fold_ts_max (map period df) (period r0)) as [Hin Hle].
  change (period r0 :: map period df) with (map period (r0 :: df)) in Hin, Hle.
  split.
  - apply elem_of_map_iff in Hin as (r & E & Hr). exists r. by rewrite E.
  - intros r Hr. apply ts_le_date, Hle, elem_of_map_iff. by exists r.
Qed.

Lemma filter_all {A : Type} (P : A -> Prop) `{forall x, Decision (P x)}
    (l : list A) :
  (forall x, x ∈ l -> P x) -> filter P l = l.
Proof.
  induction l as [|x l IH]; intros Hall; [done|].
  rewrite filter_cons_True by (apply Hall; by left).
  f_equal. apply IH. intros y Hy. apply Hall. by right.
Qed.

(** X6: when the start date that the user picks is the earliest date of the
    table, the end date is its latest date and every station of the table
    is selected, then both dates are dates of rows of the table, every row
    lies between them, the date check passes, the filter keeps the whole
    table in its order, and the run completes and shows that table in
    section 6. *)
Theorem X6_widest_choice_keeps_table
    (fs : FileSystem) (ui : Widgets) (df : DataFrame) :
  loaded_table fs = Some df ->
  min_date df = Some (start_date ui) ->
  max_date df = Some (end_date ui) ->
  (forall st, st ∈ all_stations df -> st ∈ selected_stations ui) ->
  (exists r, r ∈ df /\ ts_date (period r) = start_date ui) /\
  (exists r, r ∈ df /\ ts_date (period r) = end_date ui) /\
  (forall r, r ∈ df ->
     date_le (start_date ui) (ts_date (period r)) /\
     date_le (ts_date (period r)) (end_date ui)) /\
  date_le (start_date ui) (end_date ui) /\
  filter_rows df (selected_stations ui) (start_date ui) (end_date ui) = df /\
  fst (run fs ui) = Done tt /\
  DataframeOf df ∈ page (snd (run fs ui)).
Proof.
  intros Hload Hmin Hmax Hsel.
  destruct (min_date_least df _ Hmin) as [[r0 [Hr0 E0]] Hlo].
  destruct (max_date_greatest df _ Hmax) as [Hex1 Hhi].
  assert (df <> []) as Hne by (intros ->; by apply elem_of_nil in Hr0).
  assert (date_le (start_date ui) (end_date ui)) as Hd.
  { specialize (Hhi r0 Hr0). rewrite E0 in Hhi. exact Hhi. }
  assert (filter_rows df (selected_stations ui) (start_date ui) (end_date ui)
          = df) as Hf.
  { rewrite filter_rows_filter. apply filter_all. intros r Hr.
    split; [|split; [by apply Hlo|by apply Hhi]].
    apply Hsel, elem_of_all_stations, elem_of_map_iff. by exists r. }
  split; [by exists r0|]. split; [exact Hex1|].
  split; [intros r Hr; split; [by apply Hlo|by apply Hhi]|].
  split; [exact Hd|]. split; [exact Hf|].
  rewrite (run_rendered fs ui df Hload Hne (date_gtb_false _ _ Hd))
    by (by rewrite Hf).
  rewrite Hf. split; [reflexivity|].
  cbn [snd page]. apply elem_of_app. right.
  unfold rendered. rewrite !elem_of_app. do 5 right. left.
  unfold page6. apply elem_of_cons. right. by left.
Qed.

Lemma X6_widest_choice_keeps_table_witness :
  let ui := mkWidgets ["A"; "B"; "C"] (mkDate 2022 12 1) (mkDate 2023 2 1) in
  filter_rows sample_table (selected_stations ui) (start_date ui) (end_date ui)
  = sample_table /\
  fst (run sample_fs ui) = Done tt.
Proof.
  intros ui.
  pose proof (X6_widest_choice_keeps_table sample_fs ui sample_table
                eq_refl eq_refl eq_refl (fun st Hst => Hst)) as H.
  split; [exact (proj1 (proj2 (proj2 (proj2 (proj2 H)))))|].
  exact (proj1 (proj2 (proj2 (proj2 (proj2 (proj2 H)))))).
Defined.

(** * The traces of section 1 (lines 63 to 76) *)

Lemma station_traces_rows (fdf : DataFrame) (st : string) :
  station_traces fdf st =
  let rows := filter (fun r => station r = st) fdf in
  [ mkScatter (map period rows) (map down_board rows) "lines"
              (st ++ " 하행 승차") "solid";
    mkScatter (map period rows) (map down_alight rows) "lines"
              (st ++ " 하행 하차") "solid";
    mkScatter (map period rows) (map up_board rows) "lines"
              (st ++ " 상행 승차") "dash";
    mkScatter (map period rows) (map up_alight rows) "lines"
              (st ++ " 상행 하차") "dash" ].
Proof. unfold station_traces. cbv zeta. by rewrite station_rows_filter. Qed.

Lemma filter_station_absent (fdf : DataFrame) (st : string) :
  st ∉ map station fdf -> filter (fun r => station r = st) fdf = [].
Proof.
  intros Hno.
  destruct (filter (fun r => station r = st) fdf) as [|r rest] eqn:E; [done|].
  assert (r ∈ filter (fun r => station r = st) fdf) as Hr
    by (rewrite E; by left).
  apply list_elem_of_filter in Hr as [Hst Hr].
  exfalso. apply Hno, elem_of_map_iff. by exists r.
Qed.

(** X7: the figure of section 1 holds four traces for every selected
    station, in the order of the selection, also for a selected station
    without a row in the filtered table, whose four traces are empty.  Every
    trace has one value per period, as many as the station has filtered
    rows. *)
Theorem X7_four_traces_per_selected_station
    (fdf : DataFrame) (sel : list string) :
  exists traces,
    fig_time fdf sel =
    go_Figure traces "선택된 역의 시간에 따른 승하차 인원 변화" "날짜" "인원 수" /\
    length traces = (4 * length sel)%nat /\
    map sc_name traces =
    flat_map (fun st : string =>
                [(st ++ " 하행 승차")%string; (st ++ " 하행 하차")%string;
                 (st ++ " 상행 승차")%string; (st ++ " 상행 하차")%string])
             sel /\
    (forall st tr, st ∈ sel -> tr ∈ station_traces fdf st ->
       tr ∈ traces /\
       length (sc_x tr) = length (filter (fun r => station r = st) fdf) /\
       length (sc_y tr) = length (sc_x tr)) /\
    (forall st tr, st ∉ map station fdf -> tr ∈ station_traces fdf st ->
       sc_x tr = [] /\ sc_y tr = []).
Proof.
  exists (flat_map (station_traces fdf) sel).
  split; [reflexivity|]. split.
  { rewrite (flat_map_constant_length (c := 4)); [lia|].
    intros st _. by rewrite station_traces_rows. }
  split.
  { induction sel as [|st sel IH]; [done|].
    cbn [flat_map]. rewrite map_app, IH. by rewrite station_traces_rows. }
  split.
  { intros st tr Hst Htr. split.
    - apply list_elem_of_In, in_flat_map. exists st.
      split; by apply list_elem_of_In.
    - rewrite station_traces_rows in Htr. cbv zeta in Htr.
      repeat (apply elem_of_cons in Htr as [->|Htr];
              [cbn [sc_x sc_y]; by rewrite !length_map|]).
      by apply elem_of_nil in Htr. }
  intros st tr Hno Htr.
  rewrite station_traces_rows, (filter_station_absent fdf st Hno) in Htr.
  cbv zeta in Htr.
  repeat (apply elem_of_cons in Htr as [->|Htr]; [done|]).
  by apply elem_of_nil in Htr.
Qed.

Lemma X7_four_traces_per_selected_station_witness :
  Forall (fun tr => sc_x tr = [] /\ sc_y tr = [])
         (station_traces
            (filter_rows sample_table ["A"; "B"; "C"]
               (mkDate 2023 1 1) (mkDate 2023 12 31)) "C").
Proof.
  pose proof (X7_four_traces_per_selected_station
                (filter_rows sample_table ["A"; "B"; "C"]
                   (mkDate 2023 1 1) (mkDate 2023 12 31))
                ["A"; "B"; "C"]) as (traces & _ & _ & _ & _ & Hempty).
  apply Forall_forall. intros tr. apply Hempty. intros H. vm_compute in H.
  repeat (apply elem_of_cons in H as [H|H]; [discriminate H|]).
  by apply elem_of_nil in H.
Defined.

(** * The means of section 2 (line 84) *)

Lemma filter_station_present (fdf : DataFrame) (k : string) :
  k ∈ map station fdf -> filter (fun r => station r = k) fdf <> [].
Proof.
  intros (r & E & Hr)%elem_of_map_iff Hnil.
  assert (r ∈ filter (fun r => station r = k) fdf) as Hin
    by (by apply list_elem_of_filter).
  rewrite Hnil in Hin. by apply elem_of_nil in Hin.
Qed.

Lemma mean_of_small_column (f : Row -> Z) (rows : DataFrame) :
  small_column f rows -> mean_of f rows = rounded_quotient f rows.
Proof. intros [Hf Hsum]. by apply mean_of_small. Qed.

(** X8: the bar chart of section 2 gets one entry per station of the
    filtered table, each station once and in ascending order of name; the
    group of an entry is never empty, and its four values are the [float64]
    means of the four counts over the filtered rows of the station, summed
    in the order of the table.  For a count that is never negative in the
    group and adds up to less than [2^53], the mean is the quotient of the
    sum by the number of rows, rounded once to [float64]. *)
Theorem X8_station_means (fdf : DataFrame) :
  map fst (avg_data fdf) = group_keys String.compare (map station fdf) /\
  StronglySorted (fun a b => String.compare a b = Lt) (map fst (avg_data fdf)) /\
  (forall st, st ∈ map fst (avg_data fdf) <-> st ∈ map station fdf) /\
  (forall k a b c d, (k, (a, b, c, d)) ∈ avg_data fdf ->
     let g := filter (fun r => station r = k) fdf in
     g <> [] /\
     a = group_mean (map down_board g) /\
     b = group_mean (map down_alight g) /\
     c = group_mean (map up_board g) /\
     d = group_mean (map up_alight g) /\
     (small_column down_board g -> a = rounded_quotient down_board g) /\
     (small_column down_alight g -> b = rounded_quotient down_alight g) /\
     (small_column up_board g -> c = rounded_quotient up_board g) /\
     (small_column up_alight g -> d = rounded_quotient up_alight g)) /\
  (forall l s, heap s !! l = Some fdf ->
     page (snd (section2 l s))
     = page s ++ [Header "2. 역별 평균 승하차 인원 비교";
                  PlotlyChart (px_bar (avg_data fdf) "역별 평균 승하차 인원")]).
Proof.
  assert (map fst (avg_data fdf) = group_keys String.compare (map station fdf))
    as Hkeys by apply groupby_station_keys.
  split; [exact Hkeys|].
  split; [rewrite Hkeys; apply station_keys_ascending|].
  split; [intros st; rewrite Hkeys; apply elem_of_group_keys|].
  split.
  - intros k a b c d He g.
    apply elem_of_groupby_station in He as [Hk [= -> -> -> ->]].
    pose proof (filter_station_present fdf k Hk) as Hne.
    split; [exact Hne|]. do 4 (split; [reflexivity|]).
    repeat split; apply mean_of_small_column.
  - intros l s Hl. by rewrite (section2_run l s fdf Hl).
Qed.

Lemma X8_station_means_witness :
  small_column down_board sevenths_table /\
  Zsum (map down_board sevenths_table) = 29 /\
  length sevenths_table = 7%nat /\
  rounded_quotient down_board sevenths_table
  = S754_finite false 4664442471205157 (-50) /\
  exists b c d,
    avg_data sevenths_table
    = [("A", (rounded_quotient down_board sevenths_table, b, c, d))].
Proof.
  assert (small_column down_board sevenths_table) as Hsmall.
  { split; [|by vm_compute].
    unfold sevenths_table. cbn [map].
    repeat apply List.Forall_cons; try apply List.Forall_nil;
      cbn [down_board]; lia. }
  split; [exact Hsmall|]. split; [reflexivity|]. split; [reflexivity|].
  split; [by vm_compute|].
  exists (mean_of down_alight sevenths_table),
         (mean_of up_board sevenths_table),
         (mean_of up_alight sevenths_table).
  assert (("A", (mean_of down_board sevenths_table,
                 mean_of down_alight sevenths_table,
                 mean_of up_board sevenths_table,
                 mean_of up_alight sevenths_table))
          ∈ avg_data sevenths_table) as Hin by (by left).
  pose proof (proj1 (proj2 (proj2 (proj2 (proj2 (proj2
                (proj1 (proj2 (proj2 (proj2 (X8_station_means sevenths_table))))
                   "A" _ _ _ _ Hin)))))) Hsmall) as Ha.
  change (avg_data sevenths_table)
    with [("A", (mean_of down_board sevenths_table,
                 mean_of down_alight sevenths_table,
                 mean_of up_board sevenths_table,
                 mean_of up_alight sevenths_table))].
  by rewrite Ha.
Defined.

(** * The tables of section 7 (lines 114 to 124) *)

Lemma nearest_even_unique (s n r r' : Z) :
  0 < n -> nearest_even s n r -> nearest_even s n r' -> r = r'.
Proof.
  unfold nearest_even. intros Hn [H1 E1] [H2 E2].
  assert (r' = r \/ r' = r + 1 \/ r = r' + 1) as [E | [E | E]] by nia;
    subst; [done| |].
  - assert (Z.even r = true) as Hr by (apply E1; nia).
    assert (Z.even (r + 1) = true) as Hr' by (apply E2; nia).
    apply Z.even_spec in Hr as [k Hk], Hr' as [k' Hk']. lia.
  - assert (Z.even r' = true) as Hr by (apply E2; nia).
    assert (Z.even (r' + 1) = true) as Hr' by (apply E1; nia).
    apply Z.even_spec in Hr as [k Hk], Hr' as [k' Hk']. lia.
Qed.

Lemma nearest_even_opp (s n r : Z) :
  nearest_even s n r -> nearest_even (- s) n (- r).
Proof.
  unfold nearest_even. intros [H E].
  replace (2 * - s - 2 * - r * n) with (- (2 * s - 2 * r * n)) by lia.
  rewrite Z.abs_opp, Z.even_opp. done.
Qed.

Lemma half_even_nearest (m : Z) (p : positive) :
  let q := m / 2 ^ Z.pos p in
  let r := m mod 2 ^ Z.pos p in
  nearest_even m (2 ^ Z.pos p)
    match 2 * r ?= 2 ^ Z.pos p with
    | Lt => q
    | Gt => q + 1
    | Eq => if Z.even q then q else q + 1
    end.
Proof.
  intros q r.
  assert (0 < 2 ^ Z.pos p) as Hn by (apply Z.pow_pos_nonneg; lia).
  pose proof (Z.div_mod m (2 ^ Z.pos p) ltac:(lia)) as Hdm.
  pose proof (Z.mod_pos_bound m (2 ^ Z.pos p) Hn) as Hb.
  fold q in Hdm. fold r in Hdm, Hb.
  set (n := 2 ^ Z.pos p) in *. unfold nearest_even.
  destruct (Z.compare_spec (2 * r) n) as [E|E|E].
  - destruct (Z.even q) eqn:Hq.
    + split; [nia|]. done.
    + split; [nia|]. intros _.
      rewrite Z.even_add, Hq. reflexivity.
  - split; [nia|]. intros Habs. exfalso. nia.
  - split; [nia|]. intros Habs. exfalso. nia.
Qed.

Lemma rint_nearest (x : spec_float) (v : Z) :
  Float64.rint x = Some v -> nearest_integer x v.
Proof.
  destruct x as [s| | |s m e]; try done.
  - by intros [= <-].
  - unfold Float64.rint, nearest_integer. intros [= <-].
    destruct e as [|e|p]; cbn [Z.ltb Z.compare].
    + destruct s; cbn [cond_Zopp]; lia.
    + destruct s; cbn [cond_Zopp]; lia.
    + change (- Z.neg p) with (Z.pos p).
      pose proof (half_even_nearest (Z.pos m) p) as H. cbv zeta in H.
      destruct s; cbn [cond_Zopp]; [|exact H].
      by apply nearest_even_opp in H.
Qed.

Lemma nearest_integer_unique (x : spec_float) (v v' : Z) :
  nearest_integer x v -> nearest_integer x v' -> v = v'.
Proof.
  destruct x as [s| | |s m e]; try done.
  - by intros -> ->.
  - unfold nearest_integer. destruct (e <? 0) eqn:He.
    + apply nearest_even_unique. apply Z.pow_pos_nonneg; lia.
    + by intros -> ->.
Qed.

Lemma round_half_even_nearest (x : spec_float) (v : Z) :
  nearest_integer x v ->
  -9223372036854775808 <= v < 9223372036854775808 ->
  round_half_even x = v.
Proof.
  intros Hv Hr. unfold round_half_even.
  destruct (Float64.rint x) as [z|] eqn:E.
  - apply rint_nearest in E.
    rewrite (nearest_integer_unique x z v E Hv).
    by rewrite decide_True by (by apply wrap_fits).
  - destruct x; done.
Qed.

(** X9: the second table of section 7 has one row per station of the
    filtered table, ascending by name.  Each of its four values comes from
    the [float64] mean of that count over the filtered rows of the station:
    it is the integer nearest to that mean, the even one when the mean lies
    halfway between two integers, whenever this integer is an [int64].
    For a count that is never negative in the group and adds up to less
    than [2^53], the mean that is rounded is the quotient of the sum by the
    number of rows, itself rounded to [float64] first. *)
Theorem X9_monthly_avg_rounds_to_nearest (fdf : DataFrame) :
  map fst (monthly_avg fdf) = group_keys String.compare (map station fdf) /\
  (forall k a b c d, (k, (a, b, c, d)) ∈ monthly_avg fdf ->
     let g := filter (fun r => station r = k) fdf in
     let near (f : Row -> Z) (x : Z) :=
       (forall v, nearest_integer (group_mean (map f g)) v ->
                  -9223372036854775808 <= v < 9223372036854775808 -> x = v) /\
       (small_column f g -> x = round_half_even (rounded_quotient f g)) in
     g <> [] /\
     near down_board a /\ near down_alight b /\
     near up_board c /\ near up_alight d).
Proof.
  split; [apply groupby_station_keys|].
  intros k a b c d He g near.
  apply elem_of_groupby_station in He as [Hk [= -> -> -> ->]].
  pose proof (filter_station_present fdf k Hk) as Hne.
  split; [exact Hne|].
  assert (forall f, near f (round_half_even (mean_of f g))) as Hnear.
  { intros f. split.
    - intros v Hv Hr. by apply round_half_even_nearest.
    - intros Hs. by rewrite (mean_of_small_column f g Hs). }
  by repeat split; apply Hnear.
Qed.

Lemma X9_monthly_avg_rounds_to_nearest_witness :
  monthly_avg thirds_table = [("A", (2251799813685250, 0, 1, 0))] /\
  small_column down_board thirds_table /\
  Zsum (map down_board thirds_table) = 3 * 2251799813685249 + 1 /\
  rounded_quotient down_board thirds_table
  = S754_finite false 4503599627370499 (-1) /\
  2251799813685250 = round_half_even (rounded_quotient down_board thirds_table) /\
  nearest_integer (S754_finite false 4503599627370499 (-1)) 2251799813685250 /\
  nearest_integer (group_mean (map up_board thirds_table)) 1.
Proof.
  assert (("A", (2251799813685250, 0, 1, 0)) ∈ monthly_avg thirds_table)
    as Hin by (by left).
  pose proof (proj2 (X9_monthly_avg_rounds_to_nearest thirds_table)
                "A" _ _ _ _ Hin) as [_ [Ha [_ [Hc _]]]].
  assert (small_column down_board thirds_table) as Hsmall.
  { split; [|by vm_compute].
    repeat apply List.Forall_cons; try apply List.Forall_nil;
      cbn [down_board]; lia. }
  split; [reflexivity|]. split; [exact Hsmall|]. split; [reflexivity|].
  split; [by vm_compute|].
  split; [exact (proj2 Ha Hsmall)|].
  split.
  - apply rint_nearest. by vm_compute.
  - apply rint_nearest. by vm_compute.
Defined.

(** * Grouping by station keeps every row once *)

Lemma Zsum_add {A : Type} (a b : A -> Z) (l : list A) :
  Zsum (map (fun k => a k + b k) l) = Zsum (map a l) + Zsum (map b l).
Proof. unfold Zsum. induction l as [|x l IH]; simpl; lia. Qed.

Lemma Zsum_indicator (s : string) (c : Z) (ks : list string) :
  NoDup ks ->
  Zsum (map (fun k => if decide (s = k) then c else 0) ks)
  = if decide (s ∈ ks) then c else 0.
Proof.
  unfold Zsum. induction 1 as [|k ks Hk Hks IH]; simpl.
  - destruct (decide (s ∈ [])) as [H|H]; [by apply elem_of_nil in H|done].
  - rewrite IH. destruct (decide (s = k)) as [->|Hne].
    + destruct (decide (k ∈ ks)); [done|].
      destruct (decide (k ∈ k :: ks)) as [H|H]; [lia|].
      exfalso. apply H. by left.
    + destruct (decide (s ∈ ks)) as [H|H];
        destruct (decide (s ∈ k :: ks)) as [H'|H']; try lia.
      * exfalso. apply H'. by right.
      * apply elem_of_cons in H' as [->|H']; done.
Qed.

Lemma Zsum_over_groups (f : Row -> Z) (ks : list string) (fdf : DataFrame) :
  NoDup ks -> (forall r, r ∈ fdf -> station r ∈ ks) ->
  Zsum (map (fun k => Zsum (map f (filter (fun r => station r = k) fdf))) ks)
  = Zsum (map f fdf).
Proof.
  intros Hnd. induction fdf as [|r fdf IH]; intros Hin.
  - unfold Zsum. clear. induction ks as [|k ks IHk]; simpl in *; lia.
  - transitivity
      (Zsum (map (fun k => (if decide (station r = k) then f r else 0)
                           + Zsum (map f (filter (fun r => station r = k) fdf)))
                 ks)).
    { f_equal. apply map_ext. intros k. rewrite filter_cons.
      destruct (decide (station r = k)); reflexivity. }
    rewrite Zsum_add, Zsum_indicator by done.
    rewrite IH by (intros r' Hr'; apply Hin; by right).
    destruct (decide (station r ∈ ks)) as [H|H]; [reflexivity|].
    exfalso. apply H, Hin. by left.
Qed.

Lemma Zsum_over_station_groups (f : Row -> Z) (fdf : DataFrame) :
  Zsum (map (fun k => Zsum (map f (filter (fun r => station r = k) fdf)))
            (group_keys String.compare (map station fdf)))
  = Zsum (map f fdf).
Proof.
  apply Zsum_over_groups; [apply NoDup_group_keys|].
  intros r Hr. apply elem_of_group_keys, elem_of_map_iff. by exists r.
Qed.

Lemma Forall_filter {A : Type} (Q P : A -> Prop)
    `{forall x, Decision (P x)} (l : list A) :
  Forall Q l -> Forall Q (filter P l).
Proof.
  intros HQ. apply Forall_forall. intros x Hx.
  apply list_elem_of_filter in Hx as [_ Hx].
  by apply (proj1 (Forall_forall _ _) HQ).
Qed.

Lemma Zsum_filter_bounds (f : Row -> Z) (P : Row -> Prop)
    `{forall r, Decision (P r)} (rows : DataFrame) :
  Forall (fun r => 0 <= f r) rows ->
  0 <= Zsum (map f (filter P rows)) <= Zsum (map f rows).
Proof.
  unfold Zsum. induction 1 as [|r rows Hr Hrows IH]; [simpl; lia|].
  rewrite filter_cons. destruct (decide (P r)); simpl; lia.
Qed.

Lemma Zsum_int64_congruent {A : Type} (z v : A -> Z) (ks : list A) :
  (forall a, a ∈ ks -> int64_of (z a) (v a)) ->
  exists k, Zsum (map v ks) = Zsum (map z ks) + k * 18446744073709551616.
Proof.
  unfold Zsum. induction ks as [|a ks IH]; intros Hv; simpl.
  - exists 0. lia.
  - destruct IH as [k Hk]; [intros a' Ha'; apply Hv; by right|].
    destruct (Hv a) as [_ [k' Hk']]; [by left|].
    exists (k + k'). lia.
Qed.

Lemma Zsum_int64_exact {A : Type} (z v : A -> Z) (ks : list A) :
  (forall a, a ∈ ks -> int64_of (z a) (v a)) ->
  (forall a, a ∈ ks ->
     -9223372036854775808 <= z a < 9223372036854775808) ->
  Zsum (map v ks) = Zsum (map z ks).
Proof.
  intros Hv Hz. f_equal. apply map_ext_in. intros a Ha%list_elem_of_In.
  apply (int64_of_unique (z a)); [by apply Hv|].
  split; [by apply Hz|]. exists 0. lia.
Qed.

Lemma total_passengers_rows (fdf : DataFrame) :
  total_passengers fdf
  = map (fun k => let g := filter (fun r => station r = k) fdf in
                  (k, (sum_of down_board g, sum_of down_alight g,
                       sum_of up_board g, sum_of up_alight g)))
        (group_keys String.compare (map station fdf)).
Proof.
  unfold total_passengers, groupby_station.
  apply map_ext. intros k. by rewrite group_filter.
Qed.

Lemma station_sums_congruent (f : Row -> Z) (fdf : DataFrame) :
  exists k,
    Zsum (map (fun key => sum_of f (filter (fun r => station r = key) fdf))
              (group_keys String.compare (map station fdf)))
    = Zsum (map f fdf) + k * 18446744073709551616.
Proof.
  rewrite <- (Zsum_over_station_groups f fdf).
  apply Zsum_int64_congruent. intros key _. by apply sum_of_int64.
Qed.

Lemma station_sums_exact (f : Row -> Z) (fdf : DataFrame) :
  Forall (fun r => 0 <= f r) fdf ->
  Zsum (map f fdf) < 9223372036854775808 ->
  Zsum (map (fun key => sum_of f (filter (fun r => station r = key) fdf))
            (group_keys String.compare (map station fdf)))
  = Zsum (map f fdf).
Proof.
  intros Hf Hsum. rewrite <- (Zsum_over_station_groups f fdf).
  apply Zsum_int64_exact.
  - intros key _. by apply sum_of_int64.
  - intros key _.
    pose proof (Zsum_filter_bounds f (fun r => station r = key) fdf Hf). lia.
Qed.

Lemma record_counts_columns (fdf : DataFrame) :
  Forall record_counts fdf ->
  Forall (fun r => 0 <= down_board r) fdf /\
  Forall (fun r => 0 <= down_alight r) fdf /\
  Forall (fun r => 0 <= up_board r) fdf /\
  Forall (fun r => 0 <= up_alight r) fdf.
Proof.
  intros Hc. repeat split; apply Forall_forall; intros r Hr;
    apply (proj1 (Forall_forall _ _) Hc) in Hr;
    unfold record_counts in Hr; lia.
Qed.

(** X10: grouping by station loses no row and counts none twice.  Over
    the stations of the pie chart of section 3 the down totals, the up totals
    and the totals add up to the down boardings, the up boardings and their
    sum over all filtered rows, and each of the four columns of the first
    table of section 7 adds up to that count over all filtered rows: up to
    a multiple of [2^64] in general, the sums being [int64], and exactly
    when no count of the table is negative and the count adds up to less
    than [2^63] over the table. *)
Theorem X10_station_totals_add_up (fdf : DataFrame) :
  let total (f : Row -> Z) := Zsum (map f fdf) in
  let congruent (a b : Z) := exists k, a = b + k * 18446744073709551616 in
  let pie := total_data fdf in
  let table := total_passengers fdf in
  let column (p : Z * Z * Z * Z -> Z) := Zsum (map (fun e => p (snd e)) table) in
  (congruent (Zsum (map tot_down pie)) (total down_board) /\
   congruent (Zsum (map tot_up pie)) (total up_board) /\
   congruent (Zsum (map tot_total pie))
             (total down_board + total up_board) /\
   congruent (column (fun v => fst (fst (fst v)))) (total down_board) /\
   congruent (column (fun v => snd (fst (fst v)))) (total down_alight) /\
   congruent (column (fun v => snd (fst v))) (total up_board) /\
   congruent (column (fun v => snd v)) (total up_alight)) /\
  (Forall record_counts fdf ->
   (total down_board < 9223372036854775808 ->
    Zsum (map tot_down pie) = total down_board /\
    column (fun v => fst (fst (fst v))) = total down_board) /\
   (total up_board < 9223372036854775808 ->
    Zsum (map tot_up pie) = total up_board /\
    column (fun v => snd (fst v)) = total up_board) /\
   (total down_board + total up_board < 9223372036854775808 ->
    Zsum (map tot_total pie) = total down_board + total up_board) /\
   (total down_alight < 9223372036854775808 ->
    column (fun v => snd (fst (fst v))) = total down_alight) /\
   (total up_alight < 9223372036854775808 ->
    column (fun v => snd v) = total up_alight)).
Proof.
  intros total congruent pie table column.
  unfold column, pie, table, total.
  rewrite total_data_rows, total_passengers_rows, !map_map.
  cbn [tot_down tot_up tot_total fst snd].
  split.
  - split; [apply station_sums_congruent|].
    split; [apply station_sums_congruent|].
    split; [|by repeat split; apply station_sums_congruent].
    rewrite <- (Zsum_over_station_groups down_board fdf),
            <- (Zsum_over_station_groups up_board fdf), <- Zsum_add.
    apply Zsum_int64_congruent. intros key _.
    apply add_int64; by apply sum_of_int64.
  - intros Hc.
    destruct (record_counts_columns fdf Hc) as (Hd & Hda & Hu & Hua).
    split; [intros Hs; split; by apply station_sums_exact|].
    split; [intros Hs; split; by apply station_sums_exact|].
    split; [|split; intros Hs; by apply station_sums_exact].
    intros Hs.
    rewrite <- (Zsum_over_station_groups down_board fdf),
            <- (Zsum_over_station_groups up_board fdf), <- Zsum_add.
    apply Zsum_int64_exact.
    + intros key _. apply add_int64; by apply sum_of_int64.
    + intros key _.
      pose proof (Zsum_filter_bounds down_board
                    (fun r => station r = key) fdf Hd).
      pose proof (Zsum_filter_bounds up_board
                    (fun r => station r = key) fdf Hu).
      lia.
Qed.

Lemma X10_station_totals_add_up_witness :
  Forall record_counts sample_table /\
  Zsum (map down_board sample_table) = 61 /\
  Zsum (map up_board sample_table) = 11 /\
  Zsum (map tot_down (total_data sample_table)) = 61 /\
  Zsum (map tot_total (total_data sample_table)) = 61 + 11 /\
  map tot_total (total_data sample_table) = [53; 17; 2].
Proof.
  assert (Forall record_counts sample_table) as Hc.
  { repeat apply List.Forall_cons; try apply List.Forall_nil;
      cbv [record_counts down_board down_alight up_board up_alight]; lia. }
  destruct (proj2 (X10_station_totals_add_up sample_table) Hc)
    as (Hd & _ & Ht & _).
  split; [exact Hc|]. split; [reflexivity|]. split; [reflexivity|].
  split; [exact (proj1 (Hd eq_refl))|].
  split; [exact (Ht eq_refl)|reflexivity].
Defined.

(** * The aggregates do not depend on the order of the rows *)

Lemma Zsum_perm (l l' : list Z) : l ≡ₚ l' -> Zsum l = Zsum l'.
Proof.
  unfold Zsum. induction 1 as [|x l l' Hp IH|x y l|l l' l'' _ IH1 _ IH2];
    simpl; lia.
Qed.

Lemma sum_of_perm (f : Row -> Z) (g g' : DataFrame) :
  g ≡ₚ g' -> sum_of f g = sum_of f g'.
Proof.
  intros Hp. rewrite !sum_of_wrap. f_equal. apply Zsum_perm.
  by apply Permutation_map.
Qed.

Lemma rounded_quotient_perm (f : Row -> Z) (g g' : DataFrame) :
  g ≡ₚ g' -> rounded_quotient f g = rounded_quotient f g'.
Proof.
  intros Hp. unfold rounded_quotient.
  rewrite (Zsum_perm (map f g) (map f g')) by (by apply Permutation_map).
  by rewrite (Permutation_length Hp).
Qed.

Lemma small_column_perm (f : Row -> Z) (g g' : DataFrame) :
  g ≡ₚ g' -> small_column f g -> small_column f g'.
Proof.
  intros Hp [Hf Hs]. split; [by rewrite <- Hp|].
  by rewrite <- (Zsum_perm (map f g) (map f g')) by (by apply Permutation_map).
Qed.

Lemma small_column_filter (f : Row -> Z) (P : Row -> Prop)
    `{forall r, Decision (P r)} (rows : DataFrame) :
  small_column f rows -> small_column f (filter P rows).
Proof.
  intros [Hf Hs]. split; [by apply Forall_filter|].
  pose proof (Zsum_filter_bounds f P rows Hf). lia.
Qed.

Lemma station_keys_perm (fdf fdf' : DataFrame) :
  fdf ≡ₚ fdf' ->
  group_keys String.compare (map station fdf)
  = group_keys String.compare (map station fdf').
Proof.
  intros Hp. apply station_keys_same_elements. intros x.
  rewrite !elem_of_map_iff. split; intros (r & E & Hr); exists r.
  - by rewrite <- Hp.
  - by rewrite Hp.
Qed.

Lemma groupby_station_perm {B : Type} (agg : DataFrame -> B)
    (fdf fdf' : DataFrame) :
  (forall k, agg (filter (fun r => station r = k) fdf)
             = agg (filter (fun r => station r = k) fdf')) ->
  fdf ≡ₚ fdf' -> groupby_station agg fdf = groupby_station agg fdf'.
Proof.
  intros Hagg Hp. unfold groupby_station.
  rewrite (station_keys_perm fdf fdf' Hp). apply map_ext. intros k.
  f_equal. rewrite !group_filter. apply Hagg.
Qed.

Lemma mean_of_small_perm (f : Row -> Z) (fdf fdf' : DataFrame) (k : string) :
  fdf ≡ₚ fdf' -> small_column f fdf ->
  mean_of f (filter (fun r => station r = k) fdf)
  = mean_of f (filter (fun r => station r = k) fdf').
Proof.
  intros Hp Hs.
  assert (filter (fun r => station r = k) fdf
          ≡ₚ filter (fun r => station r = k) fdf') as Hg by (by rewrite Hp).
  pose proof (small_column_filter f (fun r => station r = k) fdf Hs) as Hsg.
  rewrite (mean_of_small_column f _ Hsg).
  rewrite (mean_of_small_column f _ (small_column_perm f _ _ Hg Hsg)).
  by apply rounded_quotient_perm.
Qed.

(** X11: the per-station sums depend on the rows of the filtered table,
    not on their order: for two tables with the same rows in any order, the
    totals of section 3, the first table of section 7 and the ranking of the
    five largest stations of section 9 are equal.  The means of section 2
    and the second table of section 7, which are sums of [float64], are
    equal too when none of the four counts is negative in the table and
    each adds up to less than [2^53] over it. *)
Theorem X11_station_aggregates_ignore_row_order (fdf fdf' : DataFrame) :
  fdf ≡ₚ fdf' ->
  total_data fdf = total_data fdf' /\
  total_passengers fdf = total_passengers fdf' /\
  top_5_stations fdf = top_5_stations fdf' /\
  (small_column down_board fdf -> small_column down_alight fdf ->
   small_column up_board fdf -> small_column up_alight fdf ->
   avg_data fdf = avg_data fdf' /\ monthly_avg fdf = monthly_avg fdf').
Proof.
  intros Hp.
  assert (forall f k, sum_of f (filter (fun r => station r = k) fdf)
                      = sum_of f (filter (fun r => station r = k) fdf'))
    as Hsum by (intros f k; apply sum_of_perm; by rewrite Hp).
  split; [|split; [|split]].
  - unfold total_data. f_equal. apply groupby_station_perm; [|done].
    intros k. by rewrite !Hsum.
  - apply groupby_station_perm; [|done]. intros k. by rewrite !Hsum.
  - unfold top_5_stations. do 2 f_equal.
    apply groupby_station_perm; [|done]. intros k. apply Hsum.
  - intros Hd Hda Hu Hua.
    split; (apply groupby_station_perm; [|done]); intros k;
      by rewrite (mean_of_small_perm down_board fdf fdf' k Hp Hd),
                 (mean_of_small_perm down_alight fdf fdf' k Hp Hda),
                 (mean_of_small_perm up_board fdf fdf' k Hp Hu),
                 (mean_of_small_perm up_alight fdf fdf' k Hp Hua).
Qed.

Lemma X11_station_aggregates_ignore_row_order_witness :
  ranked_table ≡ₚ rev ranked_table /\
  total_data ranked_table = total_data (rev ranked_table) /\
  top_5_stations (rev ranked_table) = ["D"; "B"; "C"; "A"] /\
  small_column down_board thirds_table /\
  avg_data thirds_table = avg_data (rev thirds_table).
Proof.
  pose proof (X11_station_aggregates_ignore_row_order ranked_table
                (rev ranked_table) (Permutation_rev ranked_table)) as H.
  pose proof (X11_station_aggregates_ignore_row_order thirds_table
                (rev thirds_table) (Permutation_rev thirds_table)) as H'.
  assert (forall f, Forall (fun r => 0 <= f r) thirds_table ->
                    Zsum (map f thirds_table) < 9007199254740992 ->
                    small_column f thirds_table) as Hsmall
    by (intros f Hf Hs; by split).
  assert (small_column down_board thirds_table) as Hd.
  { apply Hsmall; [|by vm_compute].
    repeat apply List.Forall_cons; try apply List.Forall_nil;
      cbn [down_board]; lia. }
  split; [apply Permutation_rev|].
  split; [exact (proj1 H)|].
  split; [rewrite <- (proj1 (proj2 (proj2 H))); reflexivity|].
  split; [exact Hd|].
  apply (proj2 (proj2 (proj2 H'))); [exact Hd| | |];
    (apply Hsmall; [|by vm_compute]);
    repeat apply List.Forall_cons; try apply List.Forall_nil;
      cbn [down_alight up_board up_alight]; lia.
Defined.

(** * The heat map as a function of the rows *)

Lemma heat_lookup (fdf : DataFrame) (m st : string) :
  lookup2 (m, st)
    (groupby2_mean (col_str (heatmap_frame fdf) "월")
                   (map station (heatmap_frame fdf))
                   (col_int (heatmap_frame fdf) "총_승차인원수"))
  = if decide ((m, st) ∈ map heat_key fdf)
    then Some (mean_of boardings (heat_rows fdf m st)) else None.
Proof.
  rewrite heat_series, lookup2_keyed. cbn [fst snd].
  destruct (decide ((m, st) ∈ group_keys pair_compare (map heat_key fdf)))
    as [H|H];
    destruct (decide ((m, st) ∈ map heat_key fdf)) as [H'|H']; try done.
  - by apply elem_of_group_keys in H.
  - by apply (elem_of_group_keys pair_compare) in H'.
Qed.

Lemma heatmap_pivot_cells (fdf : DataFrame) :
  heatmap_pivot (heatmap_frame fdf)
  = mkPivot (month_axis fdf) (station_axis fdf)
      (map (fun m =>
              map (fun st =>
                     if decide ((m, st) ∈ map heat_key fdf)
                     then Some (mean_of boardings (heat_rows fdf m st))
                     else None)
                  (station_axis fdf))
           (month_axis fdf)).
Proof.
  unfold month_axis, station_axis, heatmap_pivot, unstack. cbv zeta.
  cbn [index columns]. f_equal.
  apply map_ext. intros m. apply map_ext. intros st. apply heat_lookup.
Qed.

Lemma heat_axes_perm (fdf fdf' : DataFrame) :
  fdf ≡ₚ fdf' ->
  month_axis fdf = month_axis fdf' /\ station_axis fdf = station_axis fdf'.
Proof.
  intros Hp. split.
  - rewrite !month_axis_keys. apply station_keys_same_elements. intros x.
    by rewrite Hp.
  - rewrite !station_axis_keys. by apply station_keys_perm.
Qed.

(** X12: the shape of the heat map of section 4 depends on the rows of
    the filtered table, not on their order: two tables with the same rows in
    any order give the same months, the same stations and the same cells
    without a value.  The values of the cells, which are sums of [float64],
    are equal too when no count of the table is negative and down plus up
    boardings add up to less than [2^53] over it. *)
Theorem X12_heat_map_ignores_row_order (fdf fdf' : DataFrame) :
  fdf ≡ₚ fdf' ->
  let pv := heatmap_pivot (heatmap_frame fdf) in
  let pv' := heatmap_pivot (heatmap_frame fdf') in
  index pv = index pv' /\
  columns pv = columns pv' /\
  map (map is_missing) (cells pv) = map (map is_missing) (cells pv') /\
  (Forall record_counts fdf ->
   Zsum (map (fun r => down_board r + up_board r) fdf) < 9007199254740992 ->
   pv = pv').
Proof.
  intros Hp pv pv'. unfold pv, pv'. rewrite !heatmap_pivot_cells.
  destruct (heat_axes_perm fdf fdf' Hp) as [<- <-].
  cbn [index columns cells].
  assert (forall m st, (m, st) ∈ map heat_key fdf
                       <-> (m, st) ∈ map heat_key fdf') as Hkeys
    by (intros m st; by rewrite Hp).
  split; [done|]. split; [done|]. split.
  - rewrite !map_map. apply map_ext. intros m.
    rewrite !map_map. apply map_ext. intros st.
    destruct (decide ((m, st) ∈ map heat_key fdf)) as [H|H];
      destruct (decide ((m, st) ∈ map heat_key fdf')) as [H'|H']; try done.
    + exfalso. by apply H', Hkeys.
    + exfalso. by apply H, Hkeys.
  - intros Hc Hs. f_equal. apply map_ext. intros m. apply map_ext. intros st.
    destruct (decide ((m, st) ∈ map heat_key fdf)) as [H|H];
      destruct (decide ((m, st) ∈ map heat_key fdf')) as [H'|H']; try done.
    + f_equal.
      assert (heat_rows fdf m st ≡ₚ heat_rows fdf' m st) as Hrows
        by (unfold heat_rows; by rewrite Hp).
      assert (Forall record_counts (heat_rows fdf m st)) as Hcg
        by (by apply Forall_filter).
      assert (Zsum (map (fun r => down_board r + up_board r)
                        (heat_rows fdf m st)) < 9007199254740992) as Hsg.
      { pose proof (Zsum_filter_bounds (fun r => down_board r + up_board r)
                      (fun r => heat_key r = (m, st)) fdf) as Hb.
        unfold heat_rows. apply Z.le_lt_trans with (2 := Hs), Hb.
        apply Forall_forall. intros r Hr.
        apply (proj1 (Forall_forall _ _) Hc) in Hr.
        unfold record_counts in Hr. lia. }
      rewrite (mean_of_boardings_small _ Hcg Hsg).
      rewrite (mean_of_boardings_small (heat_rows fdf' m st)).
      * rewrite (Zsum_perm _ _ (Permutation_map _ Hrows)).
        by rewrite (Permutation_length Hrows).
      * by rewrite <- Hrows.
      * by rewrite <- (Zsum_perm _ _ (Permutation_map _ Hrows)).
    + exfalso. by apply H', Hkeys.
    + exfalso. by apply H, Hkeys.
Qed.

Lemma X12_heat_map_ignores_row_order_witness :
  repeated_table ≡ₚ rev repeated_table /\
  Forall record_counts repeated_table /\
  columns (heatmap_pivot (heatmap_frame (rev repeated_table))) = ["A"] /\
  heatmap_pivot (heatmap_frame repeated_table)
  = heatmap_pivot (heatmap_frame (rev repeated_table)).
Proof.
  pose proof (X12_heat_map_ignores_row_order repeated_table
                (rev repeated_table) (Permutation_rev repeated_table)) as H.
  cbv zeta in H.
  assert (Forall record_counts repeated_table) as Hc.
  { repeat apply List.Forall_cons; try apply List.Forall_nil;
      cbv [record_counts down_board down_alight up_board up_alight]; lia. }
  split; [apply Permutation_rev|]. split; [exact Hc|].
  split; [rewrite <- (proj1 (proj2 H)); reflexivity|].
  apply (proj2 (proj2 (proj2 H))); [exact Hc|reflexivity].
Defined.

(** * Section 9 with few stations, and after section 8 *)

Lemma nlargest_all (n : nat) (s : list (string * Z)) :
  (length s <= n)%nat -> nlargest n s ≡ₚ s.
Proof.
  intros Hn. unfold nlargest.
  rewrite firstn_all2 by (by rewrite (Permutation_length (sorted_perm cmp_desc s))).
  apply sorted_perm.
Qed.

(** X13: when the filtered table has at most five different stations,
    the ranking of section 9 holds every one of them and the line chart gets
    the whole filtered table, in its order. *)
Theorem X13_at_most_five_stations (fdf : DataFrame) :
  (length (remove_dups (map station fdf)) <= 5)%nat ->
  (forall st, st ∈ top_5_stations fdf <-> st ∈ map station fdf) /\
  length (top_5_stations fdf) = length (remove_dups (map station fdf)) /\
  top_5_data fdf = fdf.
Proof.
  intros Hn.
  assert (length (groupby_station (sum_of down_board) fdf)
          = length (remove_dups (map station fdf))) as Hlen.
  { rewrite <- (length_group_keys String.compare).
    rewrite <- (groupby_station_keys (sum_of down_board)).
    by rewrite length_map. }
  assert (top_5_stations fdf
          ≡ₚ group_keys String.compare (map station fdf)) as Hp.
  { unfold top_5_stations. rewrite nlargest_all by lia.
    by rewrite groupby_station_keys. }
  assert (forall st, st ∈ top_5_stations fdf <-> st ∈ map station fdf) as Hel.
  { intros st. by rewrite Hp, elem_of_group_keys. }
  split; [exact Hel|]. split.
  { rewrite (Permutation_length Hp). apply length_group_keys. }
  unfold top_5_data. rewrite isin_rows_filter. apply filter_all.
  intros r Hr. apply Hel, elem_of_map_iff. by exists r.
Qed.

Lemma X13_at_most_five_stations_witness :
  top_5_data sample_table = sample_table.
Proof.
  apply (X13_at_most_five_stations sample_table).
  vm_compute. lia.
Defined.

Lemma list_filter_map {A B : Type} (h : A -> B) (P : B -> bool) (l : list A) :
  List.filter P (map h l) = map h (List.filter (fun x => P (h x)) l).
Proof.
  induction l as [|x l IH]; simpl; [done|].
  destruct (P (h x)); simpl; by rewrite IH.
Qed.

Lemma groupby_sums_after_diffs (fdf : DataFrame) :
  groupby_station (sum_of down_board) (map add_diffs fdf)
  = groupby_station (sum_of down_board) fdf.
Proof.
  unfold groupby_station. rewrite map_map. cbn [station add_diffs set_cell].
  apply map_ext. intros k. f_equal.
  unfold group. rewrite list_filter_map. cbn [station add_diffs set_cell].
  unfold sum_of. by rewrite map_map.
Qed.

(** X14: section 9 runs after section 8 has added its two columns to the
    filtered table, and is not disturbed by them: it ranks the same five
    stations and selects the same rows as it would on the table of the
    filter, only that the rows of the line chart carry the two added
    columns. *)
Theorem X14_ranking_after_the_added_columns (fdf : DataFrame) :
  top_5_stations (after_diffs fdf) = top_5_stations fdf /\
  top_5_data (after_diffs fdf) = map add_diffs (top_5_data fdf) /\
  (forall l s, heap s !! l = Some fdf ->
     page (snd ((section8 l >> section9 l) s))
     = page s ++ page8 fdf ++
       [Header "9. 상위 5개 역 분석";
        PlotlyChart (px_line (map add_diffs (top_5_data fdf))
                             "상위 5개 역의 승차 인원 추이")]).
Proof.
  assert (top_5_stations (after_diffs fdf) = top_5_stations fdf) as Htop.
  { rewrite after_diffs_rows. unfold top_5_stations.
    by rewrite groupby_sums_after_diffs. }
  assert (top_5_data (after_diffs fdf) = map add_diffs (top_5_data fdf))
    as Hdata.
  { unfold top_5_data. rewrite Htop, after_diffs_rows.
    rewrite !isin_map, !bool_index_map, list_filter_map.
    cbn [station add_diffs set_cell]. reflexivity. }
  split; [exact Htop|]. split; [exact Hdata|].
  intros l s Hl.
  erewrite bind_done; [|by apply section8_run].
  erewrite section9_run.
  - cbn [snd page]. unfold page9. by rewrite Hdata, <- app_assoc.
  - cbn [heap]. apply list_lookup_insert_eq. by eapply lookup_lt_Some.
Qed.

Lemma X14_ranking_after_the_added_columns_witness :
  page (snd ((section8 0%nat >> section9 0%nat) (mkState [sample_table] [])))
  = page8 sample_table ++
    [Header "9. 상위 5개 역 분석";
     PlotlyChart (px_line (map add_diffs (top_5_data sample_table))
                          "상위 5개 역의 승차 인원 추이")].
Proof.
  exact (proj2 (proj2 (X14_ranking_after_the_added_columns sample_table))
           0%nat (mkState [sample_table] []) eq_refl).
Defined.

(** * The views agree on the stations *)

(** X15: every view that groups by station lists the same stations in
    the same order: the bar chart of section 2, the pie chart of section 3,
    the columns of the heat map of section 4 and both tables of section 7
    hold the stations of the filtered table, each once, ascending by name;
    the stations ranked in section 9 are among them. *)
Theorem X15_views_list_the_same_stations (fdf : DataFrame) :
  let ks := map fst (avg_data fdf) in
  map tot_station (total_data fdf) = ks /\
  columns (heatmap_pivot (heatmap_frame fdf)) = ks /\
  map fst (total_passengers fdf) = ks /\
  map fst (monthly_avg fdf) = ks /\
  (forall st, st ∈ top_5_stations fdf -> st ∈ ks) /\
  (forall st, st ∈ ks <-> exists r, r ∈ fdf /\ station r = st) /\
  StronglySorted (fun a b => String.compare a b = Lt) ks.
Proof.
  intros ks.
  assert (ks = group_keys String.compare (map station fdf)) as ->
    by apply groupby_station_keys.
  split; [rewrite total_data_rows, map_map; apply map_id|].
  split; [apply station_axis_keys|].
  split; [apply groupby_station_keys|].
  split; [apply groupby_station_keys|].
  split.
  { intros st Hst. unfold top_5_stations, nlargest in Hst.
    apply elem_of_map_iff in Hst as (e & <- & He).
    apply elem_of_take in He as (i & He & _).
    apply list_elem_of_lookup_2 in He. rewrite sorted_perm in He.
    rewrite <- (groupby_station_keys (sum_of down_board)).
    apply elem_of_map_iff. by exists e. }
  split.
  { intros st. rewrite elem_of_group_keys, elem_of_map_iff.
    split; intros (r & ? & ?); by exists r. }
  apply station_keys_ascending.
Qed.

(** * The loaded table at the end of a run *)

(** X16: whichever way a run ends after loading a table, the first
    object is still the loaded table, row for row as it was read: the script
    filters into a copy and adds its columns to copies. *)
Theorem X16_loaded_table_unchanged
    (fs : FileSystem) (ui : Widgets) (df : DataFrame) :
  loaded_table fs = Some df ->
  heap (snd (run fs ui)) !! 0%nat = Some df.
Proof.
  intros Hload. destruct df as [|r0 df].
  { unfold run, main.
    erewrite bind_done; [|reflexivity].
    erewrite bind_done; [|by apply load_data_loaded].
    reflexivity. }
  assert (r0 :: df <> []) as Hne by done.
  destruct (date_gtb (start_date ui) (end_date ui)) eqn:Hd.
  - by rewrite (run_invalid_range fs ui _ Hload Hne Hd).
  - destruct (filter_rows (r0 :: df) (selected_stations ui) (start_date ui)
                (end_date ui)) as [|r fdf] eqn:Hf.
    + by rewrite (run_no_rows fs ui _ Hload Hne Hd Hf).
    + by rewrite (run_rendered fs ui _ Hload Hne Hd) by by rewrite Hf.
Qed.

Lemma X16_loaded_table_unchanged_witness :
  heap (snd (run sample_fs sample_ui)) !! 0%nat = Some sample_table.
Proof.
  exact (X16_loaded_table_unchanged sample_fs sample_ui sample_table eq_refl).
Defined.

(** * The cell of a row in the heat map *)

Lemma filter_ext_elem {A : Type} (P Q : A -> Prop)
    `{forall x, Decision (P x)} `{forall x, Decision (Q x)} (l : list A) :
  (forall x, x ∈ l -> (P x <-> Q x)) -> filter P l = filter Q l.
Proof.
  induction l as [|x l IH]; intros Hext; [done|].
  rewrite !filter_cons.
  rewrite IH by (intros y Hy; apply Hext; by right).
  destruct (decide (P x)) as [HP|HP]; destruct (decide (Q x)) as [HQ|HQ];
    try done.
  - exfalso. apply HQ, Hext; [by left|done].
  - exfalso. apply HP, Hext; [by left|done].
Qed.

(** X17: every row of a filtered table whose periods have four-digit
    years is counted in one cell of the heat map, the cell of its month and
    its station.  That cell is computed from the filtered rows of the same
    station with the same year and month, whatever their day and time of
    day: it holds the [float64] mean of their totals, each total being down
    plus up boardings in [int64].  When the counts of these rows are not
    negative and their totals add up to less than [2^53], the cell is the
    quotient of the sum of down plus up boardings by the number of these
    rows, rounded once to [float64]. *)
Theorem X17_every_row_has_its_cell (fdf : DataFrame) (r0 : Row) :
  Forall (fun r => valid_period (period r)) fdf ->
  r0 ∈ fdf ->
  let pv := heatmap_pivot (heatmap_frame fdf) in
  let rows := filter (fun r => year_month r = year_month r0 /\
                               station r = station r0) fdf in
  let total := Zsum (map (fun r => down_board r + up_board r) rows) in
  r0 ∈ rows /\
  (forall r, int64_of (down_board r + up_board r) (boardings r)) /\
  exists i j row,
    index pv !! i = Some (strftime_Ym (period r0)) /\
    columns pv !! j = Some (station r0) /\
    cells pv !! i = Some row /\
    row !! j = Some (Some (group_mean (map boardings rows))) /\
    (Forall record_counts rows -> total < 9007199254740992 ->
     row !! j
     = Some (Some (Float64.div (Float64.of_int64 total)
                               (Float64.of_int64 (Z.of_nat (length rows)))))).
Proof.
  intros Hv Hr0 pv rows total. rewrite Forall_forall in Hv.
  split; [by apply list_elem_of_filter|].
  split; [apply boardings_int64|].
  assert (month_label r0 ∈ month_axis fdf) as Hm.
  { rewrite month_axis_keys. apply elem_of_group_keys, elem_of_map_iff.
    by exists r0. }
  assert (station r0 ∈ station_axis fdf) as Hs.
  { rewrite station_axis_keys. apply elem_of_group_keys, elem_of_map_iff.
    by exists r0. }
  apply list_elem_of_lookup_1 in Hm as [i Hi].
  apply list_elem_of_lookup_1 in Hs as [j Hj].
  pose proof (heat_cell_lookup fdf i j _ _ Hi Hj) as Hcell.
  unfold heat_cell in Hcell. fold pv in Hcell.
  assert (heat_rows fdf (month_label r0) (station r0) = rows) as Hrows.
  { unfold heat_rows, rows. apply filter_ext_elem. intros r Hr.
    unfold heat_key. split.
    - intros [Hl Hst]%pair_equal_spec. split; [|done].
      apply month_label_inj; [by apply Hv|by apply Hv|done].
    - intros [Hym Hst]. rewrite Hst. f_equal.
      by rewrite <- !ym_label_year_month, Hym. }
  rewrite Hrows in Hcell.
  rewrite decide_True in Hcell by (apply elem_of_map_iff; by exists r0).
  destruct (cells pv !! i) as [row|] eqn:Hrow; [|done].
  exists i, j, row. do 4 (split; [done|]).
  intros Hc Hsum. rewrite Hcell. do 2 f_equal.
  exact (mean_of_boardings_small rows Hc Hsum).
Qed.

Lemma X17_every_row_has_its_cell_witness :
  let r0 := mkRow (month_start 2023 1) "A" 1 0 1 0 [] in
  let pv := heatmap_pivot (heatmap_frame repeated_table) in
  Forall (fun r => valid_period (period r)) repeated_table /\
  filter (fun r => year_month r = year_month r0 /\ station r = station r0)
         repeated_table = take 3 repeated_table /\
  exists i j row,
    index pv !! i = Some "2023-01" /\
    columns pv !! j = Some "A" /\
    cells pv !! i = Some row /\
    row !! j = Some (Some (S754_finite false 6004799503160661 (-52))).
Proof.
  intros r0 pv.
  assert (Forall (fun r => valid_period (period r)) repeated_table) as Hv.
  { unfold repeated_table.
    repeat (apply List.Forall_cons;
            [cbv [valid_period period ts_date year month month_start]; lia|]).
    apply List.Forall_nil. }
  assert (r0 ∈ repeated_table) as Hr0 by (right; right; by left).
  split; [exact Hv|]. split; [reflexivity|].
  destruct (proj2 (proj2 (X17_every_row_has_its_cell repeated_table r0 Hv Hr0)))
    as (i & j & row & Hi & Hj & Hrow & _ & Hcell).
  exists i, j, row. do 3 (split; [assumption|]).
  rewrite Hcell; [by vm_compute| |reflexivity].
  change (Forall record_counts (take 3 repeated_table)).
  unfold repeated_table. cbn [take].
  repeat apply List.Forall_cons; try apply List.Forall_nil;
    cbv [record_counts down_board down_alight up_board up_alight]; lia.
Defined.

(** * Filtering a filtered table *)

Lemma date_le_trans (a b c : date) : date_le a b -> date_le b c -> date_le a c.
Proof. unfold date_le. lia. Qed.

(** X18: narrowing never adds rows, and it can be done in steps.  When a
    selection and a date interval lie within another selection and interval,
    the rows the filter keeps for the narrower choice are a subsequence of
    those it keeps for the wider one, and filtering the wider result with the
    narrower choice gives what filtering the table with it gives; filtering
    twice with one choice is filtering once. *)
Theorem X18_filter_narrowing
    (df : DataFrame) (sel sel' : list string) (d0 d1 d0' d1' : date) :
  (forall st, st ∈ sel -> st ∈ sel') ->
  date_le d0' d0 -> date_le d1 d1' ->
  filter_rows (filter_rows df sel' d0' d1') sel d0 d1
  = filter_rows df sel d0 d1 /\
  filter_rows df sel d0 d1 `sublist_of` filter_rows df sel' d0' d1' /\
  filter_rows (filter_rows df sel d0 d1) sel d0 d1 = filter_rows df sel d0 d1.
Proof.
  intros Hsel Hlo Hhi.
  assert (forall s s' a b a' b',
            (forall st, st ∈ s -> st ∈ s') -> date_le a' a -> date_le b b' ->
            filter_rows (filter_rows df s' a' b') s a b = filter_rows df s a b)
    as Hnarrow.
  { intros s s' a b a' b' Hs Ha Hb.
    rewrite !filter_rows_filter, list_filter_filter.
    apply filter_ext_elem. intros r _. unfold qualifies. split; [tauto|].
    intros (Hst & Hda & Hdb). repeat split; try done.
    - by apply Hs.
    - by eapply date_le_trans.
    - by eapply date_le_trans. }
  split; [by apply Hnarrow|]. split.
  - rewrite <- (Hnarrow sel sel' d0 d1 d0' d1') by done.
    rewrite (filter_rows_filter (filter_rows df sel' d0' d1')).
    apply sublist_filter.
  - apply Hnarrow; [done|unfold date_le; lia|unfold date_le; lia].
Qed.

Lemma X18_filter_narrowing_witness :
  filter_rows (filter_rows sample_table ["A"; "B"; "C"]
                 (mkDate 2022 1 1) (mkDate 2023 12 31))
              ["A"] (mkDate 2023 1 1) (mkDate 2023 1 31)
  = filter_rows sample_table ["A"] (mkDate 2023 1 1) (mkDate 2023 1 31).
Proof.
  apply (X18_filter_narrowing sample_table ["A"] ["A"; "B"; "C"]
           (mkDate 2023 1 1) (mkDate 2023 1 31)
           (mkDate 2022 1 1) (mkDate 2023 12 31)).
  - intros st Hst. apply list_elem_of_singleton in Hst as ->. by left.
  - cbv [date_le year month day]. lia.
  - cbv [date_le year month day]. lia.
Defined.

(** * When the nine sections are drawn *)

Lemma run_not_loaded (fs : FileSystem) (ui : Widgets) :
  loaded_table fs = None -> fst (run fs ui) <> Done tt.
Proof.
  unfold loaded_table, run, main, load_data.
  destruct (read_euc_kr fs); [done| |done].
  destruct (read_cp949 fs); done.
Qed.

Lemma filter_rows_nonempty (df : DataFrame) (sel : list string) (d0 d1 : date) :
  filter_rows df sel d0 d1 <> [] <->
  exists r, r ∈ df /\ qualifies sel d0 d1 r.
Proof.
  rewrite filter_rows_filter. split.
  - destruct (filter (qualifies sel d0 d1) df) as [|r rest] eqn:E; [done|].
    intros _. exists r.
    assert (r ∈ filter (qualifies sel d0 d1) df) as Hr by (rewrite E; by left).
    apply list_elem_of_filter in Hr. tauto.
  - intros (r & Hr & Hq) Hnil.
    assert (r ∈ filter (qualifies sel d0 d1) df) as Hin
      by (by apply list_elem_of_filter).
    rewrite Hnil in Hin. by apply elem_of_nil in Hin.
Qed.

(** X19: a run draws its sections exactly when [load_data] returned a
    table, the start date is not after the end date and at least one row of
    the table has a selected station and a date within the two dates.  The
    page then ends with the elements of the nine sections, in their order,
    and in every other case the page holds no chart and no table. *)
Theorem X19_when_the_sections_are_drawn (fs : FileSystem) (ui : Widgets) :
  let sel := selected_stations ui in
  let d0 := start_date ui in
  let d1 := end_date ui in
  (fst (run fs ui) = Done tt <->
   exists df, loaded_table fs = Some df /\ date_le d0 d1 /\
              exists r, r ∈ df /\ qualifies sel d0 d1 r) /\
  (forall df, loaded_table fs = Some df -> fst (run fs ui) = Done tt ->
     page (snd (run fs ui))
     = page_before_filter df ++ rendered sel (filter_rows df sel d0 d1)) /\
  (fst (run fs ui) <> Done tt ->
   forallb (fun e => negb (is_result e)) (page (snd (run fs ui))) = true).
Proof.
  intros sel d0 d1.
  destruct (loaded_table fs) as [df|] eqn:Hload.
  2:{ split; [|split].
      - split; [by intros ?%(run_not_loaded fs ui Hload)|by intros (? & ? & _)].
      - done.
      - intros _. revert Hload. unfold loaded_table, run, main, load_data.
        destruct (read_euc_kr fs); [done| |done].
        destruct (read_cp949 fs); done. }
  destruct df as [|r0 df].
  { assert (run fs ui = (Stop, mkState [[]] [Title "KTX 승하차 인원 데이터 시각화"]))
      as Hrun.
    { unfold run, main. erewrite bind_done; [|reflexivity].
      erewrite bind_done; [|by apply load_data_loaded]. reflexivity. }
    rewrite Hrun. split; [|split; done].
    split; [done|]. intros (df & [= <-] & _ & r & Hr & _).
    by apply elem_of_nil in Hr. }
  assert (r0 :: df <> []) as Hne by done.
  destruct (date_gtb d0 d1) eqn:Hd.
  { rewrite (run_invalid_range fs ui _ Hload Hne Hd).
    split; [|split; [done|]].
    - split; [done|]. intros (df' & _ & Hle & _).
      apply date_gtb_false in Hle. unfold d0, d1 in *. congruence.
    - intros _. cbn [snd page].
      by rewrite forallb_app, page_before_filter_no_result. }
  assert (date_le d0 d1) as Hle.
  { apply date_le_not_lt. intros Hlt. apply date_gtb_spec in Hlt.
    unfold d0, d1 in *. congruence. }
  destruct (filter_rows (r0 :: df) sel d0 d1) as [|r fdf] eqn:Hf.
  { rewrite (run_no_rows fs ui _ Hload Hne Hd Hf).
    split; [|split; [done|]].
    - split; [done|]. intros (df' & [= <-] & _ & Hex).
      apply filter_rows_nonempty in Hex. by rewrite Hf in Hex.
    - intros _. cbn [snd page].
      by rewrite forallb_app, page_before_filter_no_result. }
  rewrite (run_rendered fs ui _ Hload Hne Hd) by (fold sel d0 d1; by rewrite Hf).
  fold sel d0 d1. rewrite Hf. split; [|split; [|done]].
  - split; [|done]. intros _. exists (r0 :: df).
    split; [done|]. split; [done|].
    apply filter_rows_nonempty. by rewrite Hf.
  - intros df' [= <-] _. cbn [snd page]. by rewrite Hf.
Qed.

(** * The options and the default of the station widget (lines 32 to 34) *)

(** X20: the options of the station widget are the stations of the
    table, each once and ascending; its default value keeps the order of the
    preferred list and holds the preferred stations that are options, so
    every default station is one of the options. *)
Theorem X20_station_widget_options (df : DataFrame) :
  StronglySorted (fun a b => String.compare a b = Lt) (all_stations df) /\
  NoDup (all_stations df) /\
  (forall st, st ∈ all_stations df <-> exists r, r ∈ df /\ station r = st) /\
  default_stations df `sublist_of` preferred_stations /\
  (forall st, st ∈ default_stations df <->
              st ∈ preferred_stations /\ st ∈ all_stations df) /\
  (df = [] -> all_stations df = [] /\ default_stations df = []).
Proof.
  split; [apply station_keys_ascending|].
  split; [apply (NoDup_group_keys String.compare)|].
  split.
  { intros st. rewrite elem_of_all_stations, elem_of_map_iff.
    split; intros (r & ? & ?); by exists r. }
  split.
  { unfold default_stations.
    rewrite (list_filter_decide _ (fun s => s ∈ all_stations df))
      by (intros s; apply existsb_eqb_elem_of).
    apply sublist_filter. }
  split.
  { intros st. by rewrite elem_of_default_stations, elem_of_all_stations. }
  by intros ->.
Qed.

(** * The lines of the heat map *)

(** X21: the heat map has no line without a value: every month of its
    index has a mean in at least one column, and every station of its
    columns has a mean in at least one month. *)
Theorem X21_heat_map_has_no_empty_line (fdf : DataFrame) :
  let pv := heatmap_pivot (heatmap_frame fdf) in
  (forall i m, index pv !! i = Some m ->
     exists j row q, cells pv !! i = Some row /\ row !! j = Some (Some q)) /\
  (forall j st, columns pv !! j = Some st ->
     exists i row q, cells pv !! i = Some row /\ row !! j = Some (Some q)).
Proof.
  intros pv.
  assert (forall r i j, r ∈ fdf ->
            month_axis fdf !! i = Some (month_label r) ->
            station_axis fdf !! j = Some (station r) ->
            exists row q, cells pv !! i = Some row /\ row !! j = Some (Some q))
    as Hcell.
  { intros r i j Hr Hi Hj.
    pose proof (heat_cell_lookup fdf i j _ _ Hi Hj) as H.
    unfold heat_cell in H. fold pv in H.
    rewrite decide_True in H by (apply elem_of_map_iff; by exists r).
    destruct (cells pv !! i) as [row|]; [|done]. by do 2 eexists. }
  split.
  - intros i m Hi.
    assert (m ∈ month_axis fdf) as Hm by (by eapply list_elem_of_lookup_2).
    rewrite month_axis_keys in Hm.
    apply elem_of_group_keys, elem_of_map_iff in Hm as (r & <- & Hr).
    assert (station r ∈ station_axis fdf) as Hs.
    { rewrite station_axis_keys. apply elem_of_group_keys, elem_of_map_iff.
      by exists r. }
    apply list_elem_of_lookup_1 in Hs as [j Hj].
    exists j. by apply (Hcell r).
  - intros j st Hj.
    assert (st ∈ station_axis fdf) as Hs by (by eapply list_elem_of_lookup_2).
    rewrite station_axis_keys in Hs.
    apply elem_of_group_keys, elem_of_map_iff in Hs as (r & <- & Hr).
    assert (month_label r ∈ month_axis fdf) as Hm.
    { rewrite month_axis_keys. apply elem_of_group_keys, elem_of_map_iff.
      by exists r. }
    apply list_elem_of_lookup_1 in Hm as [i Hi].
    exists i. by apply (Hcell r).
Qed.

(** * The selection as a set *)

Lemma filter_rows_same_selection
    (df : DataFrame) (sel sel' : list string) (d0 d1 : date) :
  (forall st, st ∈ sel <-> st ∈ sel') ->
  filter_rows df sel d0 d1 = filter_rows df sel' d0 d1.
Proof.
  intros Hsel. rewrite !filter_rows_filter. apply filter_ext_elem.
  intros r _. unfold qualifies. by rewrite Hsel.
Qed.

Lemma rendered_without_time_figure (sel : list string) (fdf : DataFrame) :
  List.filter (fun e => negb (is_time_figure e)) (rendered sel fdf)
  = Header "1. 시간에 따른 승하차 인원 변화" ::
    page2 fdf ++ page3 fdf ++ page4 fdf ++ page5 fdf ++ page6 fdf ++
    page7 fdf ++ page8 fdf ++ page9 (after_diffs fdf).
Proof. reflexivity. Qed.

(** X22: the selection counts as a set.  Two selections with the same
    stations, in any order and with any repetition, give with the same dates
    the same filtered table, the same outcome of the run, the same tables in
    memory and the same page, but for the figure of section 1, whose traces
    follow the order of the selection. *)
Theorem X22_selection_is_a_set
    (fs : FileSystem) (ui ui' : Widgets) :
  (forall st, st ∈ selected_stations ui <-> st ∈ selected_stations ui') ->
  start_date ui' = start_date ui ->
  end_date ui' = end_date ui ->
  (forall df,
     filter_rows df (selected_stations ui') (start_date ui') (end_date ui')
     = filter_rows df (selected_stations ui) (start_date ui) (end_date ui)) /\
  fst (run fs ui') = fst (run fs ui) /\
  heap (snd (run fs ui')) = heap (snd (run fs ui)) /\
  List.filter (fun e => negb (is_time_figure e)) (page (snd (run fs ui')))
  = List.filter (fun e => negb (is_time_figure e)) (page (snd (run fs ui))).
Proof.
  intros Hsel Hd0 Hd1.
  assert (forall df,
            filter_rows df (selected_stations ui') (start_date ui')
              (end_date ui')
            = filter_rows df (selected_stations ui) (start_date ui)
                (end_date ui)) as Hfilter.
  { intros df. rewrite Hd0, Hd1. symmetry.
    by apply filter_rows_same_selection. }
  split; [exact Hfilter|].
  destruct (loaded_table fs) as [df|] eqn:Hload.
  2:{ revert Hload. unfold loaded_table, run, main, load_data.
      destruct (read_euc_kr fs); [done| |done].
      destruct (read_cp949 fs); done. }
  destruct df as [|r0 df].
  { assert (forall u, run fs u
              = (Stop, mkState [[]] [Title "KTX 승하차 인원 데이터 시각화"]))
      as Hrun.
    { intros u. unfold run, main. erewrite bind_done; [|reflexivity].
      erewrite bind_done; [|by apply load_data_loaded]. reflexivity. }
    by rewrite !Hrun. }
  assert (r0 :: df <> []) as Hne by done.
  destruct (date_gtb (start_date ui) (end_date ui)) eqn:Hd.
  { rewrite (run_invalid_range fs ui _ Hload Hne Hd).
    rewrite (run_invalid_range fs ui' _ Hload Hne) by (by rewrite Hd0, Hd1).
    done. }
  destruct (filter_rows (r0 :: df) (selected_stations ui) (start_date ui)
              (end_date ui)) as [|r fdf] eqn:Hf.
  { rewrite (run_no_rows fs ui _ Hload Hne Hd Hf).
    rewrite (run_no_rows fs ui' _ Hload Hne)
      by (by rewrite ?Hfilter, ?Hd0, ?Hd1).
    done. }
  rewrite (run_rendered fs ui _ Hload Hne Hd) by (by rewrite Hf).
  rewrite (run_rendered fs ui' _ Hload Hne)
    by (by rewrite ?Hfilter, ?Hd0, ?Hd1, ?Hf).
  rewrite Hfilter, Hf. cbn [fst snd heap page].
  split; [done|]. split; [done|].
  by rewrite !List.filter_app, !rendered_without_time_figure.
Qed.

Lemma X22_selection_is_a_set_witness :
  filter_rows sample_table ["B"; "A"; "B"] (mkDate 2023 1 1) (mkDate 2023 12 31)
  = filter_rows sample_table ["A"; "B"] (mkDate 2023 1 1) (mkDate 2023 12 31).
Proof.
  refine (proj1 (X22_selection_is_a_set sample_fs
            (mkWidgets ["A"; "B"] (mkDate 2023 1 1) (mkDate 2023 12 31))
            (mkWidgets ["B"; "A"; "B"] (mkDate 2023 1 1) (mkDate 2023 12 31))
            _ eq_refl eq_refl) sample_table).
  intros st. cbn [selected_stations].
  rewrite !elem_of_cons, elem_of_nil. tauto.
Defined.
